(** * ndi_wrapper.c: the JNI bridge to the NDI engine

    A shallow embedding of [app/src/main/cpp/ndi_wrapper.c] and the
    properties of its frame life cycle.  C integers are [Z] with the
    conversions written out, pointers are addresses ([Z], 0 for NULL), the
    heap is a finite map from addresses to typed blocks, and the calls into
    the NDI engine, the JNI environment and the allocator are answered by
    records of oracles, so that every theorem holds for every answer these
    collaborators can give. *)

From Stdlib Require Import ZArith Lia SpecFloat.
From stdpp Require Import gmap strings list.

Local Open Scope Z_scope.

(** ** C integer types *)

Module CInt.

(** Conversion to an unsigned type of [w] bits. *)
Definition to_unsigned (w z : Z) : Z := z mod 2 ^ w.

(** Conversion to a signed type of [w] bits (two's complement). *)
Definition to_signed (w z : Z) : Z := (z + 2 ^ (w - 1)) mod 2 ^ w - 2 ^ (w - 1).

Definition to_uint32 : Z -> Z := to_unsigned 32.
Definition to_size_t : Z -> Z := to_unsigned 64.
Definition to_jint : Z -> Z := to_signed 32.
Definition to_jlong : Z -> Z := to_signed 64.

(** Pointers are 64-bit addresses; handles are pointers seen as [jlong]. *)
Definition is_address (p : Z) : Prop := 0 <= p < 2 ^ 64.
Definition ptr_of_jlong : Z -> Z := to_size_t.    (* [(T* )(intptr_t)handle] *)
Definition jlong_of_ptr : Z -> Z := to_jlong.     (* [(jlong)(intptr_t)p] *)

(** The values of [int] / [jint] and of [int64_t] / [jlong]. *)
Definition int_range (z : Z) : Prop := - 2 ^ 31 <= z < 2 ^ 31.
Definition int64_range (z : Z) : Prop := - 2 ^ 63 <= z < 2 ^ 63.

End CInt.
Import CInt.

(** ** Enumerations of the engine

    The header of the engine, [Processing.NDI.Lib.h], is not among the
    sources; its enumerations and structures are taken from what the
    wrapper names and from the spec. *)

(** Modelled from the spec: the enumeration [NDIlib_recv_bandwidth_e] of
    the engine's header, the bandwidth tiers of spec 6 (metadata-only,
    audio-only, lowest, highest). *)
Inductive NDIlib_recv_bandwidth_e :=
| NDIlib_recv_bandwidth_metadata_only
| NDIlib_recv_bandwidth_audio_only
| NDIlib_recv_bandwidth_lowest
| NDIlib_recv_bandwidth_highest.

(** Modelled from the spec: the enumeration [NDIlib_recv_color_format_e]
    of the engine's header, the color formats of spec 6. *)
Inductive NDIlib_recv_color_format_e :=
| NDIlib_recv_color_format_BGRX_BGRA
| NDIlib_recv_color_format_UYVY_BGRA
| NDIlib_recv_color_format_RGBX_RGBA
| NDIlib_recv_color_format_UYVY_RGBA
| NDIlib_recv_color_format_fastest
| NDIlib_recv_color_format_best.

(** Modelled from the spec: the enumeration [NDIlib_frame_type_e] of the
    engine's header, what a capture may answer (spec 4.3: timeout, a frame
    of some kind, error). *)
Inductive NDIlib_frame_type_e :=
| NDIlib_frame_type_none
| NDIlib_frame_type_video
| NDIlib_frame_type_audio
| NDIlib_frame_type_metadata
| NDIlib_frame_type_error
| NDIlib_frame_type_status_change.

(** Modelled from the spec: the enumeration [NDIlib_frame_format_type_e]
    of the engine's header, the interlace flag of spec 3; the wrapper
    tests for the progressive format only, and the zeroed structure holds
    the interleaved one. *)
Inductive NDIlib_frame_format_type_e :=
| NDIlib_frame_format_type_progressive
| NDIlib_frame_format_type_interleaved
| NDIlib_frame_format_type_field_0
| NDIlib_frame_format_type_field_1.

#[global] Instance NDIlib_frame_type_e_eq_dec : EqDecision NDIlib_frame_type_e.
Proof. solve_decision. Defined.

#[global] Instance NDIlib_frame_format_type_e_eq_dec : EqDecision NDIlib_frame_format_type_e.
Proof. solve_decision. Defined.

(** ** Format mappers *)

(** [switch (bandwidth)] of [map_bandwidth]. *)
Definition map_bandwidth (bandwidth : Z) : NDIlib_recv_bandwidth_e :=
  match bandwidth with
  | 0 => NDIlib_recv_bandwidth_metadata_only
  | 1 => NDIlib_recv_bandwidth_audio_only
  | 2 => NDIlib_recv_bandwidth_lowest
  | 3 => NDIlib_recv_bandwidth_highest
  | _ => NDIlib_recv_bandwidth_highest
  end.

(** [switch (colorFormat)] of [map_color_format]. *)
Definition map_color_format (colorFormat : Z) : NDIlib_recv_color_format_e :=
  match colorFormat with
  | 0 => NDIlib_recv_color_format_BGRX_BGRA
  | 1 => NDIlib_recv_color_format_UYVY_BGRA
  | 2 => NDIlib_recv_color_format_RGBX_RGBA
  | 3 => NDIlib_recv_color_format_UYVY_RGBA
  | 100 => NDIlib_recv_color_format_fastest
  | 101 => NDIlib_recv_color_format_best
  | _ => NDIlib_recv_color_format_UYVY_BGRA
  end.


(** ** Structures of the engine *)

(** Modelled from the spec: the structure [NDIlib_source_t] of the engine's
    header, of which the wrapper reads the name. *)
Module NDIlib_source_t.
Record t := mk {
  p_ndi_name : option string;      (* [None] for a NULL name *)
  p_url_address : option string
}.
End NDIlib_source_t.

(** Modelled from the spec: the structure [NDIlib_video_frame_v2_t] of the
    engine's header, with the fields the wrapper reads: the dimensions,
    row stride, frame rate, pixel format tag, timestamp, interlace flag,
    data pointer and data size of spec 3.  The engine keeps the row stride
    and the data size in the same place (a frame has one or the other,
    by its FourCC); they are two fields here, which covers that case. *)
Module NDIlib_video_frame_v2_t.
Record t := mk {
  xres : Z;
  yres : Z;
  FourCC : Z;
  frame_rate_N : Z;
  frame_rate_D : Z;
  frame_format_type : NDIlib_frame_format_type_e;
  timestamp : Z;
  p_data : Z;
  line_stride_in_bytes : Z;
  data_size_in_bytes : Z
}.
(** [memset(&frame, 0, sizeof(frame))] *)
Definition zero : t :=
  mk 0 0 0 0 0 NDIlib_frame_format_type_interleaved 0 0 0 0.
End NDIlib_video_frame_v2_t.

(** Modelled from the spec: the structure [NDIlib_audio_frame_v2_t] of the
    engine's header, the planar frame descriptor of spec 3 and 4.4. *)
Module NDIlib_audio_frame_v2_t.
Record t := mk {
  sample_rate : Z;
  no_channels : Z;
  no_samples : Z;
  timestamp : Z;
  p_data : Z;
  channel_stride_in_bytes : Z
}.
Definition zero : t := mk 0 0 0 0 0 0.
End NDIlib_audio_frame_v2_t.

(** Modelled from the spec: the structure [NDIlib_recv_performance_t] of
    the engine's header, the frame counts of spec 4.3. *)
Module NDIlib_recv_performance_t.
Record t := mk {
  video_frames : Z;
  audio_frames : Z;
  metadata_frames : Z
}.
End NDIlib_recv_performance_t.

(** ** Structures of the wrapper *)

Module NdiFinderWrapper.
Record t := mk { finder : Z }.
End NdiFinderWrapper.

Module NdiReceiverWrapper.
Record t := mk { recv : Z; surface_window : Z }.
End NdiReceiverWrapper.

Module NdiVideoFrameHandle.
Record t := mk {
  recv : Z;
  frame : NDIlib_video_frame_v2_t.t
}.
End NdiVideoFrameHandle.

Module NdiAudioFrameHandle.
Record t := mk {
  recv : Z;
  frame : NDIlib_audio_frame_v2_t.t;
  interleaved_data : Z;
  interleaved_bytes : Z
}.
End NdiAudioFrameHandle.

(** Kotlin FourCC constants for compressed frames. *)
Definition FOURCC_H264 : Z := 0x34363248.
Definition FOURCC_HEVC : Z := 0x43564548.

(** ** Objects handed to the managed side

    The managed data classes are not among the sources; their fields are
    the results of spec 6, in the order of the constructor signatures the
    wrapper resolves. *)

(** A direct byte buffer: a view of [capacity] bytes at [address]. *)
Record ByteBuffer := { address : Z; capacity : Z }.

(** Modelled from the spec: the managed class [NdiNative.VideoFrame], the
    result of capture-video (spec 6); its fields are the arguments of the
    constructor, [(JIIIIIIJLjava/nio/ByteBuffer;Z)V]. *)
Module VideoFrame.
Record t := mk {
  frameHandle : Z;
  width : Z;
  height : Z;
  stride : Z;
  frameRateNum : Z;
  frameRateDen : Z;
  formatTag : Z;
  timestamp : Z;
  bufferView : ByteBuffer;
  isProgressive : bool
}.
End VideoFrame.

(** Modelled from the spec: the managed class [NdiNative.AudioFrame], the
    result of capture-audio (spec 6); its fields are the arguments of the
    constructor, [(JIIIJLjava/nio/ByteBuffer;)V]. *)
Module AudioFrame.
Record t := mk {
  frameHandle : Z;
  sampleRate : Z;
  channels : Z;
  samplesPerChannel : Z;
  timestamp : Z;
  bufferView : ByteBuffer
}.
End AudioFrame.

(** Modelled from the spec: the managed class
    [NdiNative.ReceiverPerformance], the result of get-performance
    (spec 6); its fields are the arguments of the constructor,
    [(JJJJJI)V]. *)
Module ReceiverPerformance.
Record t := mk {
  videoTotal : Z;
  videoDropped : Z;
  audioTotal : Z;
  audioDropped : Z;
  metadataTotal : Z;
  qualityScore : Z
}.
End ReceiverPerformance.

(** ** The collaborators: engine, JNI environment, allocator

    Each record gives the answers of one collaborator during one call of
    the wrapper. *)

Record NDIlib := {
  NDIlib_initialize : bool;
  (* the returned array ([None] for NULL) and the count stored in no_sources *)
  NDIlib_find_get_current_sources : Z -> option (list NDIlib_source_t.t) * Z;
  (* instance, whether a video / an audio frame is asked for, timeout:
     the frame type and what is written to the frames asked for *)
  NDIlib_recv_capture_v2 :
    Z -> bool -> bool -> Z ->
    NDIlib_frame_type_e * NDIlib_video_frame_v2_t.t * NDIlib_audio_frame_v2_t.t;
  (* the totals and the dropped counts *)
  NDIlib_recv_get_performance :
    Z -> NDIlib_recv_performance_t.t * NDIlib_recv_performance_t.t;
  NDIlib_recv_get_no_connections : Z -> Z;
  (* the bytes of the buffers the engine owns, by address *)
  memory : Z -> Z
}.

Record JNIEnv := {
  FindClass : string -> Z;                    (* 0 for NULL *)
  NewGlobalRef : Z -> Z;
  GetMethodID : Z -> string -> string -> Z;
  NewDirectByteBuffer : Z -> Z -> bool;       (* address, capacity: not NULL *)
  NewObject : Z -> Z -> bool;                 (* class, constructor: not NULL *)
  NewObjectArray : Z -> Z -> bool;            (* length, class: not NULL *)
  NewStringUTF : string -> bool               (* not NULL *)
}.

Record Allocator := {
  calloc : Z;                 (* the address calloc answers, 0 for NULL *)
  malloc : Z;                 (* the address malloc answers, 0 for NULL *)
  uninitialized : nat -> Z    (* what a fresh malloc block holds, by index *)
}.

(** ** Process state *)

Record jni_cache := {
  g_jni_cache_initialized : Z;
  g_class_VideoFrame : Z;
  g_ctor_VideoFrame : Z;
  g_class_AudioFrame : Z;
  g_ctor_AudioFrame : Z;
  g_class_ReceiverPerformance : Z;
  g_ctor_ReceiverPerformance : Z
}.

(** What lives at a heap address. *)
Inductive block :=
| BFinder (f : NdiFinderWrapper.t)
| BReceiver (r : NdiReceiverWrapper.t)
| BVideoHandle (h : NdiVideoFrameHandle.t)
| BAudioHandle (h : NdiAudioFrameHandle.t)
| BFloats (l : list Z).       (* a [float] array, each entry by its 32 bits *)

Record world := {
  g_initialized : Z;
  cache : jni_cache;
  heap : gmap Z block
}.

Definition set_g_initialized (v : Z) (w : world) : world :=
  {| g_initialized := v; cache := cache w; heap := heap w |}.
Definition set_cache (c : jni_cache) (w : world) : world :=
  {| g_initialized := g_initialized w; cache := c; heap := heap w |}.
Definition set_heap (h : gmap Z block) (w : world) : world :=
  {| g_initialized := g_initialized w; cache := cache w; heap := h |}.

(** ** What a call does outside the process state *)

Inductive mutex :=
| g_init_mutex
| g_jni_cache_mutex
| wrapper_mutex (wrapper : Z).     (* [&wrapper->mutex] *)

Inductive event :=
| pthread_mutex_lock (m : mutex)
| pthread_mutex_unlock (m : mutex)
| call_NDIlib_initialize
| call_NDIlib_destroy
| call_NDIlib_find_get_current_sources (finder : Z)
| call_NDIlib_recv_capture_v2 (recv : Z) (video audio : bool) (timeout : Z)
| call_NDIlib_recv_free_video_v2 (recv : Z) (frame : NDIlib_video_frame_v2_t.t)
| call_NDIlib_recv_free_audio_v2 (recv : Z) (frame : NDIlib_audio_frame_v2_t.t)
| call_NDIlib_recv_get_performance (recv : Z)
| call_NDIlib_recv_get_no_connections (recv : Z).

(** The calls into the engine among the events of a call. *)
Definition is_engine_call (e : event) : bool :=
  match e with
  | pthread_mutex_lock _ | pthread_mutex_unlock _ => false
  | _ => true
  end.

Definition engine_calls (evs : list event) : list event :=
  List.filter is_engine_call evs.

(** ** Programs: state, events, early [return]

    A statement of type [M R A] runs inside a C function returning [R]: it
    either proceeds with a value of type [A], or executes [return r], or has
    no defined behaviour (a pointer that is not live is dereferenced or
    freed, the allocator answers an address in use, the engine's array is
    shorter than its count).  Events are collected in program order. *)

Inductive outcome (R A : Type) : Type :=
| Proceed (a : A) (w : world) (evs : list event)
| Returned (r : R) (w : world) (evs : list event)
| Undefined.
Arguments Proceed {R A} a w evs.
Arguments Returned {R A} r w evs.
Arguments Undefined {R A}.

Definition M (R A : Type) : Type := world -> outcome R A.

Definition ret {R A} (a : A) : M R A := fun w => Proceed a w [].

(** The events [evs] happened before those of [o]. *)
Definition prefix {R A} (evs : list event) (o : outcome R A) : outcome R A :=
  match o with
  | Proceed a w e => Proceed a w (evs ++ e)
  | Returned r w e => Returned r w (evs ++ e)
  | Undefined => Undefined
  end.

Definition bind {R A B} (m : M R A) (k : A -> M R B) : M R B :=
  fun w =>
    match m w with
    | Proceed a w1 e1 => prefix e1 (k a w1)
    | Returned r w1 e1 => Returned r w1 e1
    | Undefined => Undefined
    end.

Declare Scope prog_scope.
Delimit Scope prog_scope with prog.
Notation "x <- m ;; k" := (bind m (fun x => k))
  (at level 100, m at next level, right associativity) : prog_scope.
Notation "m ;; k" := (bind m (fun _ => k))
  (at level 100, right associativity) : prog_scope.
Local Open Scope prog_scope.

(** [return r;] *)
Definition Return {R A} (r : R) : M R A := fun w => Returned r w [].

Definition undefined {R A} : M R A := fun _ => Undefined.

Definition emit {R} (e : event) : M R unit := fun w => Proceed tt w [e].

Definition get {R} : M R world := fun w => Proceed w w [].

Definition modify {R} (f : world -> world) : M R unit := fun w => Proceed tt (f w) [].

(** [if (c) { m }] *)
Definition when {R} (c : bool) (m : M R unit) : M R unit :=
  if c then m else ret tt.

(** A call of a function of the wrapper from another one. *)
Definition invoke {R A} (f : M A A) : M R A :=
  fun w =>
    match f w with
    | Proceed a w' evs | Returned a w' evs => Proceed a w' evs
    | Undefined => Undefined
    end.

(** A call from the managed side: the result, the state left behind and the
    events, when the behaviour is defined. *)
Definition call {R} (f : M R R) (w : world) : option (R * world * list event) :=
  match f w with
  | Proceed r w' evs | Returned r w' evs => Some (r, w', evs)
  | Undefined => None
  end.

(** [for (i = lo; i < hi; i++) body], on a state threaded through. *)
Fixpoint for_loop {S : Type} (n : nat) (i : Z) (body : Z -> S -> S) (s : S) : S :=
  match n with
  | O => s
  | Datatypes.S n' => for_loop n' (i + 1) body (body i s)
  end.

Definition for_range {S : Type} (lo hi : Z) (body : Z -> S -> S) (s : S) : S :=
  for_loop (Z.to_nat (hi - lo)) lo body s.

(** *** Heap accesses *)

(** [calloc] / [malloc] answering [p], the block holding [b] at first. *)
Definition allocate {R} (p : Z) (b : block) : M R Z :=
  fun w =>
    if p =? 0 then Proceed 0 w []
    else if (0 <? p) && (p <? 2 ^ 64) then
      match heap w !! p with
      | None => Proceed p (set_heap (<[p := b]> (heap w)) w) []
      | Some _ => Undefined
      end
    else Undefined.

(** [free(p)]; [free(NULL)] does nothing. *)
Definition free {R} (p : Z) : M R unit :=
  fun w =>
    if p =? 0 then Proceed tt w []
    else match heap w !! p with
         | Some _ => Proceed tt (set_heap (delete p (heap w)) w) []
         | None => Undefined
         end.

Definition load {R} (p : Z) : M R block :=
  fun w =>
    match heap w !! p with
    | Some b => Proceed b w []
    | None => Undefined
    end.

Definition store {R} (p : Z) (b : block) : M R unit :=
  fun w =>
    match heap w !! p with
    | Some _ => Proceed tt (set_heap (<[p := b]> (heap w)) w) []
    | None => Undefined
    end.

Definition load_finder {R} (p : Z) : M R NdiFinderWrapper.t :=
  b <- load p ;; match b with BFinder f => ret f | _ => undefined end.

Definition load_receiver {R} (p : Z) : M R NdiReceiverWrapper.t :=
  b <- load p ;; match b with BReceiver r => ret r | _ => undefined end.

Definition load_video_handle {R} (p : Z) : M R NdiVideoFrameHandle.t :=
  b <- load p ;; match b with BVideoHandle h => ret h | _ => undefined end.

Definition load_audio_handle {R} (p : Z) : M R NdiAudioFrameHandle.t :=
  b <- load p ;; match b with BAudioHandle h => ret h | _ => undefined end.

(** [pthread_mutex_lock(&wrapper->mutex)]: the wrapper has to be live. *)
Definition lock_wrapper {R} (wrapper : Z) : M R unit :=
  b <- load wrapper ;;
  match b with
  | BFinder _ | BReceiver _ => emit (pthread_mutex_lock (wrapper_mutex wrapper))
  | _ => undefined
  end.

Definition unlock_wrapper {R} (wrapper : Z) : M R unit :=
  b <- load wrapper ;;
  match b with
  | BFinder _ | BReceiver _ => emit (pthread_mutex_unlock (wrapper_mutex wrapper))
  | _ => undefined
  end.

(** ** Lazy callback-schema cache

    Logging and [DeleteLocalRef] leave no trace in what is modelled. *)

Definition set_g_jni_cache_initialized (v : Z) (c : jni_cache) : jni_cache :=
  {| g_jni_cache_initialized := v;
     g_class_VideoFrame := g_class_VideoFrame c;
     g_ctor_VideoFrame := g_ctor_VideoFrame c;
     g_class_AudioFrame := g_class_AudioFrame c;
     g_ctor_AudioFrame := g_ctor_AudioFrame c;
     g_class_ReceiverPerformance := g_class_ReceiverPerformance c;
     g_ctor_ReceiverPerformance := g_ctor_ReceiverPerformance c |}.
Definition set_g_class_VideoFrame (v : Z) (c : jni_cache) : jni_cache :=
  {| g_jni_cache_initialized := g_jni_cache_initialized c;
     g_class_VideoFrame := v;
     g_ctor_VideoFrame := g_ctor_VideoFrame c;
     g_class_AudioFrame := g_class_AudioFrame c;
     g_ctor_AudioFrame := g_ctor_AudioFrame c;
     g_class_ReceiverPerformance := g_class_ReceiverPerformance c;
     g_ctor_ReceiverPerformance := g_ctor_ReceiverPerformance c |}.
Definition set_g_ctor_VideoFrame (v : Z) (c : jni_cache) : jni_cache :=
  {| g_jni_cache_initialized := g_jni_cache_initialized c;
     g_class_VideoFrame := g_class_VideoFrame c;
     g_ctor_VideoFrame := v;
     g_class_AudioFrame := g_class_AudioFrame c;
     g_ctor_AudioFrame := g_ctor_AudioFrame c;
     g_class_ReceiverPerformance := g_class_ReceiverPerformance c;
     g_ctor_ReceiverPerformance := g_ctor_ReceiverPerformance c |}.
Definition set_g_class_AudioFrame (v : Z) (c : jni_cache) : jni_cache :=
  {| g_jni_cache_initialized := g_jni_cache_initialized c;
     g_class_VideoFrame := g_class_VideoFrame c;
     g_ctor_VideoFrame := g_ctor_VideoFrame c;
     g_class_AudioFrame := v;
     g_ctor_AudioFrame := g_ctor_AudioFrame c;
     g_class_ReceiverPerformance := g_class_ReceiverPerformance c;
     g_ctor_ReceiverPerformance := g_ctor_ReceiverPerformance c |}.
Definition set_g_ctor_AudioFrame (v : Z) (c : jni_cache) : jni_cache :=
  {| g_jni_cache_initialized := g_jni_cache_initialized c;
     g_class_VideoFrame := g_class_VideoFrame c;
     g_ctor_VideoFrame := g_ctor_VideoFrame c;
     g_class_AudioFrame := g_class_AudioFrame c;
     g_ctor_AudioFrame := v;
     g_class_ReceiverPerformance := g_class_ReceiverPerformance c;
     g_ctor_ReceiverPerformance := g_ctor_ReceiverPerformance c |}.
Definition set_g_class_ReceiverPerformance (v : Z) (c : jni_cache) : jni_cache :=
  {| g_jni_cache_initialized := g_jni_cache_initialized c;
     g_class_VideoFrame := g_class_VideoFrame c;
     g_ctor_VideoFrame := g_ctor_VideoFrame c;
     g_class_AudioFrame := g_class_AudioFrame c;
     g_ctor_AudioFrame := g_ctor_AudioFrame c;
     g_class_ReceiverPerformance := v;
     g_ctor_ReceiverPerformance := g_ctor_ReceiverPerformance c |}.
Definition set_g_ctor_ReceiverPerformance (v : Z) (c : jni_cache) : jni_cache :=
  {| g_jni_cache_initialized := g_jni_cache_initialized c;
     g_class_VideoFrame := g_class_VideoFrame c;
     g_ctor_VideoFrame := g_ctor_VideoFrame c;
     g_class_AudioFrame := g_class_AudioFrame c;
     g_ctor_AudioFrame := g_ctor_AudioFrame c;
     g_class_ReceiverPerformance := g_class_ReceiverPerformance c;
     g_ctor_ReceiverPerformance := v |}.

Definition update_cache {R} (f : jni_cache -> jni_cache) : M R unit :=
  modify (fun w => set_cache (f (cache w)) w).

Definition unlock_cache {R} : M R unit :=
  emit (pthread_mutex_unlock g_jni_cache_mutex).

Definition ensure_jni_cache (env : JNIEnv) : M Z Z :=
  w <- get ;;
  when (negb (g_jni_cache_initialized (cache w) =? 0)) (Return 1) ;;
  emit (pthread_mutex_lock g_jni_cache_mutex) ;;
  w <- get ;;
  when (negb (g_jni_cache_initialized (cache w) =? 0))
    (unlock_cache ;; Return 1) ;;
  let localVideoFrame :=
    FindClass env "com/example/ndireceiver/ndi/NdiNative$VideoFrame" in
  when (localVideoFrame =? 0) (unlock_cache ;; Return 0) ;;
  update_cache (set_g_class_VideoFrame (NewGlobalRef env localVideoFrame)) ;;
  w <- get ;;
  when (g_class_VideoFrame (cache w) =? 0) (unlock_cache ;; Return 0) ;;
  update_cache (set_g_ctor_VideoFrame
    (GetMethodID env (g_class_VideoFrame (cache w)) "<init>"
       "(JIIIIIIJLjava/nio/ByteBuffer;Z)V")) ;;
  w <- get ;;
  when (g_ctor_VideoFrame (cache w) =? 0) (unlock_cache ;; Return 0) ;;
  let localAudioFrame :=
    FindClass env "com/example/ndireceiver/ndi/NdiNative$AudioFrame" in
  when (localAudioFrame =? 0) (unlock_cache ;; Return 0) ;;
  update_cache (set_g_class_AudioFrame (NewGlobalRef env localAudioFrame)) ;;
  w <- get ;;
  when (g_class_AudioFrame (cache w) =? 0) (unlock_cache ;; Return 0) ;;
  update_cache (set_g_ctor_AudioFrame
    (GetMethodID env (g_class_AudioFrame (cache w)) "<init>"
       "(JIIIJLjava/nio/ByteBuffer;)V")) ;;
  w <- get ;;
  when (g_ctor_AudioFrame (cache w) =? 0) (unlock_cache ;; Return 0) ;;
  let localPerf :=
    FindClass env "com/example/ndireceiver/ndi/NdiNative$ReceiverPerformance" in
  when (localPerf =? 0) (unlock_cache ;; Return 0) ;;
  update_cache (set_g_class_ReceiverPerformance (NewGlobalRef env localPerf)) ;;
  w <- get ;;
  when (g_class_ReceiverPerformance (cache w) =? 0) (unlock_cache ;; Return 0) ;;
  update_cache (set_g_ctor_ReceiverPerformance
    (GetMethodID env (g_class_ReceiverPerformance (cache w)) "<init>" "(JJJJJI)V")) ;;
  w <- get ;;
  when (g_ctor_ReceiverPerformance (cache w) =? 0) (unlock_cache ;; Return 0) ;;
  update_cache (set_g_jni_cache_initialized 1) ;;
  unlock_cache ;;
  Return 1.

(** ** Library initialization *)

Definition Java_com_example_ndireceiver_ndi_NdiNative_initialize
    (ndi : NDIlib) : M bool bool :=
  emit (pthread_mutex_lock g_init_mutex) ;;
  w <- get ;;
  when (negb (g_initialized w =? 0))
    (emit (pthread_mutex_unlock g_init_mutex) ;; Return true) ;;
  emit call_NDIlib_initialize ;;
  when (negb (NDIlib_initialize ndi))
    (emit (pthread_mutex_unlock g_init_mutex) ;; Return false) ;;
  modify (set_g_initialized 1) ;;
  emit (pthread_mutex_unlock g_init_mutex) ;;
  Return true.
Abbreviation initialize :=
  Java_com_example_ndireceiver_ndi_NdiNative_initialize (only parsing).

Definition Java_com_example_ndireceiver_ndi_NdiNative_destroy : M unit unit :=
  emit (pthread_mutex_lock g_init_mutex) ;;
  w <- get ;;
  when (g_initialized w =? 0)
    (emit (pthread_mutex_unlock g_init_mutex) ;; Return tt) ;;
  emit call_NDIlib_destroy ;;
  modify (set_g_initialized 0) ;;
  emit (pthread_mutex_unlock g_init_mutex) ;;
  ret tt.
Abbreviation destroy :=
  Java_com_example_ndireceiver_ndi_NdiNative_destroy (only parsing).

Definition Java_com_example_ndireceiver_ndi_NdiNative_isInitialized : M bool bool :=
  w <- get ;;
  Return (negb (g_initialized w =? 0)).
Abbreviation isInitialized :=
  Java_com_example_ndireceiver_ndi_NdiNative_isInitialized (only parsing).

(** ** Finder *)

(** [sources[i].p_ndi_name] when [sources] is not NULL, NULL otherwise;
    nothing when [i] is outside of the array. *)
Definition source_name_at (sources : option (list NDIlib_source_t.t)) (i : Z)
  : option (option string) :=
  match sources with
  | None => Some None
  | Some l => NDIlib_source_t.p_ndi_name <$> (l !! Z.to_nat i)
  end.

(** [SetObjectArrayElement]: an index outside of the array stores nothing. *)
Definition SetObjectArrayElement {A} (arr : list A) (index : Z) (v : A) : list A :=
  if (0 <=? index) && (index <? Z.of_nat (length arr))
  then <[Z.to_nat index := v]> arr
  else arr.

(** The body of the loop of [finderGetSources] on the array [result];
    [None] once the behaviour is undefined. *)
Definition copy_source_name (env : JNIEnv) (sources : option (list NDIlib_source_t.t))
    (i : Z) (result : option (list (option string))) : option (list (option string)) :=
  match result, source_name_at sources i with
  | Some arr, Some name_c =>
      let utf := match name_c with Some s => s | None => EmptyString end in
      if NewStringUTF env utf
      then Some (SetObjectArrayElement arr (to_jint i) (Some utf))
      else Some arr
  | _, _ => None
  end.

(** An array of [len] null references, when the environment makes one. *)
Definition new_object_array (env : JNIEnv) (len class : Z) : option (list (option string)) :=
  if len <? 0 then None
  else if NewObjectArray env len class then Some (replicate (Z.to_nat len) None)
  else None.

Definition Java_com_example_ndireceiver_ndi_NdiNative_finderGetSources
    (ndi : NDIlib) (env : JNIEnv) (finderPtr : Z)
  : M (option (list (option string))) (option (list (option string))) :=
  when (finderPtr =? 0) (Return None) ;;
  let finderPtr := ptr_of_jlong finderPtr in
  when (finderPtr =? 0) (Return None) ;;
  wrapper <- load_finder finderPtr ;;
  when (NdiFinderWrapper.finder wrapper =? 0) (Return None) ;;
  lock_wrapper finderPtr ;;
  emit (call_NDIlib_find_get_current_sources (NdiFinderWrapper.finder wrapper)) ;;
  let sources := fst (NDIlib_find_get_current_sources ndi (NdiFinderWrapper.finder wrapper)) in
  let no_sources :=
    to_uint32 (snd (NDIlib_find_get_current_sources ndi (NdiFinderWrapper.finder wrapper))) in
  let stringClass := FindClass env "java/lang/String" in
  when (stringClass =? 0) (unlock_wrapper finderPtr ;; Return None) ;;
  match new_object_array env (to_jint no_sources) stringClass with
  | None => unlock_wrapper finderPtr ;; Return None
  | Some result =>
      match for_range 0 no_sources (copy_source_name env sources) (Some result) with
      | None => undefined
      | Some result => unlock_wrapper finderPtr ;; Return (Some result)
      end
  end.
Abbreviation finderGetSources :=
  Java_com_example_ndireceiver_ndi_NdiNative_finderGetSources (only parsing).

(** ** Receiver: video *)

Definition is_compressed_fourcc (fourcc : Z) : bool :=
  (fourcc =? FOURCC_H264) || (fourcc =? FOURCC_HEVC).

(** The size computed for the buffer of a captured video frame. *)
Definition video_buffer_size (frame : NDIlib_video_frame_v2_t.t) : Z :=
  let fourcc := to_uint32 (NDIlib_video_frame_v2_t.FourCC frame) in
  if is_compressed_fourcc fourcc
  then to_jlong (NDIlib_video_frame_v2_t.data_size_in_bytes frame)
  else
    let stride := to_jlong (NDIlib_video_frame_v2_t.line_stride_in_bytes frame) in
    let abs_stride := if stride <? 0 then to_jlong (- stride) else stride in
    to_jlong (abs_stride * to_jlong (NDIlib_video_frame_v2_t.yres frame)).

(** The [VideoFrame] object built for the frame held by [handle]: the
    arguments of the [NewObject] call, the byte buffer being the view
    [NewDirectByteBuffer] made of [p_data]. *)
Definition new_VideoFrame (handle : Z) (frame : NDIlib_video_frame_v2_t.t) : VideoFrame.t :=
  let fourcc := to_uint32 (NDIlib_video_frame_v2_t.FourCC frame) in
  let is_compressed := is_compressed_fourcc fourcc in
  let byteBuffer :=
    {| address := NDIlib_video_frame_v2_t.p_data frame;
       capacity := video_buffer_size frame |} in
  let is_progressive :=
    bool_decide (NDIlib_video_frame_v2_t.frame_format_type frame
                 = NDIlib_frame_format_type_progressive) in
  let out_stride :=
    if is_compressed then 0
    else to_jint (NDIlib_video_frame_v2_t.line_stride_in_bytes frame) in
  VideoFrame.mk
    (jlong_of_ptr handle)
    (to_jint (NDIlib_video_frame_v2_t.xres frame))
    (to_jint (NDIlib_video_frame_v2_t.yres frame))
    out_stride
    (to_jint (NDIlib_video_frame_v2_t.frame_rate_N frame))
    (to_jint (NDIlib_video_frame_v2_t.frame_rate_D frame))
    (to_jint fourcc)
    (to_jlong (NDIlib_video_frame_v2_t.timestamp frame))
    byteBuffer
    is_progressive.

(** The failure exit after a frame was captured: the frame goes back to the
    engine under the lock, the handle is freed, NULL is returned. *)
Definition release_video_and_fail {A} (receiverPtr handle : Z) : M (option VideoFrame.t) A :=
  lock_wrapper receiverPtr ;;
  wrapper <- load_receiver receiverPtr ;;
  h <- load_video_handle handle ;;
  emit (call_NDIlib_recv_free_video_v2
          (NdiReceiverWrapper.recv wrapper) (NdiVideoFrameHandle.frame h)) ;;
  unlock_wrapper receiverPtr ;;
  free handle ;;
  Return None.

Definition Java_com_example_ndireceiver_ndi_NdiNative_receiverCaptureVideo
    (ndi : NDIlib) (env : JNIEnv) (libc : Allocator)
    (receiverPtr timeoutMs : Z) : M (option VideoFrame.t) (option VideoFrame.t) :=
  when (receiverPtr =? 0) (Return None) ;;
  let receiverPtr := ptr_of_jlong receiverPtr in
  when (receiverPtr =? 0) (Return None) ;;
  wrapper <- load_receiver receiverPtr ;;
  when (NdiReceiverWrapper.recv wrapper =? 0) (Return None) ;;
  cached <- invoke (ensure_jni_cache env) ;;
  when (cached =? 0) (Return None) ;;
  handle <- allocate (calloc libc)
              (BVideoHandle (NdiVideoFrameHandle.mk 0 NDIlib_video_frame_v2_t.zero)) ;;
  when (handle =? 0) (Return None) ;;
  store handle (BVideoHandle
    (NdiVideoFrameHandle.mk (NdiReceiverWrapper.recv wrapper) NDIlib_video_frame_v2_t.zero)) ;;
  lock_wrapper receiverPtr ;;
  emit (call_NDIlib_recv_capture_v2
          (NdiReceiverWrapper.recv wrapper) true false (to_uint32 timeoutMs)) ;;
  let captured :=
    NDIlib_recv_capture_v2 ndi (NdiReceiverWrapper.recv wrapper) true false
      (to_uint32 timeoutMs) in
  let frame_type := fst (fst captured) in
  store handle (BVideoHandle
    (NdiVideoFrameHandle.mk (NdiReceiverWrapper.recv wrapper) (snd (fst captured)))) ;;
  unlock_wrapper receiverPtr ;;
  when (negb (bool_decide (frame_type = NDIlib_frame_type_video)))
    (free handle ;; Return None) ;;
  h <- load_video_handle handle ;;
  let frame := NdiVideoFrameHandle.frame h in
  when (NDIlib_video_frame_v2_t.p_data frame =? 0)
    (release_video_and_fail receiverPtr handle) ;;
  let buffer_size := video_buffer_size frame in
  when (buffer_size <=? 0) (release_video_and_fail receiverPtr handle) ;;
  when (negb (NewDirectByteBuffer env (NDIlib_video_frame_v2_t.p_data frame) buffer_size))
    (release_video_and_fail receiverPtr handle) ;;
  w <- get ;;
  when (negb (NewObject env (g_class_VideoFrame (cache w)) (g_ctor_VideoFrame (cache w))))
    (release_video_and_fail receiverPtr handle) ;;
  Return (Some (new_VideoFrame handle frame)).
Abbreviation receiverCaptureVideo :=
  Java_com_example_ndireceiver_ndi_NdiNative_receiverCaptureVideo (only parsing).

Definition Java_com_example_ndireceiver_ndi_NdiNative_receiverFreeVideo
    (receiverPtr framePtr : Z) : M unit unit :=
  when (framePtr =? 0) (Return tt) ;;
  let framePtr := ptr_of_jlong framePtr in
  when (framePtr =? 0) (Return tt) ;;
  handle <- load_video_handle framePtr ;;
  let receiverPtr := ptr_of_jlong receiverPtr in
  (if negb (receiverPtr =? 0)
   then
     lock_wrapper receiverPtr ;;
     emit (call_NDIlib_recv_free_video_v2
             (NdiVideoFrameHandle.recv handle) (NdiVideoFrameHandle.frame handle)) ;;
     unlock_wrapper receiverPtr
   else
     emit (call_NDIlib_recv_free_video_v2
             (NdiVideoFrameHandle.recv handle) (NdiVideoFrameHandle.frame handle))) ;;
  free framePtr.
Abbreviation receiverFreeVideo :=
  Java_com_example_ndireceiver_ndi_NdiNative_receiverFreeVideo (only parsing).

(** ** Receiver: audio *)

(** The 32 bits of the [float] at [addr], from the bytes the engine holds
    (little endian, as on the arm64-v8a target). *)
Definition load_float (mem : Z -> Z) (addr : Z) : Z :=
  mem (to_size_t addr) mod 256
  + 2 ^ 8 * (mem (to_size_t (addr + 1)) mod 256)
  + 2 ^ 16 * (mem (to_size_t (addr + 2)) mod 256)
  + 2 ^ 24 * (mem (to_size_t (addr + 3)) mod 256).

(** Convert planar float audio to interleaved float audio: the two loops of
    [receiverCaptureAudio] on the array [interleaved_data]. *)
Definition interleave (mem : Z -> Z) (frame : NDIlib_audio_frame_v2_t.t)
    (channels samples_per_channel : Z) (interleaved_data : list Z) : list Z :=
  let base := NDIlib_audio_frame_v2_t.p_data frame in
  for_range 0 samples_per_channel (fun s out =>
    for_range 0 channels (fun c out =>
      let channel_ptr :=
        to_size_t (base + to_size_t (to_size_t c
          * to_size_t (NDIlib_audio_frame_v2_t.channel_stride_in_bytes frame))) in
      let index := to_size_t (to_size_t (to_size_t s * to_size_t channels) + to_size_t c) in
      <[Z.to_nat index := load_float mem (channel_ptr + 4 * s)]> out) out)
    interleaved_data.

(** [bytes]: the size of the interleaved buffer,
    [total_samples * sizeof(float)]. *)
Definition interleaved_size (frame : NDIlib_audio_frame_v2_t.t) : Z :=
  let channels := NDIlib_audio_frame_v2_t.no_channels frame in
  let samples_per_channel := NDIlib_audio_frame_v2_t.no_samples frame in
  let total_samples := to_size_t (to_size_t channels * to_size_t samples_per_channel) in
  to_size_t (total_samples * 4).

(** The [float] array a block of [bytes] bytes is, as [malloc] leaves it. *)
Definition malloc_floats (libc : Allocator) (bytes : Z) : list Z :=
  List.map (uninitialized libc) (seq 0 (Z.to_nat (bytes / 4))).

(** The [AudioFrame] object built for the frame held by [handle]. *)
Definition new_AudioFrame (handle : Z) (frame : NDIlib_audio_frame_v2_t.t)
    (interleaved_data interleaved_bytes : Z) : AudioFrame.t :=
  AudioFrame.mk
    (jlong_of_ptr handle)
    (to_jint (NDIlib_audio_frame_v2_t.sample_rate frame))
    (to_jint (NDIlib_audio_frame_v2_t.no_channels frame))
    (to_jint (NDIlib_audio_frame_v2_t.no_samples frame))
    (to_jlong (NDIlib_audio_frame_v2_t.timestamp frame))
    {| address := interleaved_data; capacity := to_jlong interleaved_bytes |}.

(** The failure exits after an audio frame was captured. *)
Definition release_audio_and_fail {A} (receiverPtr handle : Z) : M (option AudioFrame.t) A :=
  lock_wrapper receiverPtr ;;
  wrapper <- load_receiver receiverPtr ;;
  h <- load_audio_handle handle ;;
  emit (call_NDIlib_recv_free_audio_v2
          (NdiReceiverWrapper.recv wrapper) (NdiAudioFrameHandle.frame h)) ;;
  unlock_wrapper receiverPtr ;;
  free handle ;;
  Return None.

Definition release_audio_and_buffer_and_fail {A} (receiverPtr handle : Z)
  : M (option AudioFrame.t) A :=
  lock_wrapper receiverPtr ;;
  wrapper <- load_receiver receiverPtr ;;
  h <- load_audio_handle handle ;;
  emit (call_NDIlib_recv_free_audio_v2
          (NdiReceiverWrapper.recv wrapper) (NdiAudioFrameHandle.frame h)) ;;
  unlock_wrapper receiverPtr ;;
  free (NdiAudioFrameHandle.interleaved_data h) ;;
  free handle ;;
  Return None.

Definition Java_com_example_ndireceiver_ndi_NdiNative_receiverCaptureAudio
    (ndi : NDIlib) (env : JNIEnv) (libc : Allocator)
    (receiverPtr timeoutMs : Z) : M (option AudioFrame.t) (option AudioFrame.t) :=
  when (receiverPtr =? 0) (Return None) ;;
  let receiverPtr := ptr_of_jlong receiverPtr in
  when (receiverPtr =? 0) (Return None) ;;
  wrapper <- load_receiver receiverPtr ;;
  when (NdiReceiverWrapper.recv wrapper =? 0) (Return None) ;;
  cached <- invoke (ensure_jni_cache env) ;;
  when (cached =? 0) (Return None) ;;
  handle <- allocate (calloc libc)
              (BAudioHandle (NdiAudioFrameHandle.mk 0 NDIlib_audio_frame_v2_t.zero 0 0)) ;;
  when (handle =? 0) (Return None) ;;
  store handle (BAudioHandle
    (NdiAudioFrameHandle.mk (NdiReceiverWrapper.recv wrapper)
       NDIlib_audio_frame_v2_t.zero 0 0)) ;;
  lock_wrapper receiverPtr ;;
  emit (call_NDIlib_recv_capture_v2
          (NdiReceiverWrapper.recv wrapper) false true (to_uint32 timeoutMs)) ;;
  let captured :=
    NDIlib_recv_capture_v2 ndi (NdiReceiverWrapper.recv wrapper) false true
      (to_uint32 timeoutMs) in
  let frame_type := fst (fst captured) in
  store handle (BAudioHandle
    (NdiAudioFrameHandle.mk (NdiReceiverWrapper.recv wrapper) (snd captured) 0 0)) ;;
  unlock_wrapper receiverPtr ;;
  when (negb (bool_decide (frame_type = NDIlib_frame_type_audio)))
    (free handle ;; Return None) ;;
  h <- load_audio_handle handle ;;
  let frame := NdiAudioFrameHandle.frame h in
  let sample_rate := NDIlib_audio_frame_v2_t.sample_rate frame in
  let channels := NDIlib_audio_frame_v2_t.no_channels frame in
  let samples_per_channel := NDIlib_audio_frame_v2_t.no_samples frame in
  when ((NDIlib_audio_frame_v2_t.p_data frame =? 0) || (sample_rate <=? 0)
        || (channels <=? 0) || (samples_per_channel <=? 0))
    (release_audio_and_fail receiverPtr handle) ;;
  let bytes := interleaved_size frame in
  data <- allocate (malloc libc) (BFloats (malloc_floats libc bytes)) ;;
  store handle (BAudioHandle
    (NdiAudioFrameHandle.mk (NdiAudioFrameHandle.recv h) frame data bytes)) ;;
  when (data =? 0) (release_audio_and_fail receiverPtr handle) ;;
  b <- load data ;;
  match b with
  | BFloats interleaved_data =>
      store data (BFloats
        (interleave (memory ndi) frame channels samples_per_channel interleaved_data))
  | _ => undefined
  end ;;
  when (negb (NewDirectByteBuffer env data (to_jlong bytes)))
    (release_audio_and_buffer_and_fail receiverPtr handle) ;;
  w <- get ;;
  when (negb (NewObject env (g_class_AudioFrame (cache w)) (g_ctor_AudioFrame (cache w))))
    (release_audio_and_buffer_and_fail receiverPtr handle) ;;
  Return (Some (new_AudioFrame handle frame data bytes)).
Abbreviation receiverCaptureAudio :=
  Java_com_example_ndireceiver_ndi_NdiNative_receiverCaptureAudio (only parsing).

Definition Java_com_example_ndireceiver_ndi_NdiNative_receiverFreeAudio
    (receiverPtr framePtr : Z) : M unit unit :=
  when (framePtr =? 0) (Return tt) ;;
  let framePtr := ptr_of_jlong framePtr in
  when (framePtr =? 0) (Return tt) ;;
  handle <- load_audio_handle framePtr ;;
  let receiverPtr := ptr_of_jlong receiverPtr in
  (if negb (receiverPtr =? 0)
   then
     lock_wrapper receiverPtr ;;
     emit (call_NDIlib_recv_free_audio_v2
             (NdiAudioFrameHandle.recv handle) (NdiAudioFrameHandle.frame handle)) ;;
     unlock_wrapper receiverPtr
   else
     emit (call_NDIlib_recv_free_audio_v2
             (NdiAudioFrameHandle.recv handle) (NdiAudioFrameHandle.frame handle))) ;;
  free (NdiAudioFrameHandle.interleaved_data handle) ;;
  free framePtr.
Abbreviation receiverFreeAudio :=
  Java_com_example_ndireceiver_ndi_NdiNative_receiverFreeAudio (only parsing).

(** ** Receiver: performance *)

(** IEEE 754 binary64, the [double] of every Android ABI, whose operations
    are evaluated in that format and round to nearest even. *)
Definition prec : Z := 53.
Definition emax : Z := 1024.

(** [(double)z], rounding to nearest even. *)
Definition double_of_Z (z : Z) : spec_float := binary_normalize prec emax z 0 false.

(** [(int)x]: the fraction is discarded.  C defines the conversion only
    when the integral part is an [int]: there is no answer for a value
    beyond [INT_MIN] or [INT_MAX], an infinity or a NaN. *)
Definition int_of_double (x : spec_float) : option Z :=
  match x with
  | S754_zero _ => Some 0
  | S754_nan | S754_infinity _ => None
  | S754_finite s m e =>
      let magnitude := if 0 <=? e then Z.pos m * 2 ^ e else Z.pos m / 2 ^ (- e) in
      let v := if s then - magnitude else magnitude in
      if (- 2 ^ 31 <=? v) && (v <=? 2 ^ 31 - 1) then Some v else None
  end.

(** [100.0 - x * 100.0] with the product kept exact and the difference
    rounded: the one fused multiply-subtract a compiler may contract the
    expression into. *)
Definition fused_100_minus_times_100 (x : spec_float) : spec_float :=
  match x with
  | S754_finite s m e =>
      let mx := if s then - Z.pos m else Z.pos m in
      if e <=? 0
      then binary_normalize prec emax (100 * 2 ^ (- e) - mx * 100) e false
      else binary_normalize prec emax (100 - mx * 100 * 2 ^ e) 0 false
  | S754_zero _ => double_of_Z 100
  | _ => SFsub prec emax (double_of_Z 100) (SFmul prec emax x (double_of_Z 100))
  end.

(** [100.0 - (drop_rate * 100.0)].  C leaves it to the compiler whether the
    product and the difference are rounded one after the other or
    contracted into one operation; [fp_contract] is that choice. *)
Definition percent_kept (fp_contract : bool) (drop_rate : spec_float) : spec_float :=
  if fp_contract then fused_100_minus_times_100 drop_rate
  else SFsub prec emax (double_of_Z 100) (SFmul prec emax drop_rate (double_of_Z 100)).

(** The quality computed by [receiverGetPerformance]; there is none when
    the conversion to [int] has no defined behaviour. *)
Definition quality_score (fp_contract : bool)
    (connections total_video_frames dropped_video_frames : Z) : option Z :=
  if 0 <? connections then
    if 0 <? total_video_frames then
      let drop_rate :=
        SFdiv prec emax (double_of_Z dropped_video_frames) (double_of_Z total_video_frames) in
      match int_of_double (percent_kept fp_contract drop_rate) with
      | Some q =>
          let q := if q <? 0 then 0 else q in
          let q := if 100 <? q then 100 else q in
          Some q
      | None => None
      end
    else Some 100
  else Some 0.

Definition Java_com_example_ndireceiver_ndi_NdiNative_receiverGetPerformance
    (fp_contract : bool) (ndi : NDIlib) (env : JNIEnv) (receiverPtr : Z)
  : M (option ReceiverPerformance.t) (option ReceiverPerformance.t) :=
  when (receiverPtr =? 0) (Return None) ;;
  let receiverPtr := ptr_of_jlong receiverPtr in
  when (receiverPtr =? 0) (Return None) ;;
  wrapper <- load_receiver receiverPtr ;;
  when (NdiReceiverWrapper.recv wrapper =? 0) (Return None) ;;
  cached <- invoke (ensure_jni_cache env) ;;
  when (cached =? 0) (Return None) ;;
  lock_wrapper receiverPtr ;;
  emit (call_NDIlib_recv_get_performance (NdiReceiverWrapper.recv wrapper)) ;;
  let total := fst (NDIlib_recv_get_performance ndi (NdiReceiverWrapper.recv wrapper)) in
  let dropped := snd (NDIlib_recv_get_performance ndi (NdiReceiverWrapper.recv wrapper)) in
  emit (call_NDIlib_recv_get_no_connections (NdiReceiverWrapper.recv wrapper)) ;;
  let connections := NDIlib_recv_get_no_connections ndi (NdiReceiverWrapper.recv wrapper) in
  unlock_wrapper receiverPtr ;;
  quality <-
    match quality_score fp_contract connections
            (NDIlib_recv_performance_t.video_frames total)
            (NDIlib_recv_performance_t.video_frames dropped) with
    | Some quality => ret quality
    | None => undefined
    end ;;
  w <- get ;;
  if NewObject env (g_class_ReceiverPerformance (cache w))
       (g_ctor_ReceiverPerformance (cache w))
  then Return (Some (ReceiverPerformance.mk
         (to_jlong (NDIlib_recv_performance_t.video_frames total))
         (to_jlong (NDIlib_recv_performance_t.video_frames dropped))
         (to_jlong (NDIlib_recv_performance_t.audio_frames total))
         (to_jlong (NDIlib_recv_performance_t.audio_frames dropped))
         (to_jlong (NDIlib_recv_performance_t.metadata_frames total))
         (to_jint quality)))
  else Return None.
Abbreviation receiverGetPerformance :=
  Java_com_example_ndireceiver_ndi_NdiNative_receiverGetPerformance (only parsing).

(** * Specifications *)

(** ** The callback-schema cache *)

(** [ensure_jni_cache] always returns, 0 or 1, touches neither the heap
    nor the library flag and calls nothing of the engine. *)
Definition cache_post (w : world) (o : outcome Z Z) : Prop :=
  match o with
  | Returned ok w1 evs =>
      heap w1 = heap w /\ g_initialized w1 = g_initialized w
      /\ engine_calls evs = [] /\ (ok = 0 \/ ok = 1)
  | _ => False
  end.

(** ** What a video capture may do

    The outcomes of [receiverCaptureVideo] from the state [w]. *)

Section CaptureVideoSpec.
Variables (ndi : NDIlib) (env : JNIEnv) (libc : Allocator).
Variables (receiverPtr timeoutMs : Z) (w : world).

(** The receiver the handle [receiverPtr] stands for. *)
Definition receiver_of (wrapper : NdiReceiverWrapper.t) : Prop :=
  receiverPtr <> 0 /\ ptr_of_jlong receiverPtr <> 0
  /\ heap w !! ptr_of_jlong receiverPtr = Some (BReceiver wrapper)
  /\ NdiReceiverWrapper.recv wrapper <> 0.

(** The address [p] is one the allocator may answer in [w]. *)
Definition fresh (p : Z) : Prop := p <> 0 /\ is_address p /\ heap w !! p = None.

(** The handles and the allocator are sound: the handle is empty or
    stands for a live receiver, and the allocator fails or answers a
    fresh address. *)
Definition capture_video_sane : Prop :=
  (receiverPtr <> 0 -> ptr_of_jlong receiverPtr <> 0 ->
   exists wrapper, heap w !! ptr_of_jlong receiverPtr = Some (BReceiver wrapper))
  /\ (calloc libc = 0 \/ fresh (calloc libc)).

Definition video_capture_call (wrapper : NdiReceiverWrapper.t) : event :=
  call_NDIlib_recv_capture_v2 (NdiReceiverWrapper.recv wrapper) true false
    (to_uint32 timeoutMs).

Definition video_captured (wrapper : NdiReceiverWrapper.t)
  : NDIlib_frame_type_e * NDIlib_video_frame_v2_t.t :=
  fst (NDIlib_recv_capture_v2 ndi (NdiReceiverWrapper.recv wrapper) true false
         (to_uint32 timeoutMs)).

Inductive captureVideo_result : option VideoFrame.t -> world -> list event -> Prop :=
| video_not_attempted w' evs :
    heap w' = heap w ->
    engine_calls evs = [] ->
    captureVideo_result None w' evs
| video_not_obtained wrapper w' evs :
    receiver_of wrapper ->
    fst (video_captured wrapper) <> NDIlib_frame_type_video ->
    heap w' = heap w ->
    engine_calls evs = [video_capture_call wrapper] ->
    captureVideo_result None w' evs
| video_released wrapper w' evs :
    receiver_of wrapper ->
    fst (video_captured wrapper) = NDIlib_frame_type_video ->
    heap w' = heap w ->
    engine_calls evs =
      [video_capture_call wrapper;
       call_NDIlib_recv_free_video_v2 (NdiReceiverWrapper.recv wrapper)
         (snd (video_captured wrapper))] ->
    captureVideo_result None w' evs
| video_delivered wrapper w' evs :
    receiver_of wrapper ->
    fst (video_captured wrapper) = NDIlib_frame_type_video ->
    NDIlib_video_frame_v2_t.p_data (snd (video_captured wrapper)) <> 0 ->
    0 < video_buffer_size (snd (video_captured wrapper)) ->
    fresh (calloc libc) ->
    heap w' =
      <[calloc libc := BVideoHandle
          (NdiVideoFrameHandle.mk (NdiReceiverWrapper.recv wrapper)
             (snd (video_captured wrapper)))]> (heap w) ->
    engine_calls evs = [video_capture_call wrapper] ->
    captureVideo_result
      (Some (new_VideoFrame (calloc libc) (snd (video_captured wrapper)))) w' evs.

Definition captureVideo_post (o : outcome (option VideoFrame.t) (option VideoFrame.t)) : Prop :=
  match o with
  | Returned r w' evs => captureVideo_result r w' evs
  | Proceed _ _ _ => False
  | Undefined => ~ capture_video_sane
  end.

End CaptureVideoSpec.

(** ** What an audio capture may do *)

Section CaptureAudioSpec.
Variables (ndi : NDIlib) (env : JNIEnv) (libc : Allocator).
Variables (receiverPtr timeoutMs : Z) (w : world).

Definition capture_audio_sane : Prop :=
  (receiverPtr <> 0 -> ptr_of_jlong receiverPtr <> 0 ->
   exists wrapper, heap w !! ptr_of_jlong receiverPtr = Some (BReceiver wrapper))
  /\ (calloc libc = 0 \/ fresh w (calloc libc))
  /\ (malloc libc = 0 \/ (fresh w (malloc libc) /\ malloc libc <> calloc libc)).

Definition audio_capture_call (wrapper : NdiReceiverWrapper.t) : event :=
  call_NDIlib_recv_capture_v2 (NdiReceiverWrapper.recv wrapper) false true
    (to_uint32 timeoutMs).

Definition audio_captured (wrapper : NdiReceiverWrapper.t)
  : NDIlib_frame_type_e * NDIlib_audio_frame_v2_t.t :=
  let captured :=
    NDIlib_recv_capture_v2 ndi (NdiReceiverWrapper.recv wrapper) false true
      (to_uint32 timeoutMs) in
  (fst (fst captured), snd captured).

(** The validation of a captured audio frame. *)
Definition audio_frame_valid (frame : NDIlib_audio_frame_v2_t.t) : Prop :=
  NDIlib_audio_frame_v2_t.p_data frame <> 0
  /\ 0 < NDIlib_audio_frame_v2_t.sample_rate frame
  /\ 0 < NDIlib_audio_frame_v2_t.no_channels frame
  /\ 0 < NDIlib_audio_frame_v2_t.no_samples frame.

Inductive captureAudio_result : option AudioFrame.t -> world -> list event -> Prop :=
| audio_not_attempted w' evs :
    heap w' = heap w ->
    engine_calls evs = [] ->
    captureAudio_result None w' evs
| audio_not_obtained wrapper w' evs :
    receiver_of receiverPtr w wrapper ->
    fst (audio_captured wrapper) <> NDIlib_frame_type_audio ->
    heap w' = heap w ->
    engine_calls evs = [audio_capture_call wrapper] ->
    captureAudio_result None w' evs
| audio_released wrapper w' evs :
    receiver_of receiverPtr w wrapper ->
    fst (audio_captured wrapper) = NDIlib_frame_type_audio ->
    heap w' = heap w ->
    engine_calls evs =
      [audio_capture_call wrapper;
       call_NDIlib_recv_free_audio_v2 (NdiReceiverWrapper.recv wrapper)
         (snd (audio_captured wrapper))] ->
    captureAudio_result None w' evs
| audio_delivered wrapper w' evs :
    let frame := snd (audio_captured wrapper) in
    receiver_of receiverPtr w wrapper ->
    fst (audio_captured wrapper) = NDIlib_frame_type_audio ->
    audio_frame_valid frame ->
    fresh w (calloc libc) ->
    fresh w (malloc libc) ->
    malloc libc <> calloc libc ->
    heap w' =
      <[malloc libc := BFloats
          (interleave (memory ndi) frame
             (NDIlib_audio_frame_v2_t.no_channels frame)
             (NDIlib_audio_frame_v2_t.no_samples frame)
             (malloc_floats libc (interleaved_size frame)))]>
      (<[calloc libc := BAudioHandle
           (NdiAudioFrameHandle.mk (NdiReceiverWrapper.recv wrapper) frame
              (malloc libc) (interleaved_size frame))]> (heap w)) ->
    engine_calls evs = [audio_capture_call wrapper] ->
    captureAudio_result
      (Some (new_AudioFrame (calloc libc) frame (malloc libc) (interleaved_size frame)))
      w' evs.

Definition captureAudio_post (o : outcome (option AudioFrame.t) (option AudioFrame.t)) : Prop :=
  match o with
  | Returned r w' evs => captureAudio_result r w' evs
  | Proceed _ _ _ => False
  | Undefined => ~ capture_audio_sane
  end.

End CaptureAudioSpec.

(** The [s]-th sample of channel [c] of a planar frame: the block of a
    channel starts [c] times the channel stride after [p_data]. *)
Definition planar_sample (mem : Z -> Z) (frame : NDIlib_audio_frame_v2_t.t) (c s : Z) : Z :=
  load_float mem
    (NDIlib_audio_frame_v2_t.p_data frame
     + c * NDIlib_audio_frame_v2_t.channel_stride_in_bytes frame
     + 4 * s).

(** The invariant of the conversion loops: the entries written once the
    loops reach sample [s] and channel [c]. *)
Definition written (mem : Z -> Z) (frame : NDIlib_audio_frame_v2_t.t)
    (channels samples : Z) (s c : Z) (out : list Z) : Prop :=
  length out = Z.to_nat (channels * samples)
  /\ forall s' c',
       0 <= s' -> 0 <= c' < channels ->
       s' < s \/ (s' = s /\ c' < c) ->
       out !! Z.to_nat (s' * channels + c') = Some (planar_sample mem frame c' s').

(** ** The quality score, in words *)

(** [clamp(x, 0, 100)] *)
Definition clamp_0_100 (x : Z) : Z := Z.max 0 (Z.min 100 x).

(** [round(100 * (1 - dropped / total))], to the nearest integer. *)
Definition rounded_percentage (total dropped : Z) : Z :=
  (2 * (100 * (total - dropped)) + total) / (2 * total).

(** The score with the quotient rounded to the nearest integer. *)
Definition rounded_quality (connections total dropped : Z) : Z :=
  if connections =? 0 then 0
  else if total =? 0 then 100
  else clamp_0_100 (rounded_percentage total dropped).

(** [100.0 - (dropped / total) * 100.0] in [double] arithmetic, the
    fraction discarded, where that is defined. *)
Definition truncated_percentage (fp_contract : bool) (total dropped : Z) : option Z :=
  int_of_double
    (percent_kept fp_contract (SFdiv prec emax (double_of_Z dropped) (double_of_Z total))).

(** [floor(100 * (total - dropped) / total)], the percentage of the frames
    that were not dropped with its fraction discarded. *)
Definition exact_percentage (total dropped : Z) : Z := (100 * (total - dropped)) / total.

(** The score is defined and is the exact percentage or one less. *)
Definition near_floor (fp_contract : bool) (total dropped : Z) : bool :=
  match quality_score fp_contract 1 total dropped with
  | Some q => (exact_percentage total dropped - 1 <=? q) && (q <=? exact_percentage total dropped)
  | None => false
  end.

(** ** Concrete collaborators

    A JNI environment and an allocator that never fail, a state with one
    receiver (at 1000, engine instance 77) and one finder (at 1100, engine
    instance 88), and engines that answer one given frame. *)

Definition env_ok : JNIEnv := {|
  FindClass := fun _ => 5;
  NewGlobalRef := fun class => class + 1;
  GetMethodID := fun _ _ _ => 9;
  NewDirectByteBuffer := fun _ _ => true;
  NewObject := fun _ _ => true;
  NewObjectArray := fun _ _ => true;
  NewStringUTF := fun _ => true
|}.

(** The same environment when [FindClass] fails. *)
Definition env_no_class : JNIEnv := {|
  FindClass := fun _ => 0;
  NewGlobalRef := fun class => class + 1;
  GetMethodID := fun _ _ _ => 9;
  NewDirectByteBuffer := fun _ _ => true;
  NewObject := fun _ _ => true;
  NewObjectArray := fun _ _ => true;
  NewStringUTF := fun _ => true
|}.

Definition libc_ok : Allocator :=
  {| calloc := 2000; malloc := 3000; uninitialized := fun _ => 0xDEADBEEF |}.

Definition cache_empty : jni_cache := {|
  g_jni_cache_initialized := 0;
  g_class_VideoFrame := 0;
  g_ctor_VideoFrame := 0;
  g_class_AudioFrame := 0;
  g_ctor_AudioFrame := 0;
  g_class_ReceiverPerformance := 0;
  g_ctor_ReceiverPerformance := 0
|}.

Definition world_ready : world := {|
  g_initialized := 1;
  cache := cache_empty;
  heap := {[ 1000 := BReceiver (NdiReceiverWrapper.mk 77 0);
             1100 := BFinder (NdiFinderWrapper.mk 88) ]}
|}.

Definition world_fresh : world :=
  {| g_initialized := 0; cache := cache_empty; heap := ∅ |}.

Definition perf_zero : NDIlib_recv_performance_t.t := NDIlib_recv_performance_t.mk 0 0 0.

(** An engine whose captures answer the video frame [f]. *)
Definition engine_video (f : NDIlib_video_frame_v2_t.t) : NDIlib := {|
  NDIlib_initialize := true;
  NDIlib_find_get_current_sources := fun _ => (None, 0);
  NDIlib_recv_capture_v2 := fun _ _ _ _ =>
    (NDIlib_frame_type_video, f, NDIlib_audio_frame_v2_t.zero);
  NDIlib_recv_get_performance := fun _ => (perf_zero, perf_zero);
  NDIlib_recv_get_no_connections := fun _ => 1;
  memory := fun _ => 0
|}.

(** A bottom-up 'UYVY' frame of 960 x 1080. *)
Definition frame_bottom_up : NDIlib_video_frame_v2_t.t :=
  NDIlib_video_frame_v2_t.mk 960 1080 0x59565955 30000 1001
    NDIlib_frame_format_type_progressive 42 7000 (-1920) (-1920).

(** An 'H264' frame of 4096 bytes (for a compressed frame the engine
    reports the size where the stride of other frames is). *)
Definition frame_h264 : NDIlib_video_frame_v2_t.t :=
  NDIlib_video_frame_v2_t.mk 1920 1080 FOURCC_H264 30000 1001
    NDIlib_frame_format_type_progressive 42 7000 4096 4096.

(** A video frame without data. *)
Definition frame_no_data : NDIlib_video_frame_v2_t.t :=
  NDIlib_video_frame_v2_t.mk 960 1080 0x59565955 30000 1001
    NDIlib_frame_format_type_progressive 42 0 1920 1920.

(** The 32 bits of a [float] (IEEE 754 binary32). *)
Definition float_of_Z (z : Z) : spec_float := binary_normalize 24 128 z 0 false.

Definition bits_of_float (x : spec_float) : Z :=
  match x with
  | S754_zero s => if s then 2 ^ 31 else 0
  | S754_infinity s => (if s then 2 ^ 31 else 0) + 255 * 2 ^ 23
  | S754_nan => 255 * 2 ^ 23 + 2 ^ 22
  | S754_finite s m e =>
      (if s then 2 ^ 31 else 0)
      + (if Z.pos m <? 2 ^ 23 then Z.pos m else (e + 150) * 2 ^ 23 + (Z.pos m - 2 ^ 23))
  end.

Definition float_bits (z : Z) : Z := bits_of_float (float_of_Z z).

(** The bytes of an array of floats stored at [base] (little endian). *)
Definition bytes_of_floats (base : Z) (floats : list Z) (addr : Z) : Z :=
  if addr <? base then 0
  else match floats !! Z.to_nat ((addr - base) / 4) with
       | Some bits => Z.shiftr bits (8 * ((addr - base) mod 4)) mod 256
       | None => 0
       end.

(** An engine whose captures answer the audio frame [f], the samples
    being those of [mem]. *)
Definition engine_audio (f : NDIlib_audio_frame_v2_t.t) (mem : Z -> Z) : NDIlib := {|
  NDIlib_initialize := true;
  NDIlib_find_get_current_sources := fun _ => (None, 0);
  NDIlib_recv_capture_v2 := fun _ _ _ _ =>
    (NDIlib_frame_type_audio, NDIlib_video_frame_v2_t.zero, f);
  NDIlib_recv_get_performance := fun _ => (perf_zero, perf_zero);
  NDIlib_recv_get_no_connections := fun _ => 1;
  memory := mem
|}.

(** Two channels of four samples at 5000, the second channel 16 bytes
    after the first: channel 0 = [1,2,3,4], channel 1 = [10,20,30,40]. *)
Definition frame_stereo : NDIlib_audio_frame_v2_t.t :=
  NDIlib_audio_frame_v2_t.mk 48000 2 4 123 5000 16.

Definition memory_stereo : Z -> Z :=
  bytes_of_floats 5000 (float_bits <$> [1; 2; 3; 4; 10; 20; 30; 40]).

(** An audio frame without channels. *)
Definition frame_no_channels : NDIlib_audio_frame_v2_t.t :=
  NDIlib_audio_frame_v2_t.mk 48000 0 4 123 5000 16.

(** An engine that reports the video totals [total] and [dropped] over
    [connections] connections, and no source. *)
Definition engine_performance (connections total dropped : Z) : NDIlib := {|
  NDIlib_initialize := true;
  NDIlib_find_get_current_sources := fun _ => (None, 0);
  NDIlib_recv_capture_v2 := fun _ _ _ _ =>
    (NDIlib_frame_type_none, NDIlib_video_frame_v2_t.zero, NDIlib_audio_frame_v2_t.zero);
  NDIlib_recv_get_performance := fun _ =>
    (NDIlib_recv_performance_t.mk total 0 0, NDIlib_recv_performance_t.mk dropped 0 0);
  NDIlib_recv_get_no_connections := fun _ => connections;
  memory := fun _ => 0
|}.

(** An engine whose initialization fails. *)
Definition engine_down : NDIlib := {|
  NDIlib_initialize := false;
  NDIlib_find_get_current_sources := fun _ => (None, 0);
  NDIlib_recv_capture_v2 := fun _ _ _ _ =>
    (NDIlib_frame_type_none, NDIlib_video_frame_v2_t.zero, NDIlib_audio_frame_v2_t.zero);
  NDIlib_recv_get_performance := fun _ => (perf_zero, perf_zero);
  NDIlib_recv_get_no_connections := fun _ => 0;
  memory := fun _ => 0
|}.

(** * The rest of the receiver queries *)

Definition Java_com_example_ndireceiver_ndi_NdiNative_receiverIsConnected
    (ndi : NDIlib) (receiverPtr : Z) : M bool bool :=
  when (receiverPtr =? 0) (Return false) ;;
  let receiverPtr := ptr_of_jlong receiverPtr in
  when (receiverPtr =? 0) (Return false) ;;
  wrapper <- load_receiver receiverPtr ;;
  when (NdiReceiverWrapper.recv wrapper =? 0) (Return false) ;;
  lock_wrapper receiverPtr ;;
  emit (call_NDIlib_recv_get_no_connections (NdiReceiverWrapper.recv wrapper)) ;;
  let connections := NDIlib_recv_get_no_connections ndi (NdiReceiverWrapper.recv wrapper) in
  unlock_wrapper receiverPtr ;;
  Return (0 <? connections).
Abbreviation receiverIsConnected :=
  Java_com_example_ndireceiver_ndi_NdiNative_receiverIsConnected (only parsing).

(** * Creation, destruction, connection and surface

    The functions of this part create and destroy the wrappers.  They copy
    the strings of the managed side to C strings, initialize and destroy
    the mutex of a wrapper, and call the creation side of the engine and
    the window functions of Android.  Their state is the process state
    together with the C strings that are live and the answers the
    allocator is going to give.  Logging and [ReleaseStringUTFChars]
    leave no trace in what is modelled. *)

(** ** More of the engine *)

(** Modelled from the spec: the structure [NDIlib_find_create_t] of the
    engine's header, the configuration of a finder of spec 3 and 4.2 (the
    show-local-sources flag, the group filter, the extra addresses). *)
Module NDIlib_find_create_t.
Record t := mk {
  show_local_sources : bool;
  p_groups : option string;        (* [None] for NULL *)
  p_extra_ips : option string
}.
End NDIlib_find_create_t.

(** Modelled from the spec: the structure [NDIlib_recv_create_v3_t] of the
    engine's header, the configuration of a receiver of spec 4.3 (source,
    color format, bandwidth, whether fielded video is allowed, name). *)
Module NDIlib_recv_create_v3_t.
Record t := mk {
  source_to_connect_to : NDIlib_source_t.t;
  color_format : NDIlib_recv_color_format_e;
  bandwidth : NDIlib_recv_bandwidth_e;
  allow_video_fields : bool;
  p_ndi_recv_name : option string
}.
End NDIlib_recv_create_v3_t.

(** The answers of the engine, of the JNI environment and of the platform
    to the calls of this part. *)
Record Platform := {
  NDIlib_find_create_v2 : NDIlib_find_create_t.t -> Z;      (* 0 for NULL *)
  NDIlib_find_wait_for_sources : Z -> Z -> bool;            (* instance, timeout *)
  NDIlib_recv_create_v3 : NDIlib_recv_create_v3_t.t -> Z;   (* 0 for NULL *)
  GetStringUTFChars : string -> bool;                       (* not NULL *)
  pthread_mutex_init : Z -> Z;                              (* the wrapper: 0 on success *)
  ANativeWindow_fromSurface : Z -> Z                        (* 0 for NULL *)
}.

(** What a call of this part does outside the state: the events of the
    first part and the calls named here. *)
Inductive operation :=
| known (e : event)
| call_pthread_mutex_init (m : mutex)
| call_pthread_mutex_destroy (m : mutex)
| call_NDIlib_find_create_v2 (settings : NDIlib_find_create_t.t)
| call_NDIlib_find_destroy (finder : Z)
| call_NDIlib_find_wait_for_sources (finder timeout : Z)
| call_NDIlib_recv_create_v3 (settings : NDIlib_recv_create_v3_t.t)
| call_NDIlib_recv_destroy (recv : Z)
| call_NDIlib_recv_connect (recv : Z) (source : option NDIlib_source_t.t)
| call_ANativeWindow_fromSurface (surface : Z)
| call_ANativeWindow_release (window : Z).

Record system := {
  process : world;
  c_strings : gmap Z string;    (* the C strings made by [c_strdup], by address *)
  allocator : list Z            (* the next answers of [malloc] and [calloc];
                                   0, or no answer left, for NULL *)
}.

Definition set_process (w : world) (s : system) : system :=
  {| process := w; c_strings := c_strings s; allocator := allocator s |}.
Definition set_c_strings (m : gmap Z string) (s : system) : system :=
  {| process := process s; c_strings := m; allocator := allocator s |}.
Definition set_allocator (l : list Z) (s : system) : system :=
  {| process := process s; c_strings := c_strings s; allocator := l |}.

(** ** Programs on this state

    As in the first part: a statement proceeds, executes [return], or has
    no defined behaviour. *)

Module Sys.

Inductive outcome (R A : Type) : Type :=
| Proceed (a : A) (s : system) (ops : list operation)
| Returned (r : R) (s : system) (ops : list operation)
| Undefined.
Arguments Proceed {R A} a s ops.
Arguments Returned {R A} r s ops.
Arguments Undefined {R A}.

Definition M (R A : Type) : Type := system -> outcome R A.

Definition ret {R A} (a : A) : M R A := fun s => Proceed a s [].

Definition prefix {R A} (ops : list operation) (o : outcome R A) : outcome R A :=
  match o with
  | Proceed a s e => Proceed a s (ops ++ e)
  | Returned r s e => Returned r s (ops ++ e)
  | Undefined => Undefined
  end.

Definition bind {R A B} (m : M R A) (k : A -> M R B) : M R B :=
  fun s =>
    match m s with
    | Proceed a s1 e1 => prefix e1 (k a s1)
    | Returned r s1 e1 => Returned r s1 e1
    | Undefined => Undefined
    end.

Definition Return {R A} (r : R) : M R A := fun s => Returned r s [].

Definition undefined {R A} : M R A := fun _ => Undefined.

Definition emit {R} (op : operation) : M R unit := fun s => Proceed tt s [op].

Definition get {R} : M R system := fun s => Proceed s s [].

Definition when {R} (c : bool) (m : M R unit) : M R unit :=
  if c then m else ret tt.

Definition call {R} (f : M R R) (s : system) : option (R * system * list operation) :=
  match f s with
  | Proceed r s' ops | Returned r s' ops => Some (r, s', ops)
  | Undefined => None
  end.

End Sys.

Declare Scope sys_scope.
Delimit Scope sys_scope with sys.
Notation "x <- m ;; k" := (Sys.bind m (fun x => k))
  (at level 100, m at next level, right associativity) : sys_scope.
Notation "m ;; k" := (Sys.bind m (fun _ => k))
  (at level 100, right associativity) : sys_scope.
Local Open Scope sys_scope.

(** A statement of the first part, run on the process state. *)
Definition lift {R A} (m : M R A) : Sys.M R A :=
  fun s =>
    match m (process s) with
    | Proceed a w evs => Sys.Proceed a (set_process w s) (known <$> evs)
    | Returned r w evs => Sys.Returned r (set_process w s) (known <$> evs)
    | Undefined => Sys.Undefined
    end.

(** The address [p] holds neither a block nor a C string. *)
Definition unused (p : Z) (s : system) : bool :=
  match heap (process s) !! p, c_strings s !! p with
  | None, None => true
  | _, _ => false
  end.

(** The answer of the allocator to the next [malloc] or [calloc]: NULL or
    an address that is not in use. *)
Definition next_allocation {R} : Sys.M R Z :=
  fun s =>
    match allocator s with
    | [] => Sys.Proceed 0 s []
    | p :: answers =>
        if p =? 0 then Sys.Proceed 0 (set_allocator answers s) []
        else if (0 <? p) && (p <? 2 ^ 64) && unused p s
        then Sys.Proceed p (set_allocator answers s) []
        else Sys.Undefined
    end.

(** [calloc(1, sizeof(T))], the block holding [b] at first. *)
Definition calloc_block {R} (b : block) : Sys.M R Z :=
  p <- next_allocation ;;
  if p =? 0 then Sys.ret 0
  else fun s => Sys.Proceed p (set_process (set_heap (<[p := b]> (heap (process s))) (process s)) s) [].

(** [free(p)], of a block or of a C string; [free(NULL)] does nothing. *)
Definition free_memory {R} (p : Z) : Sys.M R unit :=
  fun s =>
    if p =? 0 then Sys.Proceed tt s []
    else match c_strings s !! p with
         | Some _ => Sys.Proceed tt (set_c_strings (delete p (c_strings s)) s) []
         | None => lift (free p) s
         end.

(** The characters at [p], nothing for NULL. *)
Definition chars_at {R} (p : Z) : Sys.M R (option string) :=
  fun s =>
    if p =? 0 then Sys.Proceed None s []
    else match c_strings s !! p with
         | Some chars => Sys.Proceed (Some chars) s []
         | None => Sys.Undefined
         end.

(** ** Helper functions *)

(** The block [malloc] answers holds the copy once [memcpy] is done. *)
Definition c_strdup {R} (s : option string) : Sys.M R Z :=
  match s with
  | None => Sys.ret 0
  | Some chars =>
      out <- next_allocation ;;
      if out =? 0 then Sys.ret 0
      else fun s => Sys.Proceed out (set_c_strings (<[out := chars]> (c_strings s)) s) []
  end.

Definition jstring_to_cstring {R} (plat : Platform) (jstr : option string) : Sys.M R Z :=
  match jstr with
  | None => Sys.ret 0
  | Some chars =>
      if GetStringUTFChars plat chars then c_strdup (Some chars) else Sys.ret 0
  end.

Definition is_empty_string (s : option string) : bool :=
  match s with
  | None => true
  | Some EmptyString => true
  | Some (String _ _) => false
  end.

(** ** Finder *)

Definition Java_com_example_ndireceiver_ndi_NdiNative_finderCreate
    (plat : Platform) (showLocalSources : Z) (groups extraIps : option string)
  : Sys.M Z Z :=
  s <- Sys.get ;;
  Sys.when (g_initialized (process s) =? 0) (Sys.Return 0) ;;
  groups_str <- jstring_to_cstring plat groups ;;
  extra_ips_str <- jstring_to_cstring plat extraIps ;;
  groups_chars <- chars_at groups_str ;;
  extra_ips_chars <- chars_at extra_ips_str ;;
  let settings :=
    NDIlib_find_create_t.mk (showLocalSources =? 1)
      (if is_empty_string groups_chars then None else groups_chars)
      (if is_empty_string extra_ips_chars then None else extra_ips_chars) in
  Sys.emit (call_NDIlib_find_create_v2 settings) ;;
  let finder := NDIlib_find_create_v2 plat settings in
  free_memory groups_str ;;
  free_memory extra_ips_str ;;
  Sys.when (finder =? 0) (Sys.Return 0) ;;
  wrapper <- calloc_block (BFinder (NdiFinderWrapper.mk 0)) ;;
  Sys.when (wrapper =? 0)
    (Sys.emit (call_NDIlib_find_destroy finder) ;; Sys.Return 0) ;;
  lift (store wrapper (BFinder (NdiFinderWrapper.mk finder))) ;;
  Sys.emit (call_pthread_mutex_init (wrapper_mutex wrapper)) ;;
  Sys.when (negb (pthread_mutex_init plat wrapper =? 0))
    (Sys.emit (call_NDIlib_find_destroy finder) ;;
     free_memory wrapper ;;
     Sys.Return 0) ;;
  Sys.Return (jlong_of_ptr wrapper).
Abbreviation finderCreate :=
  Java_com_example_ndireceiver_ndi_NdiNative_finderCreate (only parsing).

Definition Java_com_example_ndireceiver_ndi_NdiNative_finderDestroy
    (finderPtr : Z) : Sys.M unit unit :=
  Sys.when (finderPtr =? 0) (Sys.Return tt) ;;
  let finderPtr := ptr_of_jlong finderPtr in
  Sys.when (finderPtr =? 0) (Sys.Return tt) ;;
  lift (lock_wrapper finderPtr) ;;
  wrapper <- lift (load_finder finderPtr) ;;
  Sys.when (negb (NdiFinderWrapper.finder wrapper =? 0))
    (Sys.emit (call_NDIlib_find_destroy (NdiFinderWrapper.finder wrapper)) ;;
     lift (store finderPtr (BFinder (NdiFinderWrapper.mk 0)))) ;;
  lift (unlock_wrapper finderPtr) ;;
  Sys.emit (call_pthread_mutex_destroy (wrapper_mutex finderPtr)) ;;
  free_memory finderPtr.
Abbreviation finderDestroy :=
  Java_com_example_ndireceiver_ndi_NdiNative_finderDestroy (only parsing).

Definition Java_com_example_ndireceiver_ndi_NdiNative_finderWaitForSources
    (plat : Platform) (finderPtr timeoutMs : Z) : Sys.M bool bool :=
  Sys.when (finderPtr =? 0) (Sys.Return false) ;;
  let finderPtr := ptr_of_jlong finderPtr in
  Sys.when (finderPtr =? 0) (Sys.Return false) ;;
  wrapper <- lift (load_finder finderPtr) ;;
  Sys.when (NdiFinderWrapper.finder wrapper =? 0) (Sys.Return false) ;;
  lift (lock_wrapper finderPtr) ;;
  Sys.emit (call_NDIlib_find_wait_for_sources
              (NdiFinderWrapper.finder wrapper) (to_uint32 timeoutMs)) ;;
  let changed :=
    NDIlib_find_wait_for_sources plat (NdiFinderWrapper.finder wrapper)
      (to_uint32 timeoutMs) in
  lift (unlock_wrapper finderPtr) ;;
  Sys.Return changed.
Abbreviation finderWaitForSources :=
  Java_com_example_ndireceiver_ndi_NdiNative_finderWaitForSources (only parsing).

(** ** Receiver *)

Definition Java_com_example_ndireceiver_ndi_NdiNative_receiverCreate
    (plat : Platform) (receiverName : option string)
    (bandwidth colorFormat allowVideoFields : Z) : Sys.M Z Z :=
  s <- Sys.get ;;
  Sys.when (g_initialized (process s) =? 0) (Sys.Return 0) ;;
  name_str <- jstring_to_cstring plat receiverName ;;
  wrapper <- calloc_block (BReceiver (NdiReceiverWrapper.mk 0 0)) ;;
  Sys.when (wrapper =? 0) (free_memory name_str ;; Sys.Return 0) ;;
  Sys.emit (call_pthread_mutex_init (wrapper_mutex wrapper)) ;;
  Sys.when (negb (pthread_mutex_init plat wrapper =? 0))
    (free_memory name_str ;; free_memory wrapper ;; Sys.Return 0) ;;
  name_chars <- chars_at name_str ;;
  let settings :=
    NDIlib_recv_create_v3_t.mk
      (NDIlib_source_t.mk None None)
      (map_color_format colorFormat)
      (map_bandwidth bandwidth)
      (allowVideoFields =? 1)
      (if is_empty_string name_chars then None else name_chars) in
  Sys.emit (call_NDIlib_recv_create_v3 settings) ;;
  let recv := NDIlib_recv_create_v3 plat settings in
  lift (store wrapper (BReceiver (NdiReceiverWrapper.mk recv 0))) ;;
  free_memory name_str ;;
  Sys.when (recv =? 0)
    (Sys.emit (call_pthread_mutex_destroy (wrapper_mutex wrapper)) ;;
     free_memory wrapper ;;
     Sys.Return 0) ;;
  Sys.Return (jlong_of_ptr wrapper).
Abbreviation receiverCreate :=
  Java_com_example_ndireceiver_ndi_NdiNative_receiverCreate (only parsing).

Definition Java_com_example_ndireceiver_ndi_NdiNative_receiverDestroy
    (receiverPtr : Z) : Sys.M unit unit :=
  Sys.when (receiverPtr =? 0) (Sys.Return tt) ;;
  let receiverPtr := ptr_of_jlong receiverPtr in
  Sys.when (receiverPtr =? 0) (Sys.Return tt) ;;
  lift (lock_wrapper receiverPtr) ;;
  wrapper <- lift (load_receiver receiverPtr) ;;
  Sys.when (negb (NdiReceiverWrapper.surface_window wrapper =? 0))
    (Sys.emit (call_ANativeWindow_release (NdiReceiverWrapper.surface_window wrapper)) ;;
     lift (store receiverPtr
             (BReceiver (NdiReceiverWrapper.mk (NdiReceiverWrapper.recv wrapper) 0)))) ;;
  wrapper <- lift (load_receiver receiverPtr) ;;
  Sys.when (negb (NdiReceiverWrapper.recv wrapper =? 0))
    (Sys.emit (call_NDIlib_recv_destroy (NdiReceiverWrapper.recv wrapper)) ;;
     lift (store receiverPtr
             (BReceiver (NdiReceiverWrapper.mk 0 (NdiReceiverWrapper.surface_window wrapper))))) ;;
  lift (unlock_wrapper receiverPtr) ;;
  Sys.emit (call_pthread_mutex_destroy (wrapper_mutex receiverPtr)) ;;
  free_memory receiverPtr.
Abbreviation receiverDestroy :=
  Java_com_example_ndireceiver_ndi_NdiNative_receiverDestroy (only parsing).

Definition Java_com_example_ndireceiver_ndi_NdiNative_receiverConnect
    (plat : Platform) (receiverPtr : Z) (sourceName : option string) : Sys.M bool bool :=
  Sys.when (receiverPtr =? 0) (Sys.Return false) ;;
  let receiverPtr := ptr_of_jlong receiverPtr in
  Sys.when (receiverPtr =? 0) (Sys.Return false) ;;
  wrapper <- lift (load_receiver receiverPtr) ;;
  Sys.when (NdiReceiverWrapper.recv wrapper =? 0) (Sys.Return false) ;;
  source_str <- jstring_to_cstring plat sourceName ;;
  source_chars <- chars_at source_str ;;
  Sys.when (is_empty_string source_chars)
    (free_memory source_str ;; Sys.Return false) ;;
  let source := NDIlib_source_t.mk source_chars None in
  lift (lock_wrapper receiverPtr) ;;
  Sys.emit (call_NDIlib_recv_connect (NdiReceiverWrapper.recv wrapper) (Some source)) ;;
  lift (unlock_wrapper receiverPtr) ;;
  free_memory source_str ;;
  Sys.Return true.
Abbreviation receiverConnect :=
  Java_com_example_ndireceiver_ndi_NdiNative_receiverConnect (only parsing).

Definition Java_com_example_ndireceiver_ndi_NdiNative_receiverDisconnect
    (receiverPtr : Z) : Sys.M unit unit :=
  Sys.when (receiverPtr =? 0) (Sys.Return tt) ;;
  let receiverPtr := ptr_of_jlong receiverPtr in
  Sys.when (receiverPtr =? 0) (Sys.Return tt) ;;
  wrapper <- lift (load_receiver receiverPtr) ;;
  Sys.when (NdiReceiverWrapper.recv wrapper =? 0) (Sys.Return tt) ;;
  lift (lock_wrapper receiverPtr) ;;
  Sys.emit (call_NDIlib_recv_connect (NdiReceiverWrapper.recv wrapper) None) ;;
  lift (unlock_wrapper receiverPtr).
Abbreviation receiverDisconnect :=
  Java_com_example_ndireceiver_ndi_NdiNative_receiverDisconnect (only parsing).

Definition Java_com_example_ndireceiver_ndi_NdiNative_receiverSetSurface
    (plat : Platform) (receiverPtr surface : Z) : Sys.M bool bool :=
  Sys.when (receiverPtr =? 0) (Sys.Return false) ;;
  let receiverPtr := ptr_of_jlong receiverPtr in
  Sys.when (receiverPtr =? 0) (Sys.Return false) ;;
  lift (lock_wrapper receiverPtr) ;;
  wrapper <- lift (load_receiver receiverPtr) ;;
  Sys.when (surface =? 0)
    (Sys.when (negb (NdiReceiverWrapper.surface_window wrapper =? 0))
       (Sys.emit (call_ANativeWindow_release (NdiReceiverWrapper.surface_window wrapper)) ;;
        lift (store receiverPtr
                (BReceiver (NdiReceiverWrapper.mk (NdiReceiverWrapper.recv wrapper) 0)))) ;;
     lift (unlock_wrapper receiverPtr) ;;
     Sys.Return true) ;;
  Sys.emit (call_ANativeWindow_fromSurface surface) ;;
  let window := ANativeWindow_fromSurface plat surface in
  Sys.when (window =? 0) (lift (unlock_wrapper receiverPtr) ;; Sys.Return false) ;;
  Sys.when (negb (NdiReceiverWrapper.surface_window wrapper =? 0))
    (Sys.emit (call_ANativeWindow_release (NdiReceiverWrapper.surface_window wrapper))) ;;
  lift (store receiverPtr
          (BReceiver (NdiReceiverWrapper.mk (NdiReceiverWrapper.recv wrapper) window))) ;;
  lift (unlock_wrapper receiverPtr) ;;
  Sys.Return true.
Abbreviation receiverSetSurface :=
  Java_com_example_ndireceiver_ndi_NdiNative_receiverSetSurface (only parsing).

Close Scope sys_scope.

(** * Specifications of the second part *)

(** Every reference of the cache is resolved. *)
Definition cache_complete (c : jni_cache) : Prop :=
  g_class_VideoFrame c <> 0 /\ g_ctor_VideoFrame c <> 0
  /\ g_class_AudioFrame c <> 0 /\ g_ctor_AudioFrame c <> 0
  /\ g_class_ReceiverPerformance c <> 0 /\ g_ctor_ReceiverPerformance c <> 0.

#[global] Instance mutex_eq_dec : EqDecision mutex.
Proof. solve_decision. Defined.

(** The lock discipline of the calls on a wrapper, [held] being the mutex
    held before [evs]: no mutex is taken while one is held, an unlock
    releases the mutex that is held, every call into the engine happens
    while the mutex [owner] is held, and no mutex is held at the end. *)
Fixpoint well_locked (owner : mutex) (held : option mutex) (evs : list event) : bool :=
  match evs with
  | [] => match held with None => true | Some _ => false end
  | pthread_mutex_lock m :: evs =>
      match held with None => well_locked owner (Some m) evs | Some _ => false end
  | pthread_mutex_unlock m :: evs =>
      match held with
      | Some m' => bool_decide (m = m') && well_locked owner None evs
      | None => false
      end
  | _ :: evs =>
      match held with
      | Some m => bool_decide (m = owner) && well_locked owner held evs
      | None => false
      end
  end.

(** The events of an outcome keep the lock discipline of [owner]. *)
Definition locks_kept {R A} (owner : mutex) (o : outcome R A) : Prop :=
  match o with
  | Proceed _ _ evs | Returned _ _ evs => well_locked owner None evs = true
  | Undefined => True
  end.

(** ** What creating a wrapper may do *)

(** The C copy of a managed string: the string, or NULL when the string
    is NULL or the copy could not be made. *)
Definition copy_of (jstr copy : option string) : Prop := copy = None \/ copy = jstr.

(** A string as the settings of the engine take it: NULL when empty. *)
Definition not_empty (chars : option string) : option string :=
  if is_empty_string chars then None else chars.

(** The process state and the C strings of [s'] are those of [s]. *)
Definition unchanged (s s' : system) : Prop :=
  process s' = process s /\ c_strings s' = c_strings s.

(** The address [p] is one the allocator may answer in [s]. *)
Definition unused_address (s : system) (p : Z) : Prop :=
  p <> 0 /\ is_address p /\ heap (process s) !! p = None /\ c_strings s !! p = None.

(** The state [s] with the block [b] at [p]. *)
Definition with_block (p : Z) (b : block) (s s' : system) : Prop :=
  process s' = set_heap (<[p := b]> (heap (process s))) (process s)
  /\ c_strings s' = c_strings s.

Section FinderCreateSpec.
Variables (plat : Platform) (showLocalSources : Z) (groups extraIps : option string).
Variable s : system.

Definition finder_settings (groups_chars extra_ips_chars : option string)
  : NDIlib_find_create_t.t :=
  NDIlib_find_create_t.mk (showLocalSources =? 1)
    (not_empty groups_chars) (not_empty extra_ips_chars).

(** The outcomes of [finderCreate] from the state [s]. *)
Inductive finderCreate_result : Z -> system -> list operation -> Prop :=
| finder_refused :
    g_initialized (process s) = 0 ->
    finderCreate_result 0 s []
| finder_not_created g e s' :
    g_initialized (process s) <> 0 ->
    copy_of groups g -> copy_of extraIps e ->
    NDIlib_find_create_v2 plat (finder_settings g e) = 0 ->
    unchanged s s' ->
    finderCreate_result 0 s' [call_NDIlib_find_create_v2 (finder_settings g e)]
| finder_out_of_memory g e s' :
    g_initialized (process s) <> 0 ->
    copy_of groups g -> copy_of extraIps e ->
    NDIlib_find_create_v2 plat (finder_settings g e) <> 0 ->
    unchanged s s' ->
    finderCreate_result 0 s'
      [call_NDIlib_find_create_v2 (finder_settings g e);
       call_NDIlib_find_destroy (NDIlib_find_create_v2 plat (finder_settings g e))]
| finder_without_mutex g e wrapper s' :
    g_initialized (process s) <> 0 ->
    copy_of groups g -> copy_of extraIps e ->
    NDIlib_find_create_v2 plat (finder_settings g e) <> 0 ->
    unused_address s wrapper ->
    pthread_mutex_init plat wrapper <> 0 ->
    unchanged s s' ->
    finderCreate_result 0 s'
      [call_NDIlib_find_create_v2 (finder_settings g e);
       call_pthread_mutex_init (wrapper_mutex wrapper);
       call_NDIlib_find_destroy (NDIlib_find_create_v2 plat (finder_settings g e))]
| finder_created g e wrapper s' :
    g_initialized (process s) <> 0 ->
    copy_of groups g -> copy_of extraIps e ->
    NDIlib_find_create_v2 plat (finder_settings g e) <> 0 ->
    unused_address s wrapper ->
    pthread_mutex_init plat wrapper = 0 ->
    with_block wrapper
      (BFinder (NdiFinderWrapper.mk (NDIlib_find_create_v2 plat (finder_settings g e))))
      s s' ->
    finderCreate_result (jlong_of_ptr wrapper) s'
      [call_NDIlib_find_create_v2 (finder_settings g e);
       call_pthread_mutex_init (wrapper_mutex wrapper)].

Definition finderCreate_post (o : Sys.outcome Z Z) : Prop :=
  match o with
  | Sys.Returned r s' ops => finderCreate_result r s' ops
  | Sys.Proceed _ _ _ => False
  | Sys.Undefined => True
  end.

End FinderCreateSpec.

Section ReceiverCreateSpec.
Variables (plat : Platform) (receiverName : option string).
Variables (bandwidth colorFormat allowVideoFields : Z).
Variable s : system.

Definition receiver_settings (name_chars : option string) : NDIlib_recv_create_v3_t.t :=
  NDIlib_recv_create_v3_t.mk
    (NDIlib_source_t.mk None None)
    (map_color_format colorFormat)
    (map_bandwidth bandwidth)
    (allowVideoFields =? 1)
    (not_empty name_chars).

(** The outcomes of [receiverCreate] from the state [s]. *)
Inductive receiverCreate_result : Z -> system -> list operation -> Prop :=
| receiver_refused :
    g_initialized (process s) = 0 ->
    receiverCreate_result 0 s []
| receiver_out_of_memory s' :
    g_initialized (process s) <> 0 ->
    unchanged s s' ->
    receiverCreate_result 0 s' []
| receiver_without_mutex wrapper s' :
    g_initialized (process s) <> 0 ->
    unused_address s wrapper ->
    pthread_mutex_init plat wrapper <> 0 ->
    unchanged s s' ->
    receiverCreate_result 0 s' [call_pthread_mutex_init (wrapper_mutex wrapper)]
| receiver_not_created name wrapper s' :
    g_initialized (process s) <> 0 ->
    copy_of receiverName name ->
    unused_address s wrapper ->
    pthread_mutex_init plat wrapper = 0 ->
    NDIlib_recv_create_v3 plat (receiver_settings name) = 0 ->
    unchanged s s' ->
    receiverCreate_result 0 s'
      [call_pthread_mutex_init (wrapper_mutex wrapper);
       call_NDIlib_recv_create_v3 (receiver_settings name);
       call_pthread_mutex_destroy (wrapper_mutex wrapper)]
| receiver_created name wrapper s' :
    g_initialized (process s) <> 0 ->
    copy_of receiverName name ->
    unused_address s wrapper ->
    pthread_mutex_init plat wrapper = 0 ->
    NDIlib_recv_create_v3 plat (receiver_settings name) <> 0 ->
    with_block wrapper
      (BReceiver (NdiReceiverWrapper.mk
                    (NDIlib_recv_create_v3 plat (receiver_settings name)) 0))
      s s' ->
    receiverCreate_result (jlong_of_ptr wrapper) s'
      [call_pthread_mutex_init (wrapper_mutex wrapper);
       call_NDIlib_recv_create_v3 (receiver_settings name)].

Definition receiverCreate_post (o : Sys.outcome Z Z) : Prop :=
  match o with
  | Sys.Returned r s' ops => receiverCreate_result r s' ops
  | Sys.Proceed _ _ _ => False
  | Sys.Undefined => True
  end.

End ReceiverCreateSpec.

(** The engine instances a call leaves behind: those created among [ops]
    (by the answers of [plat]) and those destroyed among [ops]. *)
Definition created_instances (plat : Platform) (ops : list operation) : list Z :=
  omap (fun op =>
          match op with
          | call_NDIlib_find_create_v2 settings =>
              let finder := NDIlib_find_create_v2 plat settings in
              if finder =? 0 then None else Some finder
          | call_NDIlib_recv_create_v3 settings =>
              let recv := NDIlib_recv_create_v3 plat settings in
              if recv =? 0 then None else Some recv
          | _ => None
          end) ops.

Definition destroyed_instances (ops : list operation) : list Z :=
  omap (fun op =>
          match op with
          | call_NDIlib_find_destroy finder => Some finder
          | call_NDIlib_recv_destroy recv => Some recv
          | _ => None
          end) ops.

(** The mutexes a call leaves initialized and the ones it destroys. *)
Definition initialized_mutexes (plat : Platform) (ops : list operation) : list mutex :=
  omap (fun op =>
          match op with
          | call_pthread_mutex_init (wrapper_mutex wrapper) =>
              if pthread_mutex_init plat wrapper =? 0 then Some (wrapper_mutex wrapper) else None
          | _ => None
          end) ops.

Definition destroyed_mutexes (ops : list operation) : list mutex :=
  omap (fun op =>
          match op with
          | call_pthread_mutex_destroy m => Some m
          | _ => None
          end) ops.


Definition released_windows (ops : list operation) : list Z :=
  omap (fun op =>
          match op with
          | call_ANativeWindow_release window => Some window
          | _ => None
          end) ops.

(** The window reference a receiver wrapper holds. *)
Definition held_windows (wrapper : NdiReceiverWrapper.t) : list Z :=
  if NdiReceiverWrapper.surface_window wrapper =? 0 then []
  else [NdiReceiverWrapper.surface_window wrapper].

(** ** More concrete collaborators *)

(** A state with a receiver (at 1000), a video frame handle (at 2000) and
    an audio frame handle (at 2100) with its interleaved buffer (at
    3000). *)
Definition world_with_frames : world := {|
  g_initialized := 1;
  cache := cache_empty;
  heap := {[ 1000 := BReceiver (NdiReceiverWrapper.mk 77 0);
             2000 := BVideoHandle (NdiVideoFrameHandle.mk 77 frame_bottom_up);
             2100 := BAudioHandle (NdiAudioFrameHandle.mk 77 frame_stereo 3000 32);
             3000 := BFloats (float_bits <$> [1; 10; 2; 20; 3; 30; 4; 40]) ]}
|}.

(** An engine that sees three sources, the second one without a name. *)
Definition engine_sources : NDIlib := {|
  NDIlib_initialize := true;
  NDIlib_find_get_current_sources := fun _ =>
    (Some [NDIlib_source_t.mk (Some "STUDIO (Camera 1)") None;
           NDIlib_source_t.mk None None;
           NDIlib_source_t.mk (Some "STUDIO (Camera 3)") None], 3);
  NDIlib_recv_capture_v2 := fun _ _ _ _ =>
    (NDIlib_frame_type_none, NDIlib_video_frame_v2_t.zero, NDIlib_audio_frame_v2_t.zero);
  NDIlib_recv_get_performance := fun _ => (perf_zero, perf_zero);
  NDIlib_recv_get_no_connections := fun _ => 0;
  memory := fun _ => 0
|}.

(** A platform on which nothing fails: the engine answers the finder 501
    and the receiver 502, and the window of a surface is the number after
    it. *)
Definition platform_ok : Platform := {|
  NDIlib_find_create_v2 := fun _ => 501;
  NDIlib_find_wait_for_sources := fun _ _ => true;
  NDIlib_recv_create_v3 := fun _ => 502;
  GetStringUTFChars := fun _ => true;
  pthread_mutex_init := fun _ => 0;
  ANativeWindow_fromSurface := fun surface => surface + 1
|}.

(** The same platform when no mutex can be initialized. *)
Definition platform_no_mutex : Platform := {|
  NDIlib_find_create_v2 := fun _ => 501;
  NDIlib_find_wait_for_sources := fun _ _ => true;
  NDIlib_recv_create_v3 := fun _ => 502;
  GetStringUTFChars := fun _ => true;
  pthread_mutex_init := fun _ => 22;
  ANativeWindow_fromSurface := fun surface => surface + 1
|}.

(** The same platform when the engine creates nothing and no surface has
    a window. *)
Definition platform_no_engine : Platform := {|
  NDIlib_find_create_v2 := fun _ => 0;
  NDIlib_find_wait_for_sources := fun _ _ => false;
  NDIlib_recv_create_v3 := fun _ => 0;
  GetStringUTFChars := fun _ => true;
  pthread_mutex_init := fun _ => 0;
  ANativeWindow_fromSurface := fun _ => 0
|}.

(** The state [world_ready] with no C string and an allocator that is
    going to answer 4000, 4100 and 4200. *)
Definition system_ready : system :=
  {| process := world_ready; c_strings := ∅; allocator := [4000; 4100; 4200] |}.

(** A state whose receiver (at 1000) holds the window 9. *)
Definition system_with_surface : system := {|
  process := {| g_initialized := 1;
                cache := cache_empty;
                heap := {[ 1000 := BReceiver (NdiReceiverWrapper.mk 77 9) ]} |};
  c_strings := ∅;
  allocator := [4000]
|}.

(** * Properties *)

(** ** C integer conversions *)

Lemma to_signed_id w z : 0 < w -> - 2 ^ (w - 1) <= z < 2 ^ (w - 1) -> to_signed w z = z.
Proof.
  intros Hw Hz. unfold to_signed.
  replace (2 ^ w) with (2 * 2 ^ (w - 1)).
  - rewrite Z.mod_small; lia.
  - rewrite <- Z.pow_succ_r by lia. f_equal. lia.
Qed.

Lemma to_jint_id z : int_range z -> to_jint z = z.
Proof. intros H. apply to_signed_id; [lia | exact H]. Qed.

Lemma to_jlong_id z : int64_range z -> to_jlong z = z.
Proof. intros H. apply to_signed_id; [lia | exact H]. Qed.

Lemma to_jlong_int z : int_range z -> to_jlong z = z.
Proof. intros H. apply to_jlong_id. unfold int_range, int64_range in *. lia. Qed.

Lemma to_size_t_small z : 0 <= z < 2 ^ 64 -> to_size_t z = z.
Proof. intros H. apply Z.mod_small. exact H. Qed.

(** A handle made from a pointer gives the pointer back. *)
Lemma ptr_of_jlong_of_ptr p : is_address p -> ptr_of_jlong (jlong_of_ptr p) = p.
Proof.
  unfold is_address, ptr_of_jlong, jlong_of_ptr, to_size_t, to_jlong, to_unsigned, to_signed.
  intros Hp. change (2 ^ (64 - 1)) with 9223372036854775808.
  change (2 ^ 64) with 18446744073709551616 in *.
  rewrite Zminus_mod_idemp_l.
  replace (p + 9223372036854775808 - 9223372036854775808) with p by lia.
  apply Z.mod_small. lia.
Qed.

(** ** Laws of programs *)

Lemma prefix_nil {R A} (o : outcome R A) : prefix [] o = o.
Proof. by destruct o. Qed.

Lemma prefix_prefix {R A} e1 e2 (o : outcome R A) :
  prefix e1 (prefix e2 o) = prefix (e1 ++ e2) o.
Proof. destruct o; simpl; by rewrite ?app_assoc. Qed.

Section ProgramLaws.
Context {R B : Type}.
Implicit Types (w : world).

Lemma bind_ret {A} (a : A) (k : A -> M R B) w : bind (ret a) k w = k a w.
Proof. unfold bind, ret. apply prefix_nil. Qed.

Lemma bind_Return {A} (r : R) (k : A -> M R B) w : bind (Return r) k w = Returned r w [].
Proof. reflexivity. Qed.

Lemma bind_undefined {A} (k : A -> M R B) w : bind undefined k w = Undefined.
Proof. reflexivity. Qed.

Lemma bind_emit e (k : unit -> M R B) w : bind (emit e) k w = prefix [e] (k tt w).
Proof. reflexivity. Qed.

Lemma bind_get (k : world -> M R B) w : bind get k w = k w w.
Proof. unfold bind, get. apply prefix_nil. Qed.

Lemma bind_modify f (k : unit -> M R B) w : bind (modify f) k w = k tt (f w).
Proof. unfold bind, modify. apply prefix_nil. Qed.

Lemma bind_when (c : bool) (m : M R unit) (k : unit -> M R B) w :
  bind (when c m) k w = if c then bind m k w else k tt w.
Proof. destruct c; [reflexivity | apply bind_ret]. Qed.

Lemma bind_assoc {A C} (m : M R A) (f : A -> M R C) (g : C -> M R B) w :
  bind (bind m f) g w = bind m (fun x => bind (f x) g) w.
Proof.
  unfold bind. destruct (m w) as [a w1 e1| |]; try reflexivity.
  destruct (f a w1) as [c w2 e2| |]; simpl; try reflexivity.
  destruct (g c w2); simpl; by rewrite ?app_assoc.
Qed.

Lemma bind_invoke {A} (f : M A A) (k : A -> M R B) w :
  bind (invoke f) k w =
  match f w with
  | Proceed a w' evs | Returned a w' evs => prefix evs (k a w')
  | Undefined => Undefined
  end.
Proof. unfold bind, invoke. by destruct (f w). Qed.

Lemma bind_update_cache f (k : unit -> M R B) w :
  bind (update_cache f) k w = k tt (set_cache (f (cache w)) w).
Proof. unfold update_cache. by rewrite bind_modify. Qed.

Lemma bind_unlock_cache (k : unit -> M R B) w :
  bind unlock_cache k w = prefix [pthread_mutex_unlock g_jni_cache_mutex] (k tt w).
Proof. reflexivity. Qed.

Lemma bind_load (p : Z) (k : block -> M R B) w :
  bind (load p) k w = match heap w !! p with Some b => k b w | None => Undefined end.
Proof. unfold bind, load. destruct (heap w !! p); [apply prefix_nil | reflexivity]. Qed.

Lemma bind_store (p : Z) (b : block) (k : unit -> M R B) w :
  bind (store p b) k w =
  match heap w !! p with
  | Some _ => k tt (set_heap (<[p := b]> (heap w)) w)
  | None => Undefined
  end.
Proof. unfold bind, store. destruct (heap w !! p); [apply prefix_nil | reflexivity]. Qed.

Lemma bind_free (p : Z) (k : unit -> M R B) w :
  bind (free p) k w =
  if p =? 0 then k tt w
  else match heap w !! p with
       | Some _ => k tt (set_heap (delete p (heap w)) w)
       | None => Undefined
       end.
Proof.
  unfold bind, free. destruct (p =? 0); [apply prefix_nil |].
  destruct (heap w !! p); [apply prefix_nil | reflexivity].
Qed.

Lemma bind_allocate (p : Z) (b : block) (k : Z -> M R B) w :
  bind (allocate p b) k w =
  if p =? 0 then k 0 w
  else if (0 <? p) && (p <? 2 ^ 64) then
    match heap w !! p with
    | None => k p (set_heap (<[p := b]> (heap w)) w)
    | Some _ => Undefined
    end
  else Undefined.
Proof.
  unfold bind, allocate. destruct (p =? 0); [apply prefix_nil |].
  destruct ((0 <? p) && (p <? 2 ^ 64)); [| reflexivity].
  destruct (heap w !! p); [reflexivity | apply prefix_nil].
Qed.

Lemma bind_load_finder (p : Z) (k : NdiFinderWrapper.t -> M R B) w :
  bind (load_finder p) k w =
  match heap w !! p with Some (BFinder f) => k f w | _ => Undefined end.
Proof.
  unfold load_finder. rewrite bind_assoc, bind_load.
  destruct (heap w !! p) as [[]|]; try reflexivity. apply bind_ret.
Qed.

Lemma bind_load_receiver (p : Z) (k : NdiReceiverWrapper.t -> M R B) w :
  bind (load_receiver p) k w =
  match heap w !! p with Some (BReceiver r) => k r w | _ => Undefined end.
Proof.
  unfold load_receiver. rewrite bind_assoc, bind_load.
  destruct (heap w !! p) as [[]|]; try reflexivity. apply bind_ret.
Qed.

Lemma bind_load_video_handle (p : Z) (k : NdiVideoFrameHandle.t -> M R B) w :
  bind (load_video_handle p) k w =
  match heap w !! p with Some (BVideoHandle h) => k h w | _ => Undefined end.
Proof.
  unfold load_video_handle. rewrite bind_assoc, bind_load.
  destruct (heap w !! p) as [[]|]; try reflexivity. apply bind_ret.
Qed.

Lemma bind_load_audio_handle (p : Z) (k : NdiAudioFrameHandle.t -> M R B) w :
  bind (load_audio_handle p) k w =
  match heap w !! p with Some (BAudioHandle h) => k h w | _ => Undefined end.
Proof.
  unfold load_audio_handle. rewrite bind_assoc, bind_load.
  destruct (heap w !! p) as [[]|]; try reflexivity. apply bind_ret.
Qed.

Lemma bind_lock_wrapper (p : Z) (k : unit -> M R B) w :
  bind (lock_wrapper p) k w =
  match heap w !! p with
  | Some (BFinder _) | Some (BReceiver _) =>
      prefix [pthread_mutex_lock (wrapper_mutex p)] (k tt w)
  | _ => Undefined
  end.
Proof.
  unfold lock_wrapper. rewrite bind_assoc, bind_load.
  destruct (heap w !! p) as [[]|]; reflexivity.
Qed.

Lemma bind_unlock_wrapper (p : Z) (k : unit -> M R B) w :
  bind (unlock_wrapper p) k w =
  match heap w !! p with
  | Some (BFinder _) | Some (BReceiver _) =>
      prefix [pthread_mutex_unlock (wrapper_mutex p)] (k tt w)
  | _ => Undefined
  end.
Proof.
  unfold unlock_wrapper. rewrite bind_assoc, bind_load.
  destruct (heap w !! p) as [[]|]; reflexivity.
Qed.

End ProgramLaws.

Lemma set_heap_same w : set_heap (heap w) w = w.
Proof. by destruct w. Qed.

Lemma set_heap_set_heap h h' w : set_heap h (set_heap h' w) = set_heap h w.
Proof. reflexivity. Qed.

Lemma engine_calls_app e1 e2 : engine_calls (e1 ++ e2) = engine_calls e1 ++ engine_calls e2.
Proof. unfold engine_calls. apply List.filter_app. Qed.

Lemma engine_calls_In e evs : In e (engine_calls evs) <-> In e evs /\ is_engine_call e = true.
Proof. unfold engine_calls. apply List.filter_In. Qed.

(** ** The callback-schema cache *)

Lemma cache_post_prefix w e o :
  is_engine_call e = false -> cache_post w o -> cache_post w (prefix [e] o).
Proof.
  intros He. destruct o as [| ok w1 evs |]; simpl; try done.
  unfold engine_calls. simpl. rewrite He. tauto.
Qed.

Ltac cache_step :=
  first
    [ rewrite bind_get
    | rewrite bind_update_cache
    | rewrite bind_unlock_cache; apply cache_post_prefix; [reflexivity |]
    | rewrite bind_emit; apply cache_post_prefix; [reflexivity |]
    | rewrite bind_Return; simpl; tauto
    | rewrite bind_when; case_match ];
  cbv beta zeta.

Lemma ensure_jni_cache_post env w : cache_post w (ensure_jni_cache env w).
Proof.
  unfold ensure_jni_cache. cbv zeta.
  repeat cache_step.
  all: try (unfold Return; simpl; tauto).
Qed.

Lemma ensure_jni_cache_returns env w :
  exists ok w1 evs,
    ensure_jni_cache env w = Returned ok w1 evs
    /\ heap w1 = heap w /\ g_initialized w1 = g_initialized w
    /\ engine_calls evs = [] /\ (ok = 0 \/ ok = 1).
Proof.
  pose proof (ensure_jni_cache_post env w) as H.
  destruct (ensure_jni_cache env w) as [| ok w1 evs |]; simpl in H; try done.
  by exists ok, w1, evs.
Qed.

(** ** Video capture *)

Lemma release_video_and_fail_run {A B} p hp wrapper h
    (k : A -> M (option VideoFrame.t) B) w :
  heap w !! p = Some (BReceiver wrapper) ->
  heap w !! hp = Some (BVideoHandle h) ->
  hp <> 0 ->
  bind (release_video_and_fail p hp) k w
  = Returned None (set_heap (delete hp (heap w)) w)
      [pthread_mutex_lock (wrapper_mutex p);
       call_NDIlib_recv_free_video_v2 (NdiReceiverWrapper.recv wrapper)
         (NdiVideoFrameHandle.frame h);
       pthread_mutex_unlock (wrapper_mutex p)].
Proof.
  intros Hp Hh Hne. unfold release_video_and_fail.
  rewrite bind_assoc, bind_lock_wrapper, Hp.
  rewrite bind_assoc, bind_load_receiver, Hp.
  rewrite bind_assoc, bind_load_video_handle, Hh.
  rewrite bind_assoc, bind_emit.
  rewrite bind_assoc, bind_unlock_wrapper, Hp.
  rewrite bind_assoc, bind_free.
  apply Z.eqb_neq in Hne. rewrite Hne, Hh.
  rewrite bind_Return. reflexivity.
Qed.

Lemma receiverCaptureVideo_sound ndi env libc receiverPtr timeoutMs w :
  captureVideo_post ndi libc receiverPtr timeoutMs w
    (receiverCaptureVideo ndi env libc receiverPtr timeoutMs w).
Proof.
  unfold receiverCaptureVideo.
  rewrite bind_when. destruct (receiverPtr =? 0) eqn:Hrp.
  { rewrite bind_Return. by constructor. }
  cbv zeta.
  rewrite bind_when. destruct (ptr_of_jlong receiverPtr =? 0) eqn:Hp.
  { rewrite bind_Return. by constructor. }
  apply Z.eqb_neq in Hrp, Hp.
  rewrite bind_load_receiver.
  destruct (heap w !! ptr_of_jlong receiverPtr) as [[| wrapper | | |]|] eqn:Hw;
    try (intros [Hs _]; destruct (Hs Hrp Hp) as [? ?]; congruence).
  rewrite bind_when. destruct (NdiReceiverWrapper.recv wrapper =? 0) eqn:Hrecv.
  { rewrite bind_Return. by constructor. }
  apply Z.eqb_neq in Hrecv.
  assert (Hlive : receiver_of receiverPtr w wrapper) by done.
  rewrite bind_invoke.
  destruct (ensure_jni_cache_returns env w) as (ok & w1 & cevs & -> & Hh1 & _ & Hcevs & Hok).
  assert (Hw1 : heap w1 !! ptr_of_jlong receiverPtr = Some (BReceiver wrapper))
    by (by rewrite Hh1).
  rewrite bind_when. destruct (ok =? 0) eqn:Hok0.
  { rewrite bind_Return. simpl. constructor; [done | by rewrite app_nil_r]. }
  rewrite bind_allocate. destruct (calloc libc =? 0) eqn:Hc0.
  { cbv beta. rewrite bind_when. simpl. constructor; [done | by rewrite app_nil_r]. }
  apply Z.eqb_neq in Hc0.
  destruct ((0 <? calloc libc) && (calloc libc <? 2 ^ 64)) eqn:Hrange; cycle 1.
  { simpl. intros [_ [? | (_ & Ha & _)]]; [done |]. unfold is_address in Ha.
    apply andb_false_iff in Hrange as [?%Z.ltb_ge | ?%Z.ltb_ge]; lia. }
  apply andb_true_iff in Hrange as [Hr1%Z.ltb_lt Hr2%Z.ltb_lt].
  destruct (heap w1 !! calloc libc) eqn:Hfresh.
  { simpl. intros [_ [? | (_ & _ & Hn)]]; [done |]. rewrite Hh1 in Hfresh. congruence. }
  assert (Hf : fresh w (calloc libc)).
  { repeat split; [done | lia | lia | by rewrite <- Hh1]. }
  assert (Hne : ptr_of_jlong receiverPtr <> calloc libc) by congruence.
  rewrite bind_when. cbv iota beta.
  rewrite bind_store. cbn [heap set_heap]. rewrite lookup_insert_eq.
  rewrite insert_insert_eq.
  rewrite bind_lock_wrapper. cbn [heap set_heap].
  rewrite lookup_insert_ne by done. rewrite Hw1.
  rewrite bind_emit.
  rewrite bind_store. cbn [heap set_heap]. rewrite lookup_insert_eq.
  rewrite insert_insert_eq.
  rewrite bind_unlock_wrapper. cbn [heap set_heap].
  rewrite lookup_insert_ne by done. rewrite Hw1.
  rewrite !prefix_prefix.
  rewrite !set_heap_set_heap.
  change (fst (NDIlib_recv_capture_v2 ndi (NdiReceiverWrapper.recv wrapper) true false
                 (to_uint32 timeoutMs)))
    with (video_captured ndi timeoutMs wrapper).
  set (f := snd (video_captured ndi timeoutMs wrapper)).
  set (hd := NdiVideoFrameHandle.mk (NdiReceiverWrapper.recv wrapper) f).
  set (w2 := set_heap (<[calloc libc := BVideoHandle hd]> (heap w1)) w1).
  assert (Hw2 : heap w2 !! ptr_of_jlong receiverPtr = Some (BReceiver wrapper)).
  { subst w2. cbn [heap set_heap]. by rewrite lookup_insert_ne. }
  assert (Hh2 : heap w2 !! calloc libc = Some (BVideoHandle hd)).
  { subst w2. cbn [heap set_heap]. by rewrite lookup_insert_eq. }
  assert (Hback : heap (set_heap (delete (calloc libc) (heap w2)) w2) = heap w).
  { subst w2. cbn [heap set_heap]. rewrite delete_insert_id by done. done. }
  set (capture_evs := (_ ++ [pthread_mutex_unlock _])).
  assert (Hcap : engine_calls capture_evs = [video_capture_call timeoutMs wrapper]).
  { subst capture_evs. rewrite !engine_calls_app, Hcevs. reflexivity. }
  assert (Hrel : forall (k : unit -> M (option VideoFrame.t) (option VideoFrame.t)),
    fst (video_captured ndi timeoutMs wrapper) = NDIlib_frame_type_video ->
    captureVideo_post ndi libc receiverPtr timeoutMs w
      (prefix capture_evs
         (bind (release_video_and_fail (ptr_of_jlong receiverPtr) (calloc libc)) k w2))).
  { intros k Hv.
    rewrite (release_video_and_fail_run _ _ wrapper _ k w2 Hw2 Hh2 Hc0).
    simpl. eapply video_released; [done | done | done |].
    rewrite engine_calls_app, Hcap. reflexivity. }
  rewrite bind_when.
  destruct (bool_decide (fst (video_captured ndi timeoutMs wrapper) = NDIlib_frame_type_video))
    eqn:Hv; cbn [negb].
  2: { apply bool_decide_eq_false in Hv.
       rewrite bind_assoc, bind_free.
       apply Z.eqb_neq in Hc0 as ->. rewrite Hh2. rewrite bind_Return.
       simpl. eapply video_not_obtained; [done | done | done |].
       by rewrite app_nil_r. }
  apply bool_decide_eq_true in Hv.
  rewrite bind_load_video_handle, Hh2.
  change (NdiVideoFrameHandle.frame hd) with f.
  rewrite bind_when. destruct (NDIlib_video_frame_v2_t.p_data f =? 0) eqn:Hdata.
  { by apply Hrel. }
  rewrite bind_when. destruct (video_buffer_size f <=? 0) eqn:Hsize.
  { by apply Hrel. }
  rewrite bind_when. destruct (NewDirectByteBuffer env _ _); cbn [negb]; cycle 1.
  { by apply Hrel. }
  rewrite bind_get.
  rewrite bind_when. destruct (NewObject env _ _); cbn [negb]; cycle 1.
  { by apply Hrel. }
  unfold Return. simpl.
  apply Z.eqb_neq in Hdata. apply Z.leb_gt in Hsize.
  eapply video_delivered; try done.
  - subst w2 hd. cbn [heap set_heap]. by rewrite Hh1.
  - by rewrite app_nil_r.
Qed.

Lemma receiverCaptureVideo_call ndi env libc receiverPtr timeoutMs w r w' evs :
  call (receiverCaptureVideo ndi env libc receiverPtr timeoutMs) w = Some (r, w', evs) ->
  captureVideo_result ndi libc receiverPtr timeoutMs w r w' evs.
Proof.
  intros Hcall. unfold call in Hcall.
  pose proof (receiverCaptureVideo_sound ndi env libc receiverPtr timeoutMs w) as H.
  destruct (receiverCaptureVideo _ _ _ _ _ _) as [| r0 w0 e0 |]; simpl in H; [done | | done].
  by simplify_eq.
Qed.

Lemma receiverCaptureVideo_defined ndi env libc receiverPtr timeoutMs w :
  capture_video_sane libc receiverPtr w ->
  exists r w' evs,
    call (receiverCaptureVideo ndi env libc receiverPtr timeoutMs) w = Some (r, w', evs).
Proof.
  intros Hsane. unfold call.
  pose proof (receiverCaptureVideo_sound ndi env libc receiverPtr timeoutMs w) as H.
  destruct (receiverCaptureVideo _ _ _ _ _ _) as [| r0 w0 e0 |]; simpl in H; [done | | done].
  by exists r0, w0, e0.
Qed.

Lemma capture_call_in_engine_calls recv v a t evs :
  In (call_NDIlib_recv_capture_v2 recv v a t) evs ->
  In (call_NDIlib_recv_capture_v2 recv v a t) (engine_calls evs).
Proof. intros H. by apply engine_calls_In. Qed.

(** C2. A captured video frame whose data pointer is null or whose computed
    buffer size is not positive is released back to the engine and the
    call returns empty; a frame that is returned wraps a non-null data
    pointer and a positive buffer size. *)
Theorem captureVideo_drops_malformed_frame
    ndi env libc receiverPtr timeoutMs w r w' evs recv timeout frame :
  call (receiverCaptureVideo ndi env libc receiverPtr timeoutMs) w = Some (r, w', evs) ->
  In (call_NDIlib_recv_capture_v2 recv true false timeout) evs ->
  fst (NDIlib_recv_capture_v2 ndi recv true false timeout)
    = (NDIlib_frame_type_video, frame) ->
  (NDIlib_video_frame_v2_t.p_data frame = 0 \/ video_buffer_size frame <= 0 ->
   r = None
   /\ engine_calls evs =
        [call_NDIlib_recv_capture_v2 recv true false timeout;
         call_NDIlib_recv_free_video_v2 recv frame]
   /\ heap w' = heap w)
  /\ (forall obj, r = Some obj ->
      NDIlib_video_frame_v2_t.p_data frame <> 0
      /\ 0 < video_buffer_size frame
      /\ VideoFrame.bufferView obj =
           {| address := NDIlib_video_frame_v2_t.p_data frame;
              capacity := video_buffer_size frame |}
      /\ heap w' !! ptr_of_jlong (VideoFrame.frameHandle obj)
         = Some (BVideoHandle (NdiVideoFrameHandle.mk recv frame))).
Proof.
  intros Hcall Hin Hans.
  apply receiverCaptureVideo_call in Hcall.
  apply capture_call_in_engine_calls in Hin.
  destruct Hcall as [w' evs Hh He | wrapper w' evs Hl Hv Hh He
                    | wrapper w' evs Hl Hv Hh He
                    | wrapper w' evs Hl Hv Hd Hs Hf Hh He];
    rewrite He in Hin; simpl in Hin.
  - done.
  - destruct Hin as [Heq | []]. unfold video_capture_call in Heq.
    simplify_eq. unfold video_captured in Hv. rewrite Hans in Hv. done.
  - destruct Hin as [Heq | [Heq | []]]; [| done].
    unfold video_capture_call in Heq. simplify_eq.
    unfold video_captured, video_capture_call in *. rewrite Hans in *.
    split; [| done]. intros _. by rewrite He.
  - destruct Hin as [Heq | []]. unfold video_capture_call in Heq. simplify_eq.
    unfold video_captured in *. rewrite Hans in *. simpl in *.
    split; [lia |]. intros obj [= <-].
    split; [done |]. split; [done |]. split; [reflexivity |].
    destruct Hf as (_ & Ha & _). cbn [new_VideoFrame VideoFrame.frameHandle].
    rewrite ptr_of_jlong_of_ptr by done.
    rewrite Hh. apply lookup_insert_eq.
Qed.

Lemma captureVideo_drops_malformed_frame_witness :
  exists w' evs,
    call (receiverCaptureVideo (engine_video frame_no_data) env_ok libc_ok 1000 50)
      world_ready = Some (None, w', evs)
    /\ engine_calls evs =
         [call_NDIlib_recv_capture_v2 77 true false 50;
          call_NDIlib_recv_free_video_v2 77 frame_no_data]
    /\ heap w' = heap world_ready.
Proof.
  eexists _, _. split; [vm_compute; reflexivity |].
  refine (proj2 (proj1 (captureVideo_drops_malformed_frame
    (engine_video frame_no_data) env_ok libc_ok 1000 50 world_ready None _ _
    77 50 frame_no_data _ _ _) _)).
  - vm_compute. reflexivity.
  - vm_compute. tauto.
  - reflexivity.
  - left. reflexivity.
Defined.

Lemma is_compressed_fourcc_true fourcc :
  is_compressed_fourcc fourcc = true <-> fourcc = FOURCC_H264 \/ fourcc = FOURCC_HEVC.
Proof.
  unfold is_compressed_fourcc. rewrite orb_true_iff, !Z.eqb_eq. tauto.
Qed.

Lemma is_compressed_fourcc_false fourcc :
  is_compressed_fourcc fourcc = false <-> fourcc <> FOURCC_H264 /\ fourcc <> FOURCC_HEVC.
Proof.
  unfold is_compressed_fourcc. rewrite orb_false_iff, !Z.eqb_neq. tauto.
Qed.

Lemma video_buffer_size_compressed frame :
  is_compressed_fourcc (to_uint32 (NDIlib_video_frame_v2_t.FourCC frame)) = true ->
  int_range (NDIlib_video_frame_v2_t.data_size_in_bytes frame) ->
  video_buffer_size frame = NDIlib_video_frame_v2_t.data_size_in_bytes frame.
Proof.
  intros Hc Hr. unfold video_buffer_size. rewrite Hc. by apply to_jlong_int.
Qed.

Lemma video_buffer_size_uncompressed frame :
  is_compressed_fourcc (to_uint32 (NDIlib_video_frame_v2_t.FourCC frame)) = false ->
  int_range (NDIlib_video_frame_v2_t.line_stride_in_bytes frame) ->
  int_range (NDIlib_video_frame_v2_t.yres frame) ->
  video_buffer_size frame
  = Z.abs (NDIlib_video_frame_v2_t.line_stride_in_bytes frame)
    * NDIlib_video_frame_v2_t.yres frame.
Proof.
  intros Hc Hs Hy. unfold video_buffer_size. rewrite Hc. cbv zeta.
  rewrite (to_jlong_int (NDIlib_video_frame_v2_t.line_stride_in_bytes frame)) by done.
  rewrite (to_jlong_int (NDIlib_video_frame_v2_t.yres frame)) by done.
  unfold int_range, int64_range in *.
  destruct (Z.ltb_spec (NDIlib_video_frame_v2_t.line_stride_in_bytes frame) 0).
  - rewrite (to_jlong_id (- _)) by (unfold int64_range; lia).
    rewrite Z.abs_neq by lia. apply to_jlong_id. unfold int64_range. nia.
  - rewrite Z.abs_eq by lia. apply to_jlong_id. unfold int64_range. nia.
Qed.

(** What a successful video capture leaves: the receiver, the frame the
    engine answered, the handle holding it and the object built from it. *)
Lemma receiverCaptureVideo_success ndi env libc receiverPtr timeoutMs w obj w' evs :
  call (receiverCaptureVideo ndi env libc receiverPtr timeoutMs) w = Some (Some obj, w', evs) ->
  exists wrapper frame,
    heap w !! ptr_of_jlong receiverPtr = Some (BReceiver wrapper)
    /\ fst (NDIlib_recv_capture_v2 ndi (NdiReceiverWrapper.recv wrapper) true false
              (to_uint32 timeoutMs)) = (NDIlib_frame_type_video, frame)
    /\ heap w' !! ptr_of_jlong (VideoFrame.frameHandle obj)
       = Some (BVideoHandle (NdiVideoFrameHandle.mk (NdiReceiverWrapper.recv wrapper) frame))
    /\ obj = new_VideoFrame (calloc libc) frame
    /\ engine_calls evs =
         [call_NDIlib_recv_capture_v2 (NdiReceiverWrapper.recv wrapper) true false
            (to_uint32 timeoutMs)].
Proof.
  intros Hcall. apply receiverCaptureVideo_call in Hcall.
  inversion Hcall as [| | | wrapper w'' evs' Hl Hv Hd Hs Hf Hh He]; subst.
  exists wrapper, (snd (video_captured ndi timeoutMs wrapper)).
  destruct Hl as (_ & _ & Hw & _). destruct Hf as (_ & Ha & _).
  split; [done |]. split.
  { unfold video_captured in *. rewrite <- Hv. by destruct (fst _). }
  split; [| done].
  cbn [new_VideoFrame VideoFrame.frameHandle].
  rewrite ptr_of_jlong_of_ptr by done. rewrite Hh. apply lookup_insert_eq.
Qed.

(** C3. The buffer exposed for a captured video frame has the size the
    engine reports when the FourCC is 'H264' or 'HEVC', and
    |line stride| x yres otherwise. *)
Theorem captureVideo_buffer_size ndi env libc receiverPtr timeoutMs w obj w' evs :
  call (receiverCaptureVideo ndi env libc receiverPtr timeoutMs) w = Some (Some obj, w', evs) ->
  exists wrapper frame,
    heap w !! ptr_of_jlong receiverPtr = Some (BReceiver wrapper)
    /\ fst (NDIlib_recv_capture_v2 ndi (NdiReceiverWrapper.recv wrapper) true false
              (to_uint32 timeoutMs)) = (NDIlib_frame_type_video, frame)
    /\ address (VideoFrame.bufferView obj) = NDIlib_video_frame_v2_t.p_data frame
    /\ (let tag := to_uint32 (NDIlib_video_frame_v2_t.FourCC frame) in
        (tag = FOURCC_H264 \/ tag = FOURCC_HEVC ->
         int_range (NDIlib_video_frame_v2_t.data_size_in_bytes frame) ->
         capacity (VideoFrame.bufferView obj)
         = NDIlib_video_frame_v2_t.data_size_in_bytes frame)
        /\ (tag <> FOURCC_H264 -> tag <> FOURCC_HEVC ->
            int_range (NDIlib_video_frame_v2_t.line_stride_in_bytes frame) ->
            int_range (NDIlib_video_frame_v2_t.yres frame) ->
            capacity (VideoFrame.bufferView obj)
            = Z.abs (NDIlib_video_frame_v2_t.line_stride_in_bytes frame)
              * NDIlib_video_frame_v2_t.yres frame)).
Proof.
  intros Hcall.
  destruct (receiverCaptureVideo_success _ _ _ _ _ _ _ _ _ Hcall)
    as (wrapper & frame & Hw & Hans & _ & -> & _).
  exists wrapper, frame. split; [done |]. split; [done |]. split; [reflexivity |].
  cbn [new_VideoFrame VideoFrame.bufferView capacity]. split.
  - intros Htag Hr. apply video_buffer_size_compressed; [| done].
    by apply is_compressed_fourcc_true.
  - intros H1 H2 Hs Hy. apply video_buffer_size_uncompressed; try done.
    by apply is_compressed_fourcc_false.
Qed.

Lemma captureVideo_buffer_size_witness :
  exists obj w' evs,
    call (receiverCaptureVideo (engine_video frame_bottom_up) env_ok libc_ok 1000 50)
      world_ready = Some (Some obj, w', evs)
    /\ capacity (VideoFrame.bufferView obj) = 1920 * 1080.
Proof.
  eexists _, _, _. split; [vm_compute; reflexivity |].
  edestruct (captureVideo_buffer_size (engine_video frame_bottom_up) env_ok libc_ok
               1000 50 world_ready) as (wrapper & frame & Hw & Hans & _ & Hsize).
  { vm_compute. reflexivity. }
  vm_compute in Hans. injection Hans as <-.
  cbv zeta in Hsize. destruct Hsize as [_ Hsize].
  transitivity (Z.abs (-1920) * 1080); [| reflexivity].
  apply Hsize; vm_compute; first [discriminate | split; [discriminate | reflexivity]].
Defined.

(** What [receiverFreeVideo] does to a live handle: the frame goes back to
    the engine and the handle struct is freed. *)
Lemma receiverFreeVideo_run receiverPtr framePtr w h :
  framePtr <> 0 -> ptr_of_jlong framePtr <> 0 ->
  heap w !! ptr_of_jlong framePtr = Some (BVideoHandle h) ->
  (ptr_of_jlong receiverPtr = 0
   \/ exists wrapper, heap w !! ptr_of_jlong receiverPtr = Some (BReceiver wrapper)) ->
  exists evs,
    call (receiverFreeVideo receiverPtr framePtr) w
    = Some (tt, set_heap (delete (ptr_of_jlong framePtr) (heap w)) w, evs)
    /\ engine_calls evs =
         [call_NDIlib_recv_free_video_v2 (NdiVideoFrameHandle.recv h)
            (NdiVideoFrameHandle.frame h)].
Proof.
  intros Hf Hfp Hh Hr.
  apply Z.eqb_neq in Hf, Hfp.
  unfold call, receiverFreeVideo.
  rewrite bind_when, Hf. cbv zeta.
  rewrite bind_when, Hfp.
  rewrite bind_load_video_handle, Hh.
  assert (Htail :
    free (ptr_of_jlong framePtr) w
    = (Proceed tt (set_heap (delete (ptr_of_jlong framePtr) (heap w)) w) []
       : outcome unit unit)).
  { unfold free. by rewrite Hfp, Hh. }
  destruct (ptr_of_jlong receiverPtr =? 0) eqn:Hrp; cbn [negb].
  - rewrite bind_emit, Htail. eexists. split; reflexivity.
  - destruct Hr as [Hr | [wrapper Hr]]; [by rewrite Hr in Hrp |].
    rewrite !bind_assoc, bind_lock_wrapper, Hr.
    rewrite !bind_assoc, bind_emit.
    rewrite bind_unlock_wrapper, Hr.
    rewrite Htail. eexists. split; reflexivity.
Qed.

(** A captured video frame is released by the matching free call, which
    leaves the heap as it was before the capture. *)
Lemma receiverFreeVideo_after_capture ndi env libc receiverPtr timeoutMs w obj w' evs :
  call (receiverCaptureVideo ndi env libc receiverPtr timeoutMs) w = Some (Some obj, w', evs) ->
  exists wrapper frame w'' evs',
    fst (NDIlib_recv_capture_v2 ndi (NdiReceiverWrapper.recv wrapper) true false
           (to_uint32 timeoutMs)) = (NDIlib_frame_type_video, frame)
    /\ call (receiverFreeVideo receiverPtr (VideoFrame.frameHandle obj)) w'
        = Some (tt, w'', evs')
    /\ engine_calls evs' =
         [call_NDIlib_recv_free_video_v2 (NdiReceiverWrapper.recv wrapper) frame]
    /\ heap w'' = heap w.
Proof.
  intros Hcall.
  pose proof (receiverCaptureVideo_call _ _ _ _ _ _ _ _ _ Hcall) as Hres.
  inversion Hres as [| | | wrapper w0 evs0 Hl Hv Hd Hs Hf Hh He]; subst.
  destruct Hl as (_ & _ & Hw & _). destruct Hf as (Hc0 & Hca & Hcn).
  set (frame := snd (video_captured ndi timeoutMs wrapper)) in *.
  set (h := NdiVideoFrameHandle.mk (NdiReceiverWrapper.recv wrapper) frame) in *.
  edestruct (receiverFreeVideo_run receiverPtr (jlong_of_ptr (calloc libc)) w' h)
    as (evs' & Hfree & He').
  - intros Hz. apply (f_equal ptr_of_jlong) in Hz.
    rewrite ptr_of_jlong_of_ptr in Hz by done. done.
  - by rewrite ptr_of_jlong_of_ptr.
  - rewrite ptr_of_jlong_of_ptr by done. rewrite Hh. apply lookup_insert_eq.
  - right. exists wrapper. rewrite Hh. rewrite lookup_insert_ne by congruence. done.
  - exists wrapper, frame. eexists _, evs'.
    split. { unfold video_captured in *. subst frame. rewrite <- Hv. by destruct (fst _). }
    split; [exact Hfree |]. split; [exact He' |].
    rewrite ptr_of_jlong_of_ptr by done. cbn [heap set_heap]. rewrite Hh.
    by apply delete_insert_id.
Qed.

(** C7 (as the code has it). The stride reported for a captured video
    frame is the line stride the engine reports, sign included, unless the
    FourCC is 'H264' or 'HEVC': the stride reported for a compressed frame
    is 0. *)
Theorem captureVideo_stride ndi env libc receiverPtr timeoutMs w obj w' evs :
  call (receiverCaptureVideo ndi env libc receiverPtr timeoutMs) w = Some (Some obj, w', evs) ->
  exists wrapper frame,
    heap w !! ptr_of_jlong receiverPtr = Some (BReceiver wrapper)
    /\ fst (NDIlib_recv_capture_v2 ndi (NdiReceiverWrapper.recv wrapper) true false
              (to_uint32 timeoutMs)) = (NDIlib_frame_type_video, frame)
    /\ (let tag := to_uint32 (NDIlib_video_frame_v2_t.FourCC frame) in
        (tag <> FOURCC_H264 -> tag <> FOURCC_HEVC ->
         int_range (NDIlib_video_frame_v2_t.line_stride_in_bytes frame) ->
         VideoFrame.stride obj = NDIlib_video_frame_v2_t.line_stride_in_bytes frame)
        /\ (tag = FOURCC_H264 \/ tag = FOURCC_HEVC -> VideoFrame.stride obj = 0)).
Proof.
  intros Hcall.
  destruct (receiverCaptureVideo_success _ _ _ _ _ _ _ _ _ Hcall)
    as (wrapper & frame & Hw & Hans & _ & -> & _).
  exists wrapper, frame. split; [done |]. split; [done |].
  cbn [new_VideoFrame VideoFrame.stride]. split.
  - intros H1 H2 Hs.
    assert (Hc : is_compressed_fourcc (to_uint32 (NDIlib_video_frame_v2_t.FourCC frame))
                 = false) by (by apply is_compressed_fourcc_false).
    rewrite Hc. by apply to_jint_id.
  - intros Htag. apply is_compressed_fourcc_true in Htag. by rewrite Htag.
Qed.

Lemma captureVideo_stride_witness :
  exists obj w' evs,
    call (receiverCaptureVideo (engine_video frame_bottom_up) env_ok libc_ok 1000 50)
      world_ready = Some (Some obj, w', evs)
    /\ VideoFrame.stride obj = -1920.
Proof.
  eexists _, _, _. split; [vm_compute; reflexivity |].
  edestruct (captureVideo_stride (engine_video frame_bottom_up) env_ok libc_ok
               1000 50 world_ready) as (wrapper & frame & Hw & Hans & Hstride & _).
  { vm_compute. reflexivity. }
  vm_compute in Hans. injection Hans as <-.
  apply Hstride; vm_compute; first [discriminate | split; [discriminate | reflexivity]].
Defined.

(** C7 as stated fails: the stride reported for an 'H264' frame is 0, not
    what the engine reports. *)
Lemma compressed_frame_stride_not_preserved :
  ~ (forall ndi env libc receiverPtr timeoutMs w obj w' evs wrapper frame,
       call (receiverCaptureVideo ndi env libc receiverPtr timeoutMs) w
         = Some (Some obj, w', evs) ->
       heap w !! ptr_of_jlong receiverPtr = Some (BReceiver wrapper) ->
       fst (NDIlib_recv_capture_v2 ndi (NdiReceiverWrapper.recv wrapper) true false
              (to_uint32 timeoutMs)) = (NDIlib_frame_type_video, frame) ->
       VideoFrame.stride obj = NDIlib_video_frame_v2_t.line_stride_in_bytes frame).
Proof.
  intros H.
  eassert (Hc : call (receiverCaptureVideo (engine_video frame_h264) env_ok libc_ok 1000 50)
                  world_ready = Some (Some _, _, _)) by (vm_compute; reflexivity).
  specialize (H _ _ _ _ _ _ _ _ _ (NdiReceiverWrapper.mk 77 0) frame_h264 Hc
                eq_refl eq_refl).
  vm_compute in H. discriminate.
Qed.

(** ** Audio capture *)

(** Equations between heaps built with inserts and deletes. *)
Ltac heap_eq :=
  apply map_eq; intros ?;
  rewrite ?lookup_delete, ?lookup_insert;
  repeat case_decide; simplify_eq; done.

Lemma release_audio_and_fail_run {A B} p hp wrapper h
    (k : A -> M (option AudioFrame.t) B) w :
  heap w !! p = Some (BReceiver wrapper) ->
  heap w !! hp = Some (BAudioHandle h) ->
  hp <> 0 ->
  bind (release_audio_and_fail p hp) k w
  = Returned None (set_heap (delete hp (heap w)) w)
      [pthread_mutex_lock (wrapper_mutex p);
       call_NDIlib_recv_free_audio_v2 (NdiReceiverWrapper.recv wrapper)
         (NdiAudioFrameHandle.frame h);
       pthread_mutex_unlock (wrapper_mutex p)].
Proof.
  intros Hp Hh Hne. unfold release_audio_and_fail.
  rewrite bind_assoc, bind_lock_wrapper, Hp.
  rewrite bind_assoc, bind_load_receiver, Hp.
  rewrite bind_assoc, bind_load_audio_handle, Hh.
  rewrite bind_assoc, bind_emit.
  rewrite bind_assoc, bind_unlock_wrapper, Hp.
  rewrite bind_assoc, bind_free.
  apply Z.eqb_neq in Hne. rewrite Hne, Hh.
  rewrite bind_Return. reflexivity.
Qed.

Lemma release_audio_and_buffer_and_fail_run {A B} p hp wrapper h l
    (k : A -> M (option AudioFrame.t) B) w :
  heap w !! p = Some (BReceiver wrapper) ->
  heap w !! hp = Some (BAudioHandle h) ->
  heap w !! NdiAudioFrameHandle.interleaved_data h = Some (BFloats l) ->
  hp <> 0 -> NdiAudioFrameHandle.interleaved_data h <> 0 ->
  bind (release_audio_and_buffer_and_fail p hp) k w
  = Returned None
      (set_heap (delete hp (delete (NdiAudioFrameHandle.interleaved_data h) (heap w))) w)
      [pthread_mutex_lock (wrapper_mutex p);
       call_NDIlib_recv_free_audio_v2 (NdiReceiverWrapper.recv wrapper)
         (NdiAudioFrameHandle.frame h);
       pthread_mutex_unlock (wrapper_mutex p)].
Proof.
  intros Hp Hh Hd Hne Hdne. unfold release_audio_and_buffer_and_fail.
  assert (hp <> NdiAudioFrameHandle.interleaved_data h) by congruence.
  rewrite bind_assoc, bind_lock_wrapper, Hp.
  rewrite bind_assoc, bind_load_receiver, Hp.
  rewrite bind_assoc, bind_load_audio_handle, Hh.
  rewrite bind_assoc, bind_emit.
  rewrite bind_assoc, bind_unlock_wrapper, Hp.
  rewrite bind_assoc, bind_free.
  apply Z.eqb_neq in Hdne as Hdne'. rewrite Hdne', Hd.
  rewrite bind_assoc, bind_free. cbn [heap set_heap].
  apply Z.eqb_neq in Hne as Hne'. rewrite Hne'.
  rewrite lookup_delete_ne by done. rewrite Hh.
  rewrite bind_Return. reflexivity.
Qed.

Lemma receiverCaptureAudio_sound ndi env libc receiverPtr timeoutMs w :
  captureAudio_post ndi libc receiverPtr timeoutMs w
    (receiverCaptureAudio ndi env libc receiverPtr timeoutMs w).
Proof.
  unfold receiverCaptureAudio.
  rewrite bind_when. destruct (receiverPtr =? 0) eqn:Hrp.
  { rewrite bind_Return. by constructor. }
  cbv zeta.
  rewrite bind_when. destruct (ptr_of_jlong receiverPtr =? 0) eqn:Hp.
  { rewrite bind_Return. by constructor. }
  apply Z.eqb_neq in Hrp, Hp.
  rewrite bind_load_receiver.
  destruct (heap w !! ptr_of_jlong receiverPtr) as [[| wrapper | | |]|] eqn:Hw;
    try (intros [Hs _]; destruct (Hs Hrp Hp) as [? ?]; congruence).
  rewrite bind_when. destruct (NdiReceiverWrapper.recv wrapper =? 0) eqn:Hrecv.
  { rewrite bind_Return. by constructor. }
  apply Z.eqb_neq in Hrecv.
  assert (Hlive : receiver_of receiverPtr w wrapper) by done.
  rewrite bind_invoke.
  destruct (ensure_jni_cache_returns env w) as (ok & w1 & cevs & -> & Hh1 & _ & Hcevs & Hok).
  assert (Hw1 : heap w1 !! ptr_of_jlong receiverPtr = Some (BReceiver wrapper))
    by (by rewrite Hh1).
  rewrite bind_when. destruct (ok =? 0) eqn:Hok0.
  { rewrite bind_Return. simpl. constructor; [done | by rewrite app_nil_r]. }
  rewrite bind_allocate. destruct (calloc libc =? 0) eqn:Hc0.
  { cbv beta. rewrite bind_when. simpl. constructor; [done | by rewrite app_nil_r]. }
  apply Z.eqb_neq in Hc0.
  destruct ((0 <? calloc libc) && (calloc libc <? 2 ^ 64)) eqn:Hrange; cycle 1.
  { simpl. intros (_ & [? | (_ & Ha & _)] & _); [done |]. unfold is_address in Ha.
    apply andb_false_iff in Hrange as [?%Z.ltb_ge | ?%Z.ltb_ge]; lia. }
  apply andb_true_iff in Hrange as [Hr1%Z.ltb_lt Hr2%Z.ltb_lt].
  destruct (heap w1 !! calloc libc) eqn:Hfresh.
  { simpl. intros (_ & [? | (_ & _ & Hn)] & _); [done |]. rewrite Hh1 in Hfresh. congruence. }
  assert (Hf : fresh w (calloc libc)).
  { repeat split; [done | lia | lia | by rewrite <- Hh1]. }
  assert (Hne : ptr_of_jlong receiverPtr <> calloc libc) by congruence.
  rewrite bind_when. cbv iota beta.
  rewrite bind_store. cbn [heap set_heap]. rewrite lookup_insert_eq.
  rewrite insert_insert_eq.
  rewrite bind_lock_wrapper. cbn [heap set_heap].
  rewrite lookup_insert_ne by done. rewrite Hw1.
  rewrite bind_emit.
  rewrite bind_store. cbn [heap set_heap]. rewrite lookup_insert_eq.
  rewrite insert_insert_eq.
  rewrite bind_unlock_wrapper. cbn [heap set_heap].
  rewrite lookup_insert_ne by done. rewrite Hw1.
  rewrite !prefix_prefix.
  rewrite !set_heap_set_heap.
  change (fst (fst (NDIlib_recv_capture_v2 ndi (NdiReceiverWrapper.recv wrapper) false true
                 (to_uint32 timeoutMs))))
    with (fst (audio_captured ndi timeoutMs wrapper)).
  change (snd (NDIlib_recv_capture_v2 ndi (NdiReceiverWrapper.recv wrapper) false true
                 (to_uint32 timeoutMs)))
    with (snd (audio_captured ndi timeoutMs wrapper)).
  set (f := snd (audio_captured ndi timeoutMs wrapper)).
  set (hd := NdiAudioFrameHandle.mk (NdiReceiverWrapper.recv wrapper) f 0 0).
  set (w2 := set_heap (<[calloc libc := BAudioHandle hd]> (heap w1)) w1).
  assert (Hw2 : heap w2 !! ptr_of_jlong receiverPtr = Some (BReceiver wrapper)).
  { subst w2. cbn [heap set_heap]. by rewrite lookup_insert_ne. }
  assert (Hh2 : heap w2 !! calloc libc = Some (BAudioHandle hd)).
  { subst w2. cbn [heap set_heap]. by rewrite lookup_insert_eq. }
  set (capture_evs := (_ ++ [pthread_mutex_unlock _])).
  assert (Hcap : engine_calls capture_evs = [audio_capture_call timeoutMs wrapper]).
  { subst capture_evs. rewrite !engine_calls_app, Hcevs. reflexivity. }
  rewrite bind_when.
  destruct (bool_decide (fst (audio_captured ndi timeoutMs wrapper) = NDIlib_frame_type_audio))
    eqn:Hv; cbn [negb].
  2: { apply bool_decide_eq_false in Hv.
       rewrite bind_assoc, bind_free.
       apply Z.eqb_neq in Hc0 as ->. rewrite Hh2. rewrite bind_Return.
       simpl. eapply audio_not_obtained; [done | done | | by rewrite app_nil_r].
       subst w2. cbn [heap set_heap]. by rewrite delete_insert_id. }
  apply bool_decide_eq_true in Hv.
  rewrite bind_load_audio_handle, Hh2.
  change (NdiAudioFrameHandle.frame hd) with f.
  change (NdiAudioFrameHandle.recv hd) with (NdiReceiverWrapper.recv wrapper).
  rewrite bind_when.
  destruct ((NDIlib_audio_frame_v2_t.p_data f =? 0)
            || (NDIlib_audio_frame_v2_t.sample_rate f <=? 0)
            || (NDIlib_audio_frame_v2_t.no_channels f <=? 0)
            || (NDIlib_audio_frame_v2_t.no_samples f <=? 0)) eqn:Hvalid.
  { rewrite (release_audio_and_fail_run _ _ wrapper hd _ w2 Hw2 Hh2 Hc0).
    simpl. eapply audio_released; [done | done | |].
    - subst w2. cbn [heap set_heap]. by rewrite delete_insert_id.
    - rewrite engine_calls_app, Hcap. reflexivity. }
  apply orb_false_iff in Hvalid as [Hvalid Hv4%Z.leb_gt].
  apply orb_false_iff in Hvalid as [Hvalid Hv3%Z.leb_gt].
  apply orb_false_iff in Hvalid as [Hv1%Z.eqb_neq Hv2%Z.leb_gt].
  assert (Hfv : audio_frame_valid f) by done.
  rewrite bind_allocate. destruct (malloc libc =? 0) eqn:Hm0.
  { cbv beta. rewrite bind_store, Hh2.
    rewrite bind_when. change (0 =? 0) with true. cbv iota.
    set (hd' := NdiAudioFrameHandle.mk _ _ _ _).
    erewrite (release_audio_and_fail_run _ _ wrapper hd').
    - simpl. eapply audio_released; [done | done | |].
      + subst w2. cbn [heap set_heap]. rewrite insert_insert_eq.
        by rewrite delete_insert_id.
      + rewrite engine_calls_app, Hcap. reflexivity.
    - cbn [heap set_heap]. by rewrite lookup_insert_ne.
    - cbn [heap set_heap]. by rewrite lookup_insert_eq.
    - done. }
  apply Z.eqb_neq in Hm0.
  destruct ((0 <? malloc libc) && (malloc libc <? 2 ^ 64)) eqn:Hmrange; cycle 1.
  { simpl. intros (_ & _ & [? | ((_ & Ha & _) & _)]); [done |]. unfold is_address in Ha.
    apply andb_false_iff in Hmrange as [?%Z.ltb_ge | ?%Z.ltb_ge]; lia. }
  apply andb_true_iff in Hmrange as [Hm1%Z.ltb_lt Hm2%Z.ltb_lt].
  destruct (heap w2 !! malloc libc) eqn:Hmfresh.
  { simpl. intros (_ & _ & [? | ((_ & _ & Hn) & Hd)]); [done |].
    subst w2. cbn [heap set_heap] in Hmfresh.
    rewrite lookup_insert_ne in Hmfresh by done. rewrite Hh1 in Hmfresh. congruence. }
  assert (Hmc : malloc libc <> calloc libc) by congruence.
  assert (Hmf : fresh w (malloc libc)).
  { repeat split; [done | lia | lia |].
    subst w2. cbn [heap set_heap] in Hmfresh.
    rewrite lookup_insert_ne in Hmfresh by done. by rewrite <- Hh1. }
  assert (Hmp : ptr_of_jlong receiverPtr <> malloc libc) by congruence.
  cbv beta.
  rewrite bind_store. cbn [heap set_heap].
  rewrite lookup_insert_ne by done. rewrite Hh2.
  rewrite bind_when. cbv iota.
  rewrite !set_heap_set_heap.
  rewrite bind_load. cbn [heap set_heap].
  rewrite lookup_insert_ne by done. rewrite lookup_insert_eq.
  rewrite bind_store. cbn [heap set_heap].
  rewrite lookup_insert_ne by done. rewrite lookup_insert_eq.
  rewrite !set_heap_set_heap.
  set (hd' := NdiAudioFrameHandle.mk (NdiReceiverWrapper.recv wrapper) f (malloc libc)
                (interleaved_size f)).
  set (out := interleave _ _ _ _ _).
  set (w3 := set_heap _ w2).
  assert (Hw3 : heap w3 !! ptr_of_jlong receiverPtr = Some (BReceiver wrapper)).
  { subst w3. cbn [heap set_heap]. by rewrite !lookup_insert_ne. }
  assert (Hh3 : heap w3 !! calloc libc = Some (BAudioHandle hd')).
  { subst w3. cbn [heap set_heap]. rewrite lookup_insert_ne by done.
    by rewrite lookup_insert_eq. }
  assert (Hd3 : heap w3 !! malloc libc = Some (BFloats out)).
  { subst w3. cbn [heap set_heap]. by rewrite lookup_insert_eq. }
  assert (Hrel : forall (k : unit -> M (option AudioFrame.t) (option AudioFrame.t)),
    captureAudio_post ndi libc receiverPtr timeoutMs w
      (prefix capture_evs
         (bind (release_audio_and_buffer_and_fail (ptr_of_jlong receiverPtr) (calloc libc))
            k w3))).
  { intros k.
    rewrite (release_audio_and_buffer_and_fail_run _ _ wrapper hd' out k w3 Hw3 Hh3 Hd3 Hc0 Hm0).
    simpl. eapply audio_released; [done | done | |].
    - destruct Hmf as (_ & _ & Hmn). destruct Hf as (_ & _ & Hcn).
      subst w3 w2. cbn [heap set_heap]. rewrite Hh1. heap_eq.
    - rewrite engine_calls_app, Hcap. reflexivity. }
  rewrite bind_when. destruct (NewDirectByteBuffer env _ _); cbn [negb]; cycle 1.
  { by apply Hrel. }
  rewrite bind_get.
  rewrite bind_when. destruct (NewObject env _ _); cbn [negb]; cycle 1.
  { by apply Hrel. }
  unfold Return. simpl.
  eapply audio_delivered; try done.
  - subst w3 w2 hd hd' out. cbn [heap set_heap]. rewrite Hh1. heap_eq.
  - by rewrite app_nil_r.
Qed.

(** ** Planar to interleaved conversion *)

Lemma for_loop_invariant {S} (P : Z -> S -> Prop) (body : Z -> S -> S) n :
  forall i s,
    P i s ->
    (forall j t, i <= j < i + Z.of_nat n -> P j t -> P (j + 1) (body j t)) ->
    P (i + Z.of_nat n) (for_loop n i body s).
Proof.
  induction n as [| n IH]; intros i s Hi Hstep.
  - simpl. by rewrite Z.add_0_r.
  - cbn [for_loop].
    replace (i + Z.of_nat (Datatypes.S n)) with ((i + 1) + Z.of_nat n) by lia.
    apply IH.
    + apply Hstep; [lia | done].
    + intros j t Hj. apply Hstep. lia.
Qed.

Lemma for_range_invariant {S} (P : Z -> S -> Prop) (body : Z -> S -> S) lo hi s :
  lo <= hi ->
  P lo s ->
  (forall j t, lo <= j < hi -> P j t -> P (j + 1) (body j t)) ->
  P hi (for_range lo hi body s).
Proof.
  intros Hle Hlo Hstep. unfold for_range.
  replace hi with (lo + Z.of_nat (Z.to_nat (hi - lo))) at 1 by lia.
  apply for_loop_invariant; [done |].
  intros j t Hj. apply Hstep. lia.
Qed.

Lemma load_float_congruent mem a b :
  a mod 2 ^ 64 = b mod 2 ^ 64 -> load_float mem a = load_float mem b.
Proof.
  intros H. unfold load_float, to_size_t, to_unsigned.
  rewrite <- (Zplus_mod_idemp_l a 1), <- (Zplus_mod_idemp_l a 2), <- (Zplus_mod_idemp_l a 3).
  rewrite H.
  by rewrite !Zplus_mod_idemp_l.
Qed.

Section Interleave.
Variables (mem : Z -> Z) (frame : NDIlib_audio_frame_v2_t.t).
Variables (channels samples : Z).
Hypothesis channels_range : 0 < channels < 2 ^ 31.
Hypothesis samples_range : 0 < samples < 2 ^ 31.

(** The address the loop reads for channel [c] and sample [s]. *)
Lemma channel_sample_address c s :
  0 <= c < channels ->
  load_float mem
    (to_size_t (NDIlib_audio_frame_v2_t.p_data frame
       + to_size_t (to_size_t c
           * to_size_t (NDIlib_audio_frame_v2_t.channel_stride_in_bytes frame)))
     + 4 * s)
  = planar_sample mem frame c s.
Proof.
  intros Hc. unfold planar_sample. apply load_float_congruent.
  unfold to_size_t, to_unsigned.
  set (base := NDIlib_audio_frame_v2_t.p_data frame).
  set (stride := NDIlib_audio_frame_v2_t.channel_stride_in_bytes frame).
  set (m := 2 ^ 64).
  rewrite Zplus_mod_idemp_l.
  replace (base + (c mod m * (stride mod m)) mod m + 4 * s)
    with ((c mod m * (stride mod m)) mod m + (base + 4 * s)) by ring.
  rewrite Zplus_mod_idemp_l.
  rewrite <- (Zplus_mod_idemp_l (c mod m * (stride mod m))).
  rewrite <- Zmult_mod.
  rewrite Zplus_mod_idemp_l.
  f_equal. ring.
Qed.

(** The index the loop writes for sample [s] and channel [c]. *)
Lemma interleaved_index s c :
  0 <= s < samples -> 0 <= c < channels ->
  to_size_t (to_size_t (to_size_t s * to_size_t channels) + to_size_t c)
  = s * channels + c.
Proof.
  intros Hs Hc.
  rewrite (to_size_t_small s), (to_size_t_small channels), (to_size_t_small c) by lia.
  rewrite (to_size_t_small (s * channels)) by nia.
  apply to_size_t_small. nia.
Qed.

Lemma interleave_correct (interleaved_data : list Z) :
  length interleaved_data = Z.to_nat (channels * samples) ->
  let out := interleave mem frame channels samples interleaved_data in
  length out = Z.to_nat (channels * samples)
  /\ forall s c,
       0 <= s < samples -> 0 <= c < channels ->
       out !! Z.to_nat (s * channels + c) = Some (planar_sample mem frame c s).
Proof.
  intros Hlen out.
  assert (Hw : written mem frame channels samples samples 0 out).
  { subst out. unfold interleave.
    apply (for_range_invariant
             (fun s out => written mem frame channels samples s 0 out)); [lia | |].
    - split; [done |]. intros; lia.
    - intros s t Hs Ht.
      assert (Hin : written mem frame channels samples s channels
                (for_range 0 channels (fun c out =>
                   <[Z.to_nat (to_size_t (to_size_t (to_size_t s * to_size_t channels)
                                          + to_size_t c)) :=
                       load_float mem
                         (to_size_t (NDIlib_audio_frame_v2_t.p_data frame
                            + to_size_t (to_size_t c
                                * to_size_t
                                    (NDIlib_audio_frame_v2_t.channel_stride_in_bytes frame)))
                          + 4 * s)]> out) t)).
      { apply (for_range_invariant
                 (fun c out => written mem frame channels samples s c out)); [lia | done |].
        intros c u Hc [Hul Hu].
        rewrite interleaved_index, channel_sample_address by lia.
        split; [by rewrite length_insert |].
        intros s' c' Hs' Hc' Hlt.
        destruct (decide (s' = s /\ c' = c)) as [[-> ->] | Hne].
        - apply list_lookup_insert_eq. rewrite Hul. nia.
        - rewrite list_lookup_insert_ne by nia.
          apply Hu; [done | done | lia]. }
      destruct Hin as [Hl Hin]. split; [done |].
      intros s' c' Hs' Hc' Hlt. apply Hin; [done | done | lia]. }
  destruct Hw as [Hl Hw]. split; [done |].
  intros s c Hs Hc. apply Hw; lia.
Qed.

(** The size of the buffer: [channels * samples] floats of four bytes. *)
Lemma interleaved_size_exact :
  NDIlib_audio_frame_v2_t.no_channels frame = channels ->
  NDIlib_audio_frame_v2_t.no_samples frame = samples ->
  interleaved_size frame = 4 * (channels * samples).
Proof.
  intros Hc Hs. unfold interleaved_size. rewrite Hc, Hs. cbv zeta.
  rewrite (to_size_t_small channels), (to_size_t_small samples) by lia.
  rewrite (to_size_t_small (channels * samples)) by nia.
  rewrite to_size_t_small by nia. lia.
Qed.

End Interleave.

(** ** Audio capture and release *)

Lemma receiverCaptureAudio_call ndi env libc receiverPtr timeoutMs w r w' evs :
  call (receiverCaptureAudio ndi env libc receiverPtr timeoutMs) w = Some (r, w', evs) ->
  captureAudio_result ndi libc receiverPtr timeoutMs w r w' evs.
Proof.
  intros Hcall. unfold call in Hcall.
  pose proof (receiverCaptureAudio_sound ndi env libc receiverPtr timeoutMs w) as H.
  destruct (receiverCaptureAudio _ _ _ _ _ _) as [| r0 w0 e0 |]; simpl in H; [done | | done].
  by simplify_eq.
Qed.

Lemma receiverCaptureAudio_defined ndi env libc receiverPtr timeoutMs w :
  capture_audio_sane libc receiverPtr w ->
  exists r w' evs,
    call (receiverCaptureAudio ndi env libc receiverPtr timeoutMs) w = Some (r, w', evs).
Proof.
  intros Hsane. unfold call.
  pose proof (receiverCaptureAudio_sound ndi env libc receiverPtr timeoutMs w) as H.
  destruct (receiverCaptureAudio _ _ _ _ _ _) as [| r0 w0 e0 |]; simpl in H; [done | | done].
  by exists r0, w0, e0.
Qed.

Lemma jlong_of_ptr_nonzero p : p <> 0 -> is_address p -> jlong_of_ptr p <> 0.
Proof.
  intros Hp Ha Hz. apply (f_equal ptr_of_jlong) in Hz.
  rewrite ptr_of_jlong_of_ptr in Hz by done. by subst.
Qed.

(** What [receiverFreeAudio] does to a live handle. *)
Lemma receiverFreeAudio_run receiverPtr framePtr w h l :
  framePtr <> 0 -> ptr_of_jlong framePtr <> 0 ->
  heap w !! ptr_of_jlong framePtr = Some (BAudioHandle h) ->
  NdiAudioFrameHandle.interleaved_data h <> 0 ->
  heap w !! NdiAudioFrameHandle.interleaved_data h = Some (BFloats l) ->
  (ptr_of_jlong receiverPtr = 0
   \/ exists wrapper, heap w !! ptr_of_jlong receiverPtr = Some (BReceiver wrapper)) ->
  exists evs,
    call (receiverFreeAudio receiverPtr framePtr) w
    = Some (tt,
            set_heap (delete (ptr_of_jlong framePtr)
                        (delete (NdiAudioFrameHandle.interleaved_data h) (heap w))) w,
            evs)
    /\ engine_calls evs =
         [call_NDIlib_recv_free_audio_v2 (NdiAudioFrameHandle.recv h)
            (NdiAudioFrameHandle.frame h)].
Proof.
  intros Hf Hfp Hh Hd Hl Hr.
  assert (Hne : ptr_of_jlong framePtr <> NdiAudioFrameHandle.interleaved_data h)
    by congruence.
  apply Z.eqb_neq in Hf, Hfp, Hd.
  unfold call, receiverFreeAudio.
  rewrite bind_when, Hf. cbv zeta.
  rewrite bind_when, Hfp.
  rewrite bind_load_audio_handle, Hh.
  assert (Htail :
    bind (free (NdiAudioFrameHandle.interleaved_data h))
      (fun _ => free (ptr_of_jlong framePtr)) w
    = (Proceed tt
         (set_heap (delete (ptr_of_jlong framePtr)
                      (delete (NdiAudioFrameHandle.interleaved_data h) (heap w))) w) []
       : outcome unit unit)).
  { rewrite bind_free, Hd, Hl. unfold free. cbn [heap set_heap].
    rewrite Hfp. rewrite lookup_delete_ne by done. by rewrite Hh. }
  destruct (ptr_of_jlong receiverPtr =? 0) eqn:Hrp; cbn [negb].
  - rewrite bind_emit, Htail. eexists. split; reflexivity.
  - destruct Hr as [Hr | [wrapper Hr]]; [by rewrite Hr in Hrp |].
    rewrite !bind_assoc, bind_lock_wrapper, Hr.
    rewrite !bind_assoc, bind_emit.
    rewrite bind_unlock_wrapper, Hr.
    rewrite Htail. eexists. split; reflexivity.
Qed.

(** What a successful audio capture leaves. *)
Lemma receiverCaptureAudio_success ndi env libc receiverPtr timeoutMs w obj w' evs :
  call (receiverCaptureAudio ndi env libc receiverPtr timeoutMs) w = Some (Some obj, w', evs) ->
  exists wrapper frame,
    heap w !! ptr_of_jlong receiverPtr = Some (BReceiver wrapper)
    /\ audio_captured ndi timeoutMs wrapper = (NDIlib_frame_type_audio, frame)
    /\ audio_frame_valid frame
    /\ fresh w (calloc libc) /\ fresh w (malloc libc) /\ malloc libc <> calloc libc
    /\ obj = new_AudioFrame (calloc libc) frame (malloc libc) (interleaved_size frame)
    /\ heap w' =
         <[malloc libc := BFloats
             (interleave (memory ndi) frame
                (NDIlib_audio_frame_v2_t.no_channels frame)
                (NDIlib_audio_frame_v2_t.no_samples frame)
                (malloc_floats libc (interleaved_size frame)))]>
         (<[calloc libc := BAudioHandle
              (NdiAudioFrameHandle.mk (NdiReceiverWrapper.recv wrapper) frame
                 (malloc libc) (interleaved_size frame))]> (heap w))
    /\ engine_calls evs =
         [call_NDIlib_recv_capture_v2 (NdiReceiverWrapper.recv wrapper) false true
            (to_uint32 timeoutMs)].
Proof.
  intros Hcall. apply receiverCaptureAudio_call in Hcall.
  inversion Hcall as [| | | wrapper w'' evs' frame Hl Hv Hvalid Hf Hmf Hne Hh He]; subst.
  exists wrapper, frame.
  destruct Hl as (_ & _ & Hw & _).
  split; [done |]. split.
  { subst frame. rewrite <- Hv. by destruct (audio_captured _ _ _). }
  done.
Qed.

(** C1 (as the code has it). A successful captureAudio does not release the
    engine's planar frame: its only call into the engine is the capture,
    and the frame stays recorded in the handle.  The following freeAudio,
    given the receiver or an empty receiver handle, is what releases that
    frame to the engine, once; it then frees the interleaved buffer and
    the handle struct, and nothing else. *)
Theorem captureAudio_planar_frame_released_by_freeAudio
    ndi env libc receiverPtr timeoutMs w obj w' evs :
  call (receiverCaptureAudio ndi env libc receiverPtr timeoutMs) w = Some (Some obj, w', evs) ->
  exists wrapper frame,
    heap w !! ptr_of_jlong receiverPtr = Some (BReceiver wrapper)
    /\ audio_captured ndi timeoutMs wrapper = (NDIlib_frame_type_audio, frame)
    /\ engine_calls evs =
         [call_NDIlib_recv_capture_v2 (NdiReceiverWrapper.recv wrapper) false true
            (to_uint32 timeoutMs)]
    /\ (exists h, heap w' !! ptr_of_jlong (AudioFrame.frameHandle obj) = Some (BAudioHandle h)
                  /\ NdiAudioFrameHandle.frame h = frame)
    /\ forall receiverPtr',
         ptr_of_jlong receiverPtr' = 0 \/ ptr_of_jlong receiverPtr' = ptr_of_jlong receiverPtr ->
         exists w'' evs',
           call (receiverFreeAudio receiverPtr' (AudioFrame.frameHandle obj)) w'
             = Some (tt, w'', evs')
           /\ engine_calls evs' =
                [call_NDIlib_recv_free_audio_v2 (NdiReceiverWrapper.recv wrapper) frame]
           /\ heap w'' = heap w.
Proof.
  intros Hcall.
  destruct (receiverCaptureAudio_success _ _ _ _ _ _ _ _ _ Hcall)
    as (wrapper & frame & Hw & Hans & Hvalid & Hf & Hmf & Hne & -> & Hh & He).
  exists wrapper, frame. split; [done |]. split; [done |]. split; [done |].
  destruct Hf as (Hc0 & Hca & Hcn). destruct Hmf as (Hm0 & Hma & Hmn).
  cbn [new_AudioFrame AudioFrame.frameHandle].
  rewrite ptr_of_jlong_of_ptr by done.
  set (h := NdiAudioFrameHandle.mk _ _ _ _) in Hh.
  assert (Hlh : heap w' !! calloc libc = Some (BAudioHandle h)).
  { rewrite Hh. rewrite lookup_insert_ne by done. apply lookup_insert_eq. }
  split; [by exists h |].
  intros receiverPtr' Hr.
  edestruct (receiverFreeAudio_run receiverPtr' (jlong_of_ptr (calloc libc)) w' h)
    as (evs' & Hfree & He').
  - by apply jlong_of_ptr_nonzero.
  - by rewrite ptr_of_jlong_of_ptr.
  - by rewrite ptr_of_jlong_of_ptr.
  - done.
  - rewrite Hh. apply lookup_insert_eq.
  - destruct Hr as [Hr | Hr]; [by left |]. right. exists wrapper.
    rewrite Hr, Hh. rewrite !lookup_insert_ne by congruence. done.
  - eexists _, evs'. split; [exact Hfree |]. split; [exact He' |].
    rewrite ptr_of_jlong_of_ptr by done.
    cbn [heap set_heap]. rewrite Hh. subst h. cbn [NdiAudioFrameHandle.interleaved_data].
    heap_eq.
Qed.

Lemma captureAudio_planar_frame_released_by_freeAudio_witness :
  exists obj w' evs,
    call (receiverCaptureAudio (engine_audio frame_stereo memory_stereo) env_ok libc_ok
            1000 50) world_ready = Some (Some obj, w', evs)
    /\ engine_calls evs = [call_NDIlib_recv_capture_v2 77 false true 50]
    /\ exists w'' evs',
         call (receiverFreeAudio 1000 (AudioFrame.frameHandle obj)) w' = Some (tt, w'', evs')
         /\ engine_calls evs' = [call_NDIlib_recv_free_audio_v2 77 frame_stereo]
         /\ heap w'' = heap world_ready.
Proof.
  eexists _, _, _. split; [vm_compute; reflexivity |].
  edestruct (captureAudio_planar_frame_released_by_freeAudio
               (engine_audio frame_stereo memory_stereo) env_ok libc_ok 1000 50 world_ready)
    as (wrapper & frame & Hw & Hans & He & _ & Hfree).
  { vm_compute. reflexivity. }
  vm_compute in Hw. injection Hw as <-.
  vm_compute in Hans. injection Hans as <-.
  split; [exact He |].
  apply (Hfree 1000). right. reflexivity.
Defined.

(** C1 as stated fails: after a successful captureAudio the planar frame
    has not been released to the engine. *)
Lemma captureAudio_does_not_release_planar_frame :
  ~ (forall ndi env libc receiverPtr timeoutMs w obj w' evs wrapper frame,
       call (receiverCaptureAudio ndi env libc receiverPtr timeoutMs) w
         = Some (Some obj, w', evs) ->
       heap w !! ptr_of_jlong receiverPtr = Some (BReceiver wrapper) ->
       audio_captured ndi timeoutMs wrapper = (NDIlib_frame_type_audio, frame) ->
       In (call_NDIlib_recv_free_audio_v2 (NdiReceiverWrapper.recv wrapper) frame) evs).
Proof.
  intros H.
  eassert (Hc : call (receiverCaptureAudio (engine_audio frame_stereo memory_stereo)
                        env_ok libc_ok 1000 50) world_ready = Some (Some _, _, _))
    by (vm_compute; reflexivity).
  specialize (H _ _ _ _ _ _ _ _ _ (NdiReceiverWrapper.mk 77 0) frame_stereo Hc
                eq_refl eq_refl).
  simpl in H. intuition discriminate.
Qed.

(** C6. A captured audio frame whose sample rate, channel count or samples
    per channel is not positive, or whose data pointer is null, is
    released back to the engine and the call returns empty, leaving
    neither a buffer nor a handle. *)
Theorem captureAudio_drops_invalid_frame
    ndi env libc receiverPtr timeoutMs w r w' evs recv timeout frame :
  call (receiverCaptureAudio ndi env libc receiverPtr timeoutMs) w = Some (r, w', evs) ->
  In (call_NDIlib_recv_capture_v2 recv false true timeout) evs ->
  fst (fst (NDIlib_recv_capture_v2 ndi recv false true timeout)) = NDIlib_frame_type_audio ->
  snd (NDIlib_recv_capture_v2 ndi recv false true timeout) = frame ->
  NDIlib_audio_frame_v2_t.p_data frame = 0
  \/ NDIlib_audio_frame_v2_t.sample_rate frame <= 0
  \/ NDIlib_audio_frame_v2_t.no_channels frame <= 0
  \/ NDIlib_audio_frame_v2_t.no_samples frame <= 0 ->
  r = None
  /\ engine_calls evs =
       [call_NDIlib_recv_capture_v2 recv false true timeout;
        call_NDIlib_recv_free_audio_v2 recv frame]
  /\ heap w' = heap w.
Proof.
  intros Hcall Hin Htype Hframe Hbad.
  apply receiverCaptureAudio_call in Hcall.
  apply capture_call_in_engine_calls in Hin.
  destruct Hcall as [w' evs Hh He | wrapper w' evs Hl Hv Hh He
                    | wrapper w' evs Hl Hv Hh He
                    | wrapper w' evs frame' Hl Hv Hvalid Hf Hmf Hne Hh He];
    rewrite He in Hin; simpl in Hin.
  - done.
  - destruct Hin as [Heq | []].
    unfold audio_capture_call, audio_captured in *; simpl in *; simplify_eq; congruence.
  - destruct Hin as [Heq | [Heq | []]]; [| done].
    unfold audio_capture_call, audio_captured in *; simpl in *; simplify_eq.
    by rewrite He.
  - destruct Hin as [Heq | []]. subst frame'.
    unfold audio_capture_call, audio_captured, audio_frame_valid in *;
      simpl in *; simplify_eq; lia.
Qed.

Lemma captureAudio_drops_invalid_frame_witness :
  exists w' evs,
    call (receiverCaptureAudio (engine_audio frame_no_channels memory_stereo) env_ok libc_ok
            1000 50) world_ready = Some (None, w', evs)
    /\ engine_calls evs =
         [call_NDIlib_recv_capture_v2 77 false true 50;
          call_NDIlib_recv_free_audio_v2 77 frame_no_channels]
    /\ heap w' = heap world_ready.
Proof.
  eexists _, _. split; [vm_compute; reflexivity |].
  refine (proj2 (captureAudio_drops_invalid_frame
    (engine_audio frame_no_channels memory_stereo) env_ok libc_ok 1000 50 world_ready
    None _ _ 77 50 frame_no_channels _ _ _ _ _)).
  - vm_compute. reflexivity.
  - vm_compute. tauto.
  - reflexivity.
  - reflexivity.
  - right. right. left. vm_compute. discriminate.
Defined.

(** C4. The interleaved buffer of a captured audio frame has
    channels x samplesPerChannel floats, and entry [s * channels + c] is
    the [s]-th sample of the planar channel [c]. *)
Theorem captureAudio_interleaves ndi env libc receiverPtr timeoutMs w obj w' evs :
  call (receiverCaptureAudio ndi env libc receiverPtr timeoutMs) w = Some (Some obj, w', evs) ->
  exists wrapper frame out,
    heap w !! ptr_of_jlong receiverPtr = Some (BReceiver wrapper)
    /\ audio_captured ndi timeoutMs wrapper = (NDIlib_frame_type_audio, frame)
    /\ heap w' !! address (AudioFrame.bufferView obj) = Some (BFloats out)
    /\ (let channels := NDIlib_audio_frame_v2_t.no_channels frame in
        let samples := NDIlib_audio_frame_v2_t.no_samples frame in
        int_range channels -> int_range samples ->
        0 < channels /\ 0 < samples
        /\ AudioFrame.channels obj = channels
        /\ AudioFrame.samplesPerChannel obj = samples
        /\ (4 * (channels * samples) < 2 ^ 63 ->
            capacity (AudioFrame.bufferView obj) = 4 * (channels * samples))
        /\ length out = Z.to_nat (channels * samples)
        /\ forall s c,
             0 <= s < samples -> 0 <= c < channels ->
             out !! Z.to_nat (s * channels + c)
             = Some (planar_sample (memory ndi) frame c s)).
Proof.
  intros Hcall.
  destruct (receiverCaptureAudio_success _ _ _ _ _ _ _ _ _ Hcall)
    as (wrapper & frame & Hw & Hans & Hvalid & Hf & Hmf & Hne & -> & Hh & He).
  eexists wrapper, frame, _. split; [done |]. split; [done |]. split.
  { cbn [new_AudioFrame AudioFrame.bufferView address]. rewrite Hh.
    apply lookup_insert_eq. }
  intros channels samples Hcr Hsr.
  destruct Hvalid as (_ & _ & Hc & Hs). fold channels in Hc. fold samples in Hs.
  unfold int_range in *.
  assert (Hcr' : 0 < channels < 2 ^ 31) by lia.
  assert (Hsr' : 0 < samples < 2 ^ 31) by lia.
  assert (Hsize : interleaved_size frame = 4 * (channels * samples))
    by (by apply interleaved_size_exact).
  split; [done |]. split; [done |].
  cbn [new_AudioFrame AudioFrame.channels AudioFrame.samplesPerChannel
       AudioFrame.bufferView capacity].
  split; [by apply to_jint_id |]. split; [by apply to_jint_id |].
  split.
  { intros Hfit. rewrite Hsize. apply to_jlong_id. unfold int64_range.
    assert (0 < channels * samples) by (apply Z.mul_pos_pos; lia).
    lia. }
  apply interleave_correct; [done | done |].
  unfold malloc_floats. rewrite length_map, length_seq. rewrite Hsize.
  f_equal. rewrite Z.mul_comm. apply Z.div_mul. lia.
Qed.

Lemma captureAudio_interleaves_witness :
  exists obj w' evs,
    call (receiverCaptureAudio (engine_audio frame_stereo memory_stereo) env_ok libc_ok
            1000 50) world_ready = Some (Some obj, w', evs)
    /\ heap w' !! address (AudioFrame.bufferView obj)
       = Some (BFloats (float_bits <$> [1; 10; 2; 20; 3; 30; 4; 40]))
    /\ forall s c, 0 <= s < 4 -> 0 <= c < 2 ->
         (float_bits <$> [1; 10; 2; 20; 3; 30; 4; 40]) !! Z.to_nat (s * 2 + c)
         = Some (planar_sample memory_stereo frame_stereo c s).
Proof.
  eexists _, _, _. split; [vm_compute; reflexivity |].
  split; [vm_compute; reflexivity |].
  edestruct (captureAudio_interleaves
               (engine_audio frame_stereo memory_stereo) env_ok libc_ok 1000 50 world_ready)
    as (wrapper & frame & out & Hw & Hans & Hout & Hspec).
  { vm_compute. reflexivity. }
  vm_compute in Hw. injection Hw as <-.
  vm_compute in Hans. injection Hans as <-.
  vm_compute in Hout. injection Hout as <-.
  destruct Hspec as (_ & _ & _ & _ & _ & _ & Hspec).
  { vm_compute. split; [discriminate | reflexivity]. }
  { vm_compute. split; [discriminate | reflexivity]. }
  exact Hspec.
Defined.

(** ** Performance *)

Lemma quality_score_range fp_contract connections total dropped q :
  quality_score fp_contract connections total dropped = Some q -> 0 <= q <= 100.
Proof.
  unfold quality_score.
  destruct (0 <? connections); [| intros [= <-]; lia].
  destruct (0 <? total); [| intros [= <-]; lia].
  cbv zeta. destruct (int_of_double _) as [q0 |]; [| done].
  intros [= <-]. destruct (Z.ltb_spec q0 0).
  - change (100 <? 0) with false. cbv iota. lia.
  - destruct (Z.ltb_spec 100 q0); lia.
Qed.

Lemma quality_score_truncated fp_contract connections total dropped :
  0 < connections -> 0 < total ->
  quality_score fp_contract connections total dropped
  = clamp_0_100 <$> truncated_percentage fp_contract total dropped.
Proof.
  intros Hc Ht. unfold quality_score, clamp_0_100, truncated_percentage.
  apply Z.ltb_lt in Hc, Ht. rewrite Hc, Ht. cbv zeta.
  destruct (int_of_double _) as [q |]; [| done].
  cbn [fmap option_fmap option_map]. f_equal. destruct (Z.ltb_spec q 0).
  - change (100 <? 0) with false. cbv iota. lia.
  - destruct (Z.ltb_spec 100 q); lia.
Qed.

Lemma quality_score_disconnected fp_contract connections total dropped :
  connections <= 0 -> quality_score fp_contract connections total dropped = Some 0.
Proof.
  intros Hc. unfold quality_score. by destruct (Z.ltb_spec 0 connections); [lia |].
Qed.

Lemma quality_score_no_frames fp_contract connections total dropped :
  0 < connections -> total <= 0 ->
  quality_score fp_contract connections total dropped = Some 100.
Proof.
  intros Hc Ht. unfold quality_score.
  destruct (Z.ltb_spec 0 connections); [| lia].
  by destruct (Z.ltb_spec 0 total); [lia |].
Qed.

(** The conversion has an answer inside of [int] only. *)
Lemma int_of_double_range x q : int_of_double x = Some q -> int_range q.
Proof.
  unfold int_of_double, int_range. destruct x as [| | | s m e]; try done.
  - intros [= <-]. lia.
  - cbv zeta. destruct (_ && _) eqn:Hr; [| done].
    apply andb_true_iff in Hr as [H1%Z.leb_le H2%Z.leb_le]. intros [= <-]. lia.
Qed.

Lemma near_floor_upto_100 :
  forallb (fun fp_contract =>
     forallb (fun total =>
                forallb (fun dropped => near_floor fp_contract (Z.of_nat total) (Z.of_nat dropped))
                  (seq 0 (Datatypes.S total)))
       (seq 1 100))
    [false; true] = true.
Proof. vm_compute. reflexivity. Qed.

(** Up to a total of 100 frames, of which none to all are dropped, the
    conversion is defined and the score is the floor of the exact
    percentage or, through the rounding of the [double] operations, one
    less; it is never the percentage rounded up.  This holds whether or
    not the compiler contracts the expression. *)
Lemma quality_score_near_floor fp_contract total dropped :
  0 < total <= 100 -> 0 <= dropped <= total ->
  exists q,
    quality_score fp_contract 1 total dropped = Some q
    /\ exact_percentage total dropped - 1 <= q <= exact_percentage total dropped.
Proof.
  intros Ht Hd.
  pose proof (proj1 (forallb_forall _ _) near_floor_upto_100 fp_contract) as Hmode.
  cbv beta in Hmode.
  pose proof (proj1 (forallb_forall _ _)
                (Hmode ltac:(destruct fp_contract; simpl; tauto)) (Z.to_nat total)) as Hall.
  cbv beta in Hall.
  pose proof (proj1 (forallb_forall _ _) (Hall ltac:(apply in_seq; lia))
                (Z.to_nat dropped) ltac:(apply in_seq; lia)) as Hnear.
  cbv beta in Hnear. rewrite !Z2Nat.id in Hnear by lia.
  unfold near_floor in Hnear.
  destruct (quality_score fp_contract 1 total dropped) as [q |]; [| done].
  exists q. split; [done |].
  apply andb_true_iff in Hnear as [H1%Z.leb_le H2%Z.leb_le]. lia.
Qed.

(** The score does not depend on the connection count beyond its sign. *)
Lemma quality_score_connected fp_contract connections total dropped :
  0 < connections ->
  quality_score fp_contract connections total dropped
  = quality_score fp_contract 1 total dropped.
Proof.
  intros Hc. unfold quality_score. by destruct (Z.ltb_spec 0 connections); [| lia].
Qed.

(** The scores of the examples, the same with and without contraction;
    with 4 of 5 frames dropped the two evaluations differ, and a count of
    dropped frames the engine should never report leaves the conversion
    without defined behaviour. *)
Example quality_score_examples :
  (forall fp_contract,
     quality_score fp_contract 1 100 25 = Some 75
     /\ quality_score fp_contract 1 100 55 = Some 44
     /\ quality_score fp_contract 1 3 1 = Some 66)
  /\ rounded_quality 1 100 55 = 45
  /\ rounded_quality 1 3 1 = 67
  /\ quality_score false 1 5 4 = Some 20
  /\ quality_score true 1 5 4 = Some 19
  /\ (forall fp_contract, quality_score fp_contract 1 1 (-30000000) = None).
Proof.
  split; [| split; [| split; [| split; [| split]]]].
  - intros fp_contract.
    destruct fp_contract; (split; [| split]); vm_compute; reflexivity.
  - vm_compute. reflexivity.
  - vm_compute. reflexivity.
  - vm_compute. reflexivity.
  - vm_compute. reflexivity.
  - intros fp_contract. destruct fp_contract; vm_compute; reflexivity.
Qed.

(** What a performance query returns. *)
Lemma receiverGetPerformance_success fp_contract ndi env receiverPtr w perf w' evs :
  call (receiverGetPerformance fp_contract ndi env receiverPtr) w = Some (Some perf, w', evs) ->
  exists wrapper,
    heap w !! ptr_of_jlong receiverPtr = Some (BReceiver wrapper)
    /\ quality_score fp_contract
         (NDIlib_recv_get_no_connections ndi (NdiReceiverWrapper.recv wrapper))
         (NDIlib_recv_performance_t.video_frames
            (fst (NDIlib_recv_get_performance ndi (NdiReceiverWrapper.recv wrapper))))
         (NDIlib_recv_performance_t.video_frames
            (snd (NDIlib_recv_get_performance ndi (NdiReceiverWrapper.recv wrapper))))
       = Some (ReceiverPerformance.qualityScore perf).
Proof.
  unfold call, receiverGetPerformance. intros Hcall.
  rewrite bind_when in Hcall. destruct (receiverPtr =? 0); [done |].
  cbv zeta in Hcall.
  rewrite bind_when in Hcall. destruct (ptr_of_jlong receiverPtr =? 0); [done |].
  rewrite bind_load_receiver in Hcall.
  destruct (heap w !! ptr_of_jlong receiverPtr) as [[| wrapper | | |]|] eqn:Hw; try done.
  rewrite bind_when in Hcall.
  destruct (NdiReceiverWrapper.recv wrapper =? 0); [done |].
  rewrite bind_invoke in Hcall.
  destruct (ensure_jni_cache_returns env w) as (ok & w1 & cevs & Hc & Hh1 & _ & Hcevs & Hok).
  rewrite Hc in Hcall.
  rewrite bind_when in Hcall. destruct (ok =? 0); [done |].
  rewrite bind_lock_wrapper, Hh1, Hw in Hcall.
  rewrite bind_emit, bind_emit in Hcall.
  rewrite bind_unlock_wrapper, Hh1, Hw in Hcall.
  exists wrapper. split; [done |].
  destruct (quality_score _ _ _ _) as [q |] eqn:Hq;
    [rewrite bind_ret in Hcall | by rewrite bind_undefined in Hcall].
  rewrite bind_get in Hcall.
  destruct (NewObject env _ _); [| done].
  unfold Return in Hcall. cbn [prefix app] in Hcall.
  injection Hcall as <- _ _. cbn [ReceiverPerformance.qualityScore].
  f_equal. symmetry. apply to_jint_id.
  pose proof (quality_score_range _ _ _ _ _ Hq). unfold int_range. lia.
Qed.

(** The query has a defined behaviour on a live receiver whenever the
    score needs no conversion or the engine's counts are those of up to
    100 frames. *)
Lemma receiverGetPerformance_defined fp_contract ndi env receiverPtr w wrapper :
  heap w !! ptr_of_jlong receiverPtr = Some (BReceiver wrapper) ->
  (let recv := NdiReceiverWrapper.recv wrapper in
   let connections := NDIlib_recv_get_no_connections ndi recv in
   let total :=
     NDIlib_recv_performance_t.video_frames (fst (NDIlib_recv_get_performance ndi recv)) in
   let dropped :=
     NDIlib_recv_performance_t.video_frames (snd (NDIlib_recv_get_performance ndi recv)) in
   connections <= 0 \/ total <= 0 \/ (0 < total <= 100 /\ 0 <= dropped <= total)) ->
  exists r w' evs,
    call (receiverGetPerformance fp_contract ndi env receiverPtr) w = Some (r, w', evs).
Proof.
  intros Hw Hcounts. cbv zeta in Hcounts.
  unfold call, receiverGetPerformance.
  rewrite bind_when. destruct (receiverPtr =? 0); [by eexists _, _, _ |].
  cbv zeta.
  rewrite bind_when. destruct (ptr_of_jlong receiverPtr =? 0); [by eexists _, _, _ |].
  rewrite bind_load_receiver, Hw.
  rewrite bind_when. destruct (NdiReceiverWrapper.recv wrapper =? 0); [by eexists _, _, _ |].
  rewrite bind_invoke.
  destruct (ensure_jni_cache_returns env w) as (ok & w1 & cevs & -> & Hh1 & _).
  rewrite bind_when. destruct (ok =? 0); [by eexists _, _, _ |].
  rewrite bind_lock_wrapper, Hh1, Hw.
  rewrite bind_emit, bind_emit.
  rewrite bind_unlock_wrapper, Hh1, Hw.
  match goal with
  | |- context [quality_score ?c ?n ?t ?d] =>
      assert (Hq : exists q, quality_score c n t d = Some q)
  end.
  { destruct Hcounts as [Hc | [Ht | [Ht Hd]]].
    - rewrite quality_score_disconnected by done. by eexists.
    - destruct (Z.le_gt_cases (NDIlib_recv_get_no_connections ndi
                                 (NdiReceiverWrapper.recv wrapper)) 0) as [Hc | Hc].
      + rewrite quality_score_disconnected by done. by eexists.
      + rewrite quality_score_no_frames by (done || lia). by eexists.
    - destruct (Z.le_gt_cases (NDIlib_recv_get_no_connections ndi
                                 (NdiReceiverWrapper.recv wrapper)) 0) as [Hc | Hc].
      + rewrite quality_score_disconnected by done. by eexists.
      + rewrite quality_score_connected by lia.
        destruct (quality_score_near_floor fp_contract _ _ Ht Hd) as (q & -> & _).
        by eexists. }
  destruct Hq as [q ->]. rewrite bind_ret, bind_get.
  destruct (NewObject env _ _); by eexists _, _, _.
Qed.

(** C5 (as the code has it). The quality score of a performance query is 0
    without a connection, 100 with connections and no video frame
    totalled, and otherwise the [double] value of
    [100.0 - (dropped / total) * 100.0], the product rounded or not as
    the compiler chose, with its fraction discarded (not rounded) by a
    conversion that is defined, clamped to [0, 100].  For a total of up
    to 100 frames, none to all of them dropped, that is the floor of the
    exact percentage or one less.  The score always lies in [0, 100],
    and is 75 for total = 100 and dropped = 25. *)
Theorem getPerformance_quality_score fp_contract ndi env receiverPtr w perf w' evs :
  call (receiverGetPerformance fp_contract ndi env receiverPtr) w = Some (Some perf, w', evs) ->
  exists wrapper,
    heap w !! ptr_of_jlong receiverPtr = Some (BReceiver wrapper)
    /\ (let recv := NdiReceiverWrapper.recv wrapper in
        let connections := NDIlib_recv_get_no_connections ndi recv in
        let total :=
          NDIlib_recv_performance_t.video_frames
            (fst (NDIlib_recv_get_performance ndi recv)) in
        let dropped :=
          NDIlib_recv_performance_t.video_frames
            (snd (NDIlib_recv_get_performance ndi recv)) in
        let quality := ReceiverPerformance.qualityScore perf in
        (connections <= 0 -> quality = 0)
        /\ (0 < connections -> total <= 0 -> quality = 100)
        /\ (0 < connections -> 0 < total ->
            exists q,
              truncated_percentage fp_contract total dropped = Some q
              /\ int_range q
              /\ quality = clamp_0_100 q)
        /\ (0 < connections -> 0 < total <= 100 -> 0 <= dropped <= total ->
            exact_percentage total dropped - 1 <= quality <= exact_percentage total dropped)
        /\ 0 <= quality <= 100
        /\ (0 < connections -> total = 100 -> dropped = 25 -> quality = 75)).
Proof.
  intros Hcall.
  destruct (receiverGetPerformance_success _ _ _ _ _ _ _ _ Hcall) as (wrapper & Hw & Hq).
  exists wrapper. split; [done |].
  intros recv connections total dropped quality.
  fold recv connections total dropped quality in Hq.
  split; [| split; [| split; [| split; [| split]]]].
  - intros Hc. rewrite quality_score_disconnected in Hq by done. congruence.
  - intros Hc Ht. rewrite quality_score_no_frames in Hq by done. congruence.
  - intros Hc Ht. rewrite quality_score_truncated in Hq by done.
    destruct (truncated_percentage fp_contract total dropped) as [q |] eqn:Hp; [| done].
    exists q. split; [done |]. split; [by eapply int_of_double_range |].
    cbn in Hq. congruence.
  - intros Hc Ht Hd. rewrite quality_score_connected in Hq by done.
    destruct (quality_score_near_floor fp_contract total dropped Ht Hd) as (q & Hq' & Hb).
    rewrite Hq' in Hq. injection Hq as <-. done.
  - by eapply quality_score_range.
  - intros Hc Ht Hd. rewrite quality_score_connected in Hq by done.
    rewrite Ht, Hd in Hq.
    destruct (proj1 quality_score_examples fp_contract) as (H75 & _).
    rewrite H75 in Hq. congruence.
Qed.

Lemma getPerformance_quality_score_witness :
  exists perf w' evs,
    call (receiverGetPerformance true (engine_performance 1 100 25) env_ok 1000) world_ready
      = Some (Some perf, w', evs)
    /\ ReceiverPerformance.qualityScore perf = 75.
Proof.
  eexists _, _, _. split; [vm_compute; reflexivity |].
  edestruct (getPerformance_quality_score true (engine_performance 1 100 25) env_ok 1000
               world_ready) as (wrapper & Hw & Hq).
  { vm_compute. reflexivity. }
  vm_compute in Hw. injection Hw as <-.
  destruct Hq as (_ & _ & _ & _ & _ & Hq).
  apply Hq; [| reflexivity | reflexivity].
  vm_compute. reflexivity.
Defined.

(** C5 as stated fails, however the compiler evaluates the expression:
    with one connection, 100 frames and 55 dropped the score is 44, where
    rounding 100 x (1 - 55/100) gives 45. *)
Lemma quality_score_is_not_rounded :
  ~ (exists fp_contract,
       forall ndi env receiverPtr w perf w' evs wrapper,
         call (receiverGetPerformance fp_contract ndi env receiverPtr) w
           = Some (Some perf, w', evs) ->
         heap w !! ptr_of_jlong receiverPtr = Some (BReceiver wrapper) ->
         ReceiverPerformance.qualityScore perf
         = rounded_quality
             (NDIlib_recv_get_no_connections ndi (NdiReceiverWrapper.recv wrapper))
             (NDIlib_recv_performance_t.video_frames
                (fst (NDIlib_recv_get_performance ndi (NdiReceiverWrapper.recv wrapper))))
             (NDIlib_recv_performance_t.video_frames
                (snd (NDIlib_recv_get_performance ndi (NdiReceiverWrapper.recv wrapper))))).
Proof.
  intros [fp_contract H].
  assert (Hc : exists perf w' evs,
             call (receiverGetPerformance fp_contract (engine_performance 1 100 55)
                     env_ok 1000) world_ready = Some (Some perf, w', evs)
             /\ ReceiverPerformance.qualityScore perf = 44).
  { destruct fp_contract; eexists _, _, _; split; vm_compute; reflexivity. }
  destruct Hc as (perf & w' & evs & Hc & Hcode).
  specialize (H _ _ _ _ _ _ _ (NdiReceiverWrapper.mk 77 0) Hc eq_refl).
  match type of H with
  | _ = ?claimed => assert (Hclaimed : claimed = 45) by (vm_compute; reflexivity)
  end.
  pose proof (eq_trans (eq_sym Hcode) (eq_trans H Hclaimed)) as Habs.
  discriminate Habs.
Qed.

(** ** Finder *)

Section FinderGetSources.
Variables (ndi : NDIlib) (env : JNIEnv) (finderPtr : Z) (w : world).
Variable wrapper : NdiFinderWrapper.t.
Hypothesis handle_not_empty : finderPtr <> 0.
Hypothesis pointer_not_null : ptr_of_jlong finderPtr <> 0.
Hypothesis finder_live : heap w !! ptr_of_jlong finderPtr = Some (BFinder wrapper).

Lemma finderGetSources_unavailable :
  NdiFinderWrapper.finder wrapper = 0 ->
  call (finderGetSources ndi env finderPtr) w = Some (None, w, []).
Proof.
  intros Hf. unfold call, finderGetSources.
  apply Z.eqb_neq in handle_not_empty, pointer_not_null.
  rewrite bind_when, handle_not_empty. cbv zeta.
  rewrite bind_when, pointer_not_null.
  rewrite bind_load_finder, finder_live.
  rewrite bind_when, Hf. reflexivity.
Qed.

(** The call up to the creation of the array. *)
Lemma finderGetSources_array :
  NdiFinderWrapper.finder wrapper <> 0 ->
  let sources := fst (NDIlib_find_get_current_sources ndi (NdiFinderWrapper.finder wrapper)) in
  let no_sources :=
    to_uint32 (snd (NDIlib_find_get_current_sources ndi (NdiFinderWrapper.finder wrapper))) in
  let events :=
    [pthread_mutex_lock (wrapper_mutex (ptr_of_jlong finderPtr));
     call_NDIlib_find_get_current_sources (NdiFinderWrapper.finder wrapper);
     pthread_mutex_unlock (wrapper_mutex (ptr_of_jlong finderPtr))] in
  call (finderGetSources ndi env finderPtr) w =
  if FindClass env "java/lang/String" =? 0 then Some (None, w, events)
  else
    match new_object_array env (to_jint no_sources) (FindClass env "java/lang/String") with
    | None => Some (None, w, events)
    | Some result =>
        match for_range 0 no_sources (copy_source_name env sources) (Some result) with
        | None => None
        | Some result => Some (Some result, w, events)
        end
    end.
Proof.
  intros Hf sources no_sources events. unfold call, finderGetSources.
  apply Z.eqb_neq in handle_not_empty, pointer_not_null, Hf.
  rewrite bind_when, handle_not_empty. cbv zeta.
  rewrite bind_when, pointer_not_null.
  rewrite bind_load_finder, finder_live.
  rewrite bind_when, Hf.
  rewrite bind_lock_wrapper, finder_live.
  rewrite bind_emit.
  rewrite bind_when.
  destruct (FindClass env "java/lang/String" =? 0).
  { rewrite bind_assoc, bind_unlock_wrapper, finder_live. reflexivity. }
  fold sources no_sources.
  destruct (new_object_array env (to_jint no_sources) _) as [result |].
  - destruct (for_range 0 no_sources _ _) as [result' |]; [| reflexivity].
    rewrite bind_unlock_wrapper, finder_live. reflexivity.
  - rewrite bind_unlock_wrapper, finder_live. reflexivity.
Qed.

End FinderGetSources.

(** C8 (as the code has it). For an empty handle, and for a finder whose
    engine instance is gone, getSources yields the empty result without
    calling the engine.  For a live finder that sees zero sources it
    returns an empty sequence when the string class is found and the
    array is made; when one of the two fails it yields the empty result
    instead. *)
Theorem finderGetSources_empty_results ndi env finderPtr w :
  (finderPtr = 0 \/ ptr_of_jlong finderPtr = 0 ->
   call (finderGetSources ndi env finderPtr) w = Some (None, w, []))
  /\ (forall wrapper,
        finderPtr <> 0 -> ptr_of_jlong finderPtr <> 0 ->
        heap w !! ptr_of_jlong finderPtr = Some (BFinder wrapper) ->
        (NdiFinderWrapper.finder wrapper = 0 ->
         call (finderGetSources ndi env finderPtr) w = Some (None, w, []))
        /\ (NdiFinderWrapper.finder wrapper <> 0 ->
            snd (NDIlib_find_get_current_sources ndi (NdiFinderWrapper.finder wrapper)) = 0 ->
            let events :=
              [pthread_mutex_lock (wrapper_mutex (ptr_of_jlong finderPtr));
               call_NDIlib_find_get_current_sources (NdiFinderWrapper.finder wrapper);
               pthread_mutex_unlock (wrapper_mutex (ptr_of_jlong finderPtr))] in
            let stringClass := FindClass env "java/lang/String" in
            (stringClass <> 0 -> NewObjectArray env 0 stringClass = true ->
             call (finderGetSources ndi env finderPtr) w = Some (Some [], w, events))
            /\ (stringClass = 0 \/ NewObjectArray env 0 stringClass = false ->
                call (finderGetSources ndi env finderPtr) w = Some (None, w, events)))).
Proof.
  split.
  - intros Hz. unfold call, finderGetSources.
    rewrite bind_when. destruct (finderPtr =? 0) eqn:H0; [reflexivity |].
    destruct Hz as [-> | Hz]; [done |].
    cbv zeta. rewrite bind_when, Hz. reflexivity.
  - intros wrapper Hne Hp Hlive. split.
    + by apply finderGetSources_unavailable.
    + intros Hf Hzero events stringClass.
      pose proof (finderGetSources_array ndi env finderPtr w wrapper Hne Hp Hlive Hf) as Hrun.
      cbv zeta in Hrun. rewrite Hzero in Hrun.
      change (to_uint32 0) with 0 in Hrun. change (to_jint 0) with 0 in Hrun.
      fold stringClass events in Hrun.
      unfold new_object_array in Hrun. change (0 <? 0) with false in Hrun.
      cbv iota in Hrun. split.
      * intros Hc Ha. apply Z.eqb_neq in Hc. rewrite Hc, Ha in Hrun. exact Hrun.
      * intros [Hc | Ha].
        -- rewrite Hc in Hrun. exact Hrun.
        -- rewrite Ha in Hrun. by destruct (stringClass =? 0).
Qed.

Lemma finderGetSources_empty_results_witness :
  call (finderGetSources (engine_video frame_bottom_up) env_ok 0) world_ready
    = Some (None, world_ready, [])
  /\ call (finderGetSources (engine_video frame_bottom_up) env_ok 1100) world_ready
     = Some (Some [], world_ready,
             [pthread_mutex_lock (wrapper_mutex 1100);
              call_NDIlib_find_get_current_sources 88;
              pthread_mutex_unlock (wrapper_mutex 1100)]).
Proof.
  split.
  - apply (finderGetSources_empty_results (engine_video frame_bottom_up) env_ok 0
             world_ready). left. reflexivity.
  - refine (proj1 (proj2 (proj2 (finderGetSources_empty_results
             (engine_video frame_bottom_up) env_ok 1100 world_ready)
             (NdiFinderWrapper.mk 88) _ _ _) _ _) _ _).
    + discriminate.
    + vm_compute. discriminate.
    + vm_compute. reflexivity.
    + vm_compute. discriminate.
    + reflexivity.
    + vm_compute. discriminate.
    + reflexivity.
Defined.

(** C8 as stated fails: a live finder that sees zero sources yields the
    empty result, not an empty sequence, when the string class is not
    found. *)
Lemma finderGetSources_zero_sources_may_yield_empty_result :
  ~ (forall ndi env finderPtr w wrapper,
       finderPtr <> 0 -> ptr_of_jlong finderPtr <> 0 ->
       heap w !! ptr_of_jlong finderPtr = Some (BFinder wrapper) ->
       NdiFinderWrapper.finder wrapper <> 0 ->
       snd (NDIlib_find_get_current_sources ndi (NdiFinderWrapper.finder wrapper)) = 0 ->
       exists w' evs,
         call (finderGetSources ndi env finderPtr) w = Some (Some [], w', evs)).
Proof.
  intros H.
  destruct (H (engine_video frame_bottom_up) env_no_class 1100 world_ready
              (NdiFinderWrapper.mk 88)) as (w' & evs & Hcall).
  - discriminate.
  - vm_compute. discriminate.
  - vm_compute. reflexivity.
  - vm_compute. discriminate.
  - reflexivity.
  - vm_compute in Hcall. discriminate.
Qed.

(** ** Library lifecycle *)

Lemma initialize_run ndi w :
  call (initialize ndi) w =
  if negb (g_initialized w =? 0)
  then Some (true, w, [pthread_mutex_lock g_init_mutex; pthread_mutex_unlock g_init_mutex])
  else if NDIlib_initialize ndi
  then Some (true, set_g_initialized 1 w,
             [pthread_mutex_lock g_init_mutex; call_NDIlib_initialize;
              pthread_mutex_unlock g_init_mutex])
  else Some (false, w,
             [pthread_mutex_lock g_init_mutex; call_NDIlib_initialize;
              pthread_mutex_unlock g_init_mutex]).
Proof.
  unfold call, initialize.
  rewrite bind_emit, bind_get, bind_when.
  destruct (negb (g_initialized w =? 0)).
  { rewrite bind_assoc, bind_emit, bind_Return. reflexivity. }
  rewrite bind_emit, bind_when.
  destruct (NDIlib_initialize ndi); cbn [negb].
  - rewrite bind_modify, bind_emit. reflexivity.
  - rewrite bind_assoc, bind_emit, bind_Return. reflexivity.
Qed.

Lemma destroy_run w :
  call destroy w =
  if g_initialized w =? 0
  then Some (tt, w, [pthread_mutex_lock g_init_mutex; pthread_mutex_unlock g_init_mutex])
  else Some (tt, set_g_initialized 0 w,
             [pthread_mutex_lock g_init_mutex; call_NDIlib_destroy;
              pthread_mutex_unlock g_init_mutex]).
Proof.
  unfold call, destroy.
  rewrite bind_emit, bind_get, bind_when.
  destruct (g_initialized w =? 0).
  { rewrite bind_assoc, bind_emit, bind_Return. reflexivity. }
  rewrite bind_emit, bind_modify, bind_emit. reflexivity.
Qed.

(** C9. After an initialize that succeeded, a second initialize succeeds
    again, calls nothing of the engine and leaves the state, in which the
    initialized query answers true, as it is; destroy on a library that
    is not initialized calls nothing of the engine and changes nothing. *)
Theorem initialize_idempotent_destroy_safe :
  (forall ndi ndi' w w1 evs,
     call (initialize ndi) w = Some (true, w1, evs) ->
     call (initialize ndi') w1
       = Some (true, w1, [pthread_mutex_lock g_init_mutex; pthread_mutex_unlock g_init_mutex])
     /\ call isInitialized w1 = Some (true, w1, []))
  /\ (forall w,
        call isInitialized w = Some (false, w, []) ->
        call destroy w
          = Some (tt, w, [pthread_mutex_lock g_init_mutex; pthread_mutex_unlock g_init_mutex])).
Proof.
  split.
  - intros ndi ndi' w w1 evs Hcall. rewrite initialize_run in Hcall.
    assert (Hinit : (g_initialized w1 =? 0) = false).
    { destruct (g_initialized w =? 0) eqn:Hg; cbn [negb] in Hcall.
      - destruct (NDIlib_initialize ndi); [| done]. by simplify_eq.
      - by simplify_eq. }
    rewrite initialize_run, Hinit. split; [reflexivity |].
    unfold call, isInitialized. rewrite bind_get. unfold Return. by rewrite Hinit.
  - intros w Hq. rewrite destroy_run.
    unfold call, isInitialized in Hq. rewrite bind_get in Hq. unfold Return in Hq.
    destruct (g_initialized w =? 0); [reflexivity | done].
Qed.

Lemma initialize_idempotent_destroy_safe_witness :
  (exists w1 evs,
     call (initialize (engine_video frame_bottom_up)) world_fresh = Some (true, w1, evs)
     /\ call (initialize engine_down) w1
        = Some (true, w1, [pthread_mutex_lock g_init_mutex; pthread_mutex_unlock g_init_mutex])
     /\ call isInitialized w1 = Some (true, w1, []))
  /\ call destroy world_fresh
     = Some (tt, world_fresh,
             [pthread_mutex_lock g_init_mutex; pthread_mutex_unlock g_init_mutex]).
Proof.
  split.
  - eexists _, _. split; [vm_compute; reflexivity |].
    eapply (proj1 initialize_idempotent_destroy_safe (engine_video frame_bottom_up)
              engine_down world_fresh).
    vm_compute. reflexivity.
  - apply (proj2 initialize_idempotent_destroy_safe world_fresh).
    vm_compute. reflexivity.
Defined.

(** ** Format mappers *)

(** C10. The two mappers are total; every documented integer maps to its
    native value, and every other integer, negative ones included, maps
    to the default: the highest bandwidth, the UYVY/BGRA color format. *)
Theorem mappers_total_with_defaults :
  (map_bandwidth 0 = NDIlib_recv_bandwidth_metadata_only
   /\ map_bandwidth 1 = NDIlib_recv_bandwidth_audio_only
   /\ map_bandwidth 2 = NDIlib_recv_bandwidth_lowest
   /\ map_bandwidth 3 = NDIlib_recv_bandwidth_highest)
  /\ (forall bandwidth,
        bandwidth < 0 \/ 3 < bandwidth ->
        map_bandwidth bandwidth = NDIlib_recv_bandwidth_highest)
  /\ (map_color_format 0 = NDIlib_recv_color_format_BGRX_BGRA
      /\ map_color_format 1 = NDIlib_recv_color_format_UYVY_BGRA
      /\ map_color_format 2 = NDIlib_recv_color_format_RGBX_RGBA
      /\ map_color_format 3 = NDIlib_recv_color_format_UYVY_RGBA
      /\ map_color_format 100 = NDIlib_recv_color_format_fastest
      /\ map_color_format 101 = NDIlib_recv_color_format_best)
  /\ (forall colorFormat,
        colorFormat < 0 \/ (3 < colorFormat /\ colorFormat <> 100 /\ colorFormat <> 101) ->
        map_color_format colorFormat = NDIlib_recv_color_format_UYVY_BGRA).
Proof.
  split; [repeat split |]. split; [| split; [repeat split |]].
  - intros [| p | p] H; [lia | | reflexivity].
    do 3 (try destruct p as [p | p |]); try reflexivity; lia.
  - intros [| p | p] H; [lia | | reflexivity].
    do 8 (try destruct p as [p | p |]); try reflexivity; lia.
Qed.

Lemma mappers_total_with_defaults_witness :
  map_bandwidth (-1) = NDIlib_recv_bandwidth_highest
  /\ map_bandwidth 4 = NDIlib_recv_bandwidth_highest
  /\ map_color_format (-7) = NDIlib_recv_color_format_UYVY_BGRA
  /\ map_color_format 99 = NDIlib_recv_color_format_UYVY_BGRA.
Proof.
  destruct mappers_total_with_defaults as (_ & Hb & _ & Hc).
  split; [apply Hb; lia |]. split; [apply Hb; lia |].
  split; apply Hc; lia.
Defined.

(** * More properties of the first part *)

(** ** The callback-schema cache, in full *)

Lemma ensure_jni_cache_ready env w :
  g_jni_cache_initialized (cache w) <> 0 ->
  ensure_jni_cache env w = Returned 1 w [].
Proof.
  intros H. apply Z.eqb_neq in H. unfold ensure_jni_cache.
  rewrite bind_get, bind_when, H. reflexivity.
Qed.

Ltac cache_fail :=
  rewrite bind_assoc, bind_unlock_cache, bind_Return; cbn [prefix app];
  eexists _, _; split; [reflexivity |];
  split; [reflexivity |]; split; [reflexivity |]; right; split; [reflexivity | done].

Lemma ensure_jni_cache_resolve env w :
  g_jni_cache_initialized (cache w) = 0 ->
  exists ok w1,
    ensure_jni_cache env w
      = Returned ok w1
          [pthread_mutex_lock g_jni_cache_mutex; pthread_mutex_unlock g_jni_cache_mutex]
    /\ heap w1 = heap w /\ g_initialized w1 = g_initialized w
    /\ ((ok = 1 /\ g_jni_cache_initialized (cache w1) = 1 /\ cache_complete (cache w1))
        \/ (ok = 0 /\ g_jni_cache_initialized (cache w1) = 0)).
Proof.
  intros H. unfold ensure_jni_cache.
  rewrite bind_get, bind_when, H. cbn [Z.eqb negb].
  rewrite bind_emit, bind_get, bind_when, H. cbn [Z.eqb negb]. cbv zeta.
  rewrite bind_when. destruct (FindClass env _ =? 0) eqn:H1; [cache_fail |].
  rewrite bind_update_cache, bind_get, bind_when.
  cbn [cache set_cache g_class_VideoFrame set_g_class_VideoFrame].
  destruct (NewGlobalRef env _ =? 0) eqn:H2; [cache_fail |].
  rewrite bind_update_cache, bind_get, bind_when.
  cbn [cache set_cache g_ctor_VideoFrame set_g_ctor_VideoFrame
       g_class_VideoFrame set_g_class_VideoFrame].
  destruct (GetMethodID env _ _ _ =? 0) eqn:H3; [cache_fail |].
  rewrite bind_when.
  destruct (FindClass env "com/example/ndireceiver/ndi/NdiNative$AudioFrame" =? 0) eqn:H4; [cache_fail |].
  rewrite bind_update_cache, bind_get, bind_when.
  cbn [cache set_cache g_class_AudioFrame set_g_class_AudioFrame].
  destruct (NewGlobalRef env (FindClass env "com/example/ndireceiver/ndi/NdiNative$AudioFrame") =? 0)
    eqn:H5; [cache_fail |].
  rewrite bind_update_cache, bind_get, bind_when.
  cbn [cache set_cache g_ctor_AudioFrame set_g_ctor_AudioFrame
       g_class_AudioFrame set_g_class_AudioFrame].
  destruct (GetMethodID env _ _ "(JIIIJLjava/nio/ByteBuffer;)V" =? 0) eqn:H6; [cache_fail |].
  rewrite bind_when.
  destruct (FindClass env "com/example/ndireceiver/ndi/NdiNative$ReceiverPerformance" =? 0)
    eqn:H7; [cache_fail |].
  rewrite bind_update_cache, bind_get, bind_when.
  cbn [cache set_cache g_class_ReceiverPerformance set_g_class_ReceiverPerformance].
  destruct (NewGlobalRef env
              (FindClass env "com/example/ndireceiver/ndi/NdiNative$ReceiverPerformance") =? 0)
    eqn:H8; [cache_fail |].
  rewrite bind_update_cache, bind_get, bind_when.
  cbn [cache set_cache g_ctor_ReceiverPerformance set_g_ctor_ReceiverPerformance
       g_class_ReceiverPerformance set_g_class_ReceiverPerformance].
  destruct (GetMethodID env _ _ "(JJJJJI)V" =? 0) eqn:H9; [cache_fail |].
  rewrite bind_update_cache, bind_unlock_cache. unfold Return. cbn [prefix app].
  eexists _, _. split; [reflexivity |].
  split; [reflexivity |]. split; [reflexivity |]. left.
  split; [reflexivity |]. split; [reflexivity |].
  apply Z.eqb_neq in H2, H3, H5, H6, H8, H9.
  repeat split; assumption.
Qed.

Lemma ensure_jni_cache_events env w :
  exists ok w1 evs,
    ensure_jni_cache env w = Returned ok w1 evs
    /\ heap w1 = heap w
    /\ (evs = []
        \/ evs = [pthread_mutex_lock g_jni_cache_mutex;
                  pthread_mutex_unlock g_jni_cache_mutex]).
Proof.
  destruct (decide (g_jni_cache_initialized (cache w) = 0)) as [H | H].
  - destruct (ensure_jni_cache_resolve env w H) as (ok & w1 & -> & Hh & _).
    eexists _, _, _. split; [reflexivity |]. split; [done | by right].
  - rewrite (ensure_jni_cache_ready env w H).
    eexists _, _, _. split; [reflexivity |]. split; [done | by left].
Qed.

(** ** Lock discipline *)

Lemma well_locked_app owner held e1 e2 :
  well_locked owner held e1 = true ->
  well_locked owner None e2 = true ->
  well_locked owner held (e1 ++ e2) = true.
Proof.
  revert held. induction e1 as [| e e1 IH]; intros held H1 H2.
  - destruct held; [done | exact H2].
  - destruct e, held; simpl in *; try done;
      try (apply andb_true_iff in H1 as [-> H1]; simpl); by apply IH.
Qed.

Lemma well_locked_section owner e :
  is_engine_call e = true ->
  well_locked owner None [pthread_mutex_lock owner; e; pthread_mutex_unlock owner] = true.
Proof.
  intros He. destruct e; try done; simpl; by rewrite !bool_decide_eq_true_2.
Qed.

Lemma locks_kept_prefix {R A} owner evs (o : outcome R A) :
  well_locked owner None evs = true -> locks_kept owner o -> locks_kept owner (prefix evs o).
Proof. intros H. destruct o; simpl; try done; by apply well_locked_app. Qed.

Lemma receiverCaptureVideo_locking ndi env libc receiverPtr timeoutMs w :
  locks_kept (wrapper_mutex (ptr_of_jlong receiverPtr))
    (receiverCaptureVideo ndi env libc receiverPtr timeoutMs w).
Proof.
  unfold receiverCaptureVideo.
  rewrite bind_when. destruct (receiverPtr =? 0) eqn:Hrp; [done |].
  cbv zeta.
  rewrite bind_when. destruct (ptr_of_jlong receiverPtr =? 0) eqn:Hp; [done |].
  rewrite bind_load_receiver.
  destruct (heap w !! ptr_of_jlong receiverPtr) as [[| wrapper | | |]|] eqn:Hw; try done.
  rewrite bind_when. destruct (NdiReceiverWrapper.recv wrapper =? 0) eqn:Hrecv; [done |].
  rewrite bind_invoke.
  destruct (ensure_jni_cache_events env w) as (ok & w1 & cevs & -> & Hh1 & Hcevs).
  apply locks_kept_prefix; [by destruct Hcevs as [-> | ->] |].
  assert (Hw1 : heap w1 !! ptr_of_jlong receiverPtr = Some (BReceiver wrapper))
    by (by rewrite Hh1).
  rewrite bind_when. destruct (ok =? 0) eqn:Hok0; [done |].
  rewrite bind_allocate. destruct (calloc libc =? 0) eqn:Hc0.
  { cbv beta. by rewrite bind_when. }
  apply Z.eqb_neq in Hc0.
  destruct ((0 <? calloc libc) && (calloc libc <? 2 ^ 64)); [| done].
  destruct (heap w1 !! calloc libc) eqn:Hfresh; [done |].
  assert (Hne : ptr_of_jlong receiverPtr <> calloc libc) by congruence.
  rewrite bind_when. cbv iota beta.
  rewrite bind_store. cbn [heap set_heap]. rewrite lookup_insert_eq.
  rewrite insert_insert_eq.
  rewrite bind_lock_wrapper. cbn [heap set_heap].
  rewrite lookup_insert_ne by done. rewrite Hw1.
  rewrite bind_emit.
  rewrite bind_store. cbn [heap set_heap]. rewrite lookup_insert_eq.
  rewrite insert_insert_eq.
  rewrite bind_unlock_wrapper. cbn [heap set_heap].
  rewrite lookup_insert_ne by done. rewrite Hw1.
  rewrite !prefix_prefix.
  apply locks_kept_prefix; [by apply well_locked_section |].
  rewrite !set_heap_set_heap.
  set (hd := NdiVideoFrameHandle.mk _ _).
  set (w2 := set_heap _ w1).
  assert (Hw2 : heap w2 !! ptr_of_jlong receiverPtr = Some (BReceiver wrapper)).
  { subst w2. cbn [heap set_heap]. by rewrite lookup_insert_ne. }
  assert (Hh2 : heap w2 !! calloc libc = Some (BVideoHandle hd)).
  { subst w2. cbn [heap set_heap]. by rewrite lookup_insert_eq. }
  assert (Hrel : forall (k : unit -> M (option VideoFrame.t) (option VideoFrame.t)),
    locks_kept (wrapper_mutex (ptr_of_jlong receiverPtr))
      (bind (release_video_and_fail (ptr_of_jlong receiverPtr) (calloc libc)) k w2)).
  { intros k.
    rewrite (release_video_and_fail_run _ _ wrapper _ k w2 Hw2 Hh2 Hc0).
    by apply well_locked_section. }
  rewrite bind_when. destruct (bool_decide _); cbn [negb].
  2: { rewrite bind_assoc, bind_free.
       apply Z.eqb_neq in Hc0 as ->. rewrite Hh2. by rewrite bind_Return. }
  rewrite bind_load_video_handle, Hh2.
  rewrite bind_when. destruct (NDIlib_video_frame_v2_t.p_data _ =? 0); [apply Hrel |].
  rewrite bind_when. destruct (video_buffer_size _ <=? 0); [apply Hrel |].
  rewrite bind_when. destruct (NewDirectByteBuffer env _ _); cbn [negb]; [| apply Hrel].
  rewrite bind_get.
  rewrite bind_when. destruct (NewObject env _ _); cbn [negb]; [| apply Hrel].
  done.
Qed.

Lemma receiverCaptureAudio_locking ndi env libc receiverPtr timeoutMs w :
  locks_kept (wrapper_mutex (ptr_of_jlong receiverPtr))
    (receiverCaptureAudio ndi env libc receiverPtr timeoutMs w).
Proof.
  unfold receiverCaptureAudio.
  rewrite bind_when. destruct (receiverPtr =? 0) eqn:Hrp; [done |].
  cbv zeta.
  rewrite bind_when. destruct (ptr_of_jlong receiverPtr =? 0) eqn:Hp; [done |].
  rewrite bind_load_receiver.
  destruct (heap w !! ptr_of_jlong receiverPtr) as [[| wrapper | | |]|] eqn:Hw; try done.
  rewrite bind_when. destruct (NdiReceiverWrapper.recv wrapper =? 0) eqn:Hrecv; [done |].
  rewrite bind_invoke.
  destruct (ensure_jni_cache_events env w) as (ok & w1 & cevs & -> & Hh1 & Hcevs).
  apply locks_kept_prefix; [by destruct Hcevs as [-> | ->] |].
  assert (Hw1 : heap w1 !! ptr_of_jlong receiverPtr = Some (BReceiver wrapper))
    by (by rewrite Hh1).
  rewrite bind_when. destruct (ok =? 0) eqn:Hok0; [done |].
  rewrite bind_allocate. destruct (calloc libc =? 0) eqn:Hc0.
  { cbv beta. by rewrite bind_when. }
  apply Z.eqb_neq in Hc0.
  destruct ((0 <? calloc libc) && (calloc libc <? 2 ^ 64)); [| done].
  destruct (heap w1 !! calloc libc) eqn:Hfresh; [done |].
  assert (Hne : ptr_of_jlong receiverPtr <> calloc libc) by congruence.
  rewrite bind_when. cbv iota beta.
  rewrite bind_store. cbn [heap set_heap]. rewrite lookup_insert_eq.
  rewrite insert_insert_eq.
  rewrite bind_lock_wrapper. cbn [heap set_heap].
  rewrite lookup_insert_ne by done. rewrite Hw1.
  rewrite bind_emit.
  rewrite bind_store. cbn [heap set_heap]. rewrite lookup_insert_eq.
  rewrite insert_insert_eq.
  rewrite bind_unlock_wrapper. cbn [heap set_heap].
  rewrite lookup_insert_ne by done. rewrite Hw1.
  rewrite !prefix_prefix.
  apply locks_kept_prefix; [by apply well_locked_section |].
  rewrite !set_heap_set_heap.
  set (f := snd (NDIlib_recv_capture_v2 ndi _ false true _)).
  set (hd := NdiAudioFrameHandle.mk (NdiReceiverWrapper.recv wrapper) f 0 0).
  set (w2 := set_heap _ w1).
  assert (Hw2 : heap w2 !! ptr_of_jlong receiverPtr = Some (BReceiver wrapper)).
  { subst w2. cbn [heap set_heap]. by rewrite lookup_insert_ne. }
  assert (Hh2 : heap w2 !! calloc libc = Some (BAudioHandle hd)).
  { subst w2. cbn [heap set_heap]. by rewrite lookup_insert_eq. }
  rewrite bind_when. destruct (bool_decide _); cbn [negb].
  2: { rewrite bind_assoc, bind_free.
       apply Z.eqb_neq in Hc0 as ->. rewrite Hh2. by rewrite bind_Return. }
  rewrite bind_load_audio_handle, Hh2.
  change (NdiAudioFrameHandle.frame hd) with f.
  change (NdiAudioFrameHandle.recv hd) with (NdiReceiverWrapper.recv wrapper).
  rewrite bind_when.
  destruct ((NDIlib_audio_frame_v2_t.p_data f =? 0)
            || (NDIlib_audio_frame_v2_t.sample_rate f <=? 0)
            || (NDIlib_audio_frame_v2_t.no_channels f <=? 0)
            || (NDIlib_audio_frame_v2_t.no_samples f <=? 0)).
  { rewrite (release_audio_and_fail_run _ _ wrapper hd _ w2 Hw2 Hh2 Hc0).
    by apply well_locked_section. }
  rewrite bind_allocate. destruct (malloc libc =? 0) eqn:Hm0.
  { cbv beta. rewrite bind_store, Hh2.
    rewrite bind_when. change (0 =? 0) with true. cbv iota.
    set (hd' := NdiAudioFrameHandle.mk _ _ _ _).
    erewrite (release_audio_and_fail_run _ _ wrapper hd').
    - by apply well_locked_section.
    - cbn [heap set_heap]. by rewrite lookup_insert_ne.
    - cbn [heap set_heap]. by rewrite lookup_insert_eq.
    - done. }
  apply Z.eqb_neq in Hm0.
  destruct ((0 <? malloc libc) && (malloc libc <? 2 ^ 64)); [| done].
  destruct (heap w2 !! malloc libc) eqn:Hmfresh; [done |].
  assert (Hmc : malloc libc <> calloc libc) by congruence.
  assert (Hmp : ptr_of_jlong receiverPtr <> malloc libc) by congruence.
  cbv beta.
  rewrite bind_store. cbn [heap set_heap].
  rewrite lookup_insert_ne by done. rewrite Hh2.
  rewrite bind_when. cbv iota.
  rewrite !set_heap_set_heap.
  rewrite bind_load. cbn [heap set_heap].
  rewrite lookup_insert_ne by done. rewrite lookup_insert_eq.
  rewrite bind_store. cbn [heap set_heap].
  rewrite lookup_insert_ne by done. rewrite lookup_insert_eq.
  rewrite !set_heap_set_heap.
  set (hd' := NdiAudioFrameHandle.mk (NdiReceiverWrapper.recv wrapper) f (malloc libc)
                (interleaved_size f)).
  set (out := interleave _ _ _ _ _).
  set (w3 := set_heap _ w2).
  assert (Hw3 : heap w3 !! ptr_of_jlong receiverPtr = Some (BReceiver wrapper)).
  { subst w3. cbn [heap set_heap]. by rewrite !lookup_insert_ne. }
  assert (Hh3 : heap w3 !! calloc libc = Some (BAudioHandle hd')).
  { subst w3. cbn [heap set_heap]. rewrite lookup_insert_ne by done.
    by rewrite lookup_insert_eq. }
  assert (Hd3 : heap w3 !! malloc libc = Some (BFloats out)).
  { subst w3. cbn [heap set_heap]. by rewrite lookup_insert_eq. }
  assert (Hrel : forall (k : unit -> M (option AudioFrame.t) (option AudioFrame.t)),
    locks_kept (wrapper_mutex (ptr_of_jlong receiverPtr))
      (bind (release_audio_and_buffer_and_fail (ptr_of_jlong receiverPtr) (calloc libc))
         k w3)).
  { intros k.
    rewrite (release_audio_and_buffer_and_fail_run _ _ wrapper hd' out k w3 Hw3 Hh3 Hd3 Hc0 Hm0).
    by apply well_locked_section. }
  rewrite bind_when. destruct (NewDirectByteBuffer env _ _); cbn [negb]; [| apply Hrel].
  rewrite bind_get.
  rewrite bind_when. destruct (NewObject env _ _); cbn [negb]; [| apply Hrel].
  done.
Qed.

Lemma receiverGetPerformance_locking fp_contract ndi env receiverPtr w :
  locks_kept (wrapper_mutex (ptr_of_jlong receiverPtr))
    (receiverGetPerformance fp_contract ndi env receiverPtr w).
Proof.
  unfold receiverGetPerformance.
  rewrite bind_when. destruct (receiverPtr =? 0); [done |].
  cbv zeta.
  rewrite bind_when. destruct (ptr_of_jlong receiverPtr =? 0); [done |].
  rewrite bind_load_receiver.
  destruct (heap w !! ptr_of_jlong receiverPtr) as [[| wrapper | | |]|] eqn:Hw; try done.
  rewrite bind_when. destruct (NdiReceiverWrapper.recv wrapper =? 0); [done |].
  rewrite bind_invoke.
  destruct (ensure_jni_cache_events env w) as (ok & w1 & cevs & -> & Hh1 & Hcevs).
  apply locks_kept_prefix; [by destruct Hcevs as [-> | ->] |].
  rewrite bind_when. destruct (ok =? 0); [done |].
  rewrite bind_lock_wrapper, Hh1, Hw.
  rewrite bind_emit, bind_emit.
  rewrite bind_unlock_wrapper, Hh1, Hw.
  rewrite !prefix_prefix.
  apply locks_kept_prefix.
  { simpl. by rewrite !bool_decide_eq_true_2. }
  destruct (quality_score _ _ _ _); [rewrite bind_ret | by rewrite bind_undefined].
  rewrite bind_get.
  by destruct (NewObject env _ _).
Qed.

Lemma finderGetSources_locking ndi env finderPtr w :
  locks_kept (wrapper_mutex (ptr_of_jlong finderPtr))
    (finderGetSources ndi env finderPtr w).
Proof.
  unfold finderGetSources.
  rewrite bind_when. destruct (finderPtr =? 0); [done |].
  cbv zeta.
  rewrite bind_when. destruct (ptr_of_jlong finderPtr =? 0); [done |].
  rewrite bind_load_finder.
  destruct (heap w !! ptr_of_jlong finderPtr) as [[wrapper | | | |]|] eqn:Hw; try done.
  rewrite bind_when. destruct (NdiFinderWrapper.finder wrapper =? 0); [done |].
  rewrite bind_lock_wrapper, Hw.
  rewrite bind_emit.
  rewrite bind_when.
  destruct (FindClass env "java/lang/String" =? 0).
  { rewrite bind_assoc, bind_unlock_wrapper, Hw. rewrite bind_Return.
    simpl. by rewrite !bool_decide_eq_true_2. }
  destruct (new_object_array env _ _) as [result |].
  - destruct (for_range 0 _ _ _) as [result' |]; [| done].
    rewrite bind_unlock_wrapper, Hw. simpl. by rewrite !bool_decide_eq_true_2.
  - rewrite bind_unlock_wrapper, Hw. simpl. by rewrite !bool_decide_eq_true_2.
Qed.

(** What [receiverIsConnected] does on a live receiver. *)
Lemma receiverIsConnected_run ndi receiverPtr w wrapper :
  receiverPtr <> 0 -> ptr_of_jlong receiverPtr <> 0 ->
  heap w !! ptr_of_jlong receiverPtr = Some (BReceiver wrapper) ->
  call (receiverIsConnected ndi receiverPtr) w =
  if NdiReceiverWrapper.recv wrapper =? 0 then Some (false, w, [])
  else Some (0 <? NDIlib_recv_get_no_connections ndi (NdiReceiverWrapper.recv wrapper), w,
             [pthread_mutex_lock (wrapper_mutex (ptr_of_jlong receiverPtr));
              call_NDIlib_recv_get_no_connections (NdiReceiverWrapper.recv wrapper);
              pthread_mutex_unlock (wrapper_mutex (ptr_of_jlong receiverPtr))]).
Proof.
  intros Hne Hp Hw. apply Z.eqb_neq in Hne, Hp.
  unfold call, receiverIsConnected.
  rewrite bind_when, Hne. cbv zeta.
  rewrite bind_when, Hp.
  rewrite bind_load_receiver, Hw.
  rewrite bind_when. destruct (NdiReceiverWrapper.recv wrapper =? 0); [reflexivity |].
  rewrite bind_lock_wrapper, Hw.
  rewrite bind_emit.
  rewrite bind_unlock_wrapper, Hw. reflexivity.
Qed.

(** The events of [receiverFreeVideo] and [receiverFreeAudio] on a handle
    that is not empty. *)
Lemma receiverFreeVideo_events receiverPtr framePtr w w' evs :
  framePtr <> 0 -> ptr_of_jlong framePtr <> 0 ->
  call (receiverFreeVideo receiverPtr framePtr) w = Some (tt, w', evs) ->
  exists h,
    heap w !! ptr_of_jlong framePtr = Some (BVideoHandle h)
    /\ heap w' !! ptr_of_jlong framePtr = None
    /\ let release :=
         call_NDIlib_recv_free_video_v2 (NdiVideoFrameHandle.recv h)
           (NdiVideoFrameHandle.frame h) in
       evs = if ptr_of_jlong receiverPtr =? 0 then [release]
             else [pthread_mutex_lock (wrapper_mutex (ptr_of_jlong receiverPtr));
                   release;
                   pthread_mutex_unlock (wrapper_mutex (ptr_of_jlong receiverPtr))].
Proof.
  unfold call, receiverFreeVideo. intros Hf Hfp Hcall.
  apply Z.eqb_neq in Hf, Hfp.
  rewrite bind_when, Hf in Hcall. cbv zeta in Hcall.
  rewrite bind_when, Hfp in Hcall.
  rewrite bind_load_video_handle in Hcall.
  destruct (heap w !! ptr_of_jlong framePtr) as [[| | h | |]|] eqn:Hh; try done.
  exists h. split; [done |]. cbv zeta.
  assert (Htail :
    free (ptr_of_jlong framePtr) w
    = (Proceed tt (set_heap (delete (ptr_of_jlong framePtr) (heap w)) w) []
       : outcome unit unit)).
  { unfold free. by rewrite Hfp, Hh. }
  destruct (ptr_of_jlong receiverPtr =? 0) eqn:Hrp; cbn [negb] in Hcall.
  - rewrite bind_emit, Htail in Hcall. cbn [prefix app] in Hcall. simplify_eq.
    split; [apply lookup_delete_eq | done].
  - rewrite !bind_assoc, bind_lock_wrapper in Hcall.
    destruct (heap w !! ptr_of_jlong receiverPtr) as [[| | | |]|] eqn:Hr; try done.
    + rewrite !bind_assoc, bind_emit in Hcall.
      rewrite bind_unlock_wrapper, Hr in Hcall.
      rewrite Htail in Hcall. cbn [prefix app] in Hcall. simplify_eq.
      split; [apply lookup_delete_eq | done].
    + rewrite !bind_assoc, bind_emit in Hcall.
      rewrite bind_unlock_wrapper, Hr in Hcall.
      rewrite Htail in Hcall. cbn [prefix app] in Hcall. simplify_eq.
      split; [apply lookup_delete_eq | done].
Qed.

Lemma receiverFreeAudio_events receiverPtr framePtr w w' evs :
  framePtr <> 0 -> ptr_of_jlong framePtr <> 0 ->
  call (receiverFreeAudio receiverPtr framePtr) w = Some (tt, w', evs) ->
  exists h,
    heap w !! ptr_of_jlong framePtr = Some (BAudioHandle h)
    /\ heap w' !! ptr_of_jlong framePtr = None
    /\ let release :=
         call_NDIlib_recv_free_audio_v2 (NdiAudioFrameHandle.recv h)
           (NdiAudioFrameHandle.frame h) in
       evs = if ptr_of_jlong receiverPtr =? 0 then [release]
             else [pthread_mutex_lock (wrapper_mutex (ptr_of_jlong receiverPtr));
                   release;
                   pthread_mutex_unlock (wrapper_mutex (ptr_of_jlong receiverPtr))].
Proof.
  unfold call, receiverFreeAudio. intros Hf Hfp Hcall.
  apply Z.eqb_neq in Hf, Hfp.
  rewrite bind_when, Hf in Hcall. cbv zeta in Hcall.
  rewrite bind_when, Hfp in Hcall.
  rewrite bind_load_audio_handle in Hcall.
  destruct (heap w !! ptr_of_jlong framePtr) as [[| | | h |]|] eqn:Hh; try done.
  exists h. split; [done |]. cbv zeta.
  set (tail := bind (free (NdiAudioFrameHandle.interleaved_data h))
                 (fun _ => free (ptr_of_jlong framePtr))) in Hcall.
  assert (Htail : forall w0 : world, match (tail w0 : outcome unit unit) with
                  | Proceed _ w1 e => e = [] /\ heap w1 !! ptr_of_jlong framePtr = None
                  | Returned _ _ _ => False
                  | Undefined => True
                  end).
  { intros w0. subst tail. rewrite bind_free.
    destruct (NdiAudioFrameHandle.interleaved_data h =? 0).
    - unfold free. rewrite Hfp. destruct (heap w0 !! _); [| done].
      split; [done | apply lookup_delete_eq].
    - destruct (heap w0 !! NdiAudioFrameHandle.interleaved_data h); [| done].
      unfold free. rewrite Hfp. cbn [heap set_heap].
      destruct (delete _ _ !! _); [| done].
      split; [done | apply lookup_delete_eq]. }
  destruct (ptr_of_jlong receiverPtr =? 0) eqn:Hrp; cbn [negb] in Hcall.
  - rewrite bind_emit in Hcall. specialize (Htail w).
    destruct (tail w); cbn [prefix app] in Hcall; [| done | done].
    destruct Htail as [-> Hgone]. by simplify_eq.
  - rewrite !bind_assoc, bind_lock_wrapper in Hcall.
    destruct (heap w !! ptr_of_jlong receiverPtr) as [[| | | |]|] eqn:Hr; try done.
    + rewrite !bind_assoc, bind_emit in Hcall.
      rewrite bind_unlock_wrapper, Hr in Hcall. specialize (Htail w).
      destruct (tail w); cbn [prefix app] in Hcall; [| done | done].
      destruct Htail as [-> Hgone]. by simplify_eq.
    + rewrite !bind_assoc, bind_emit in Hcall.
      rewrite bind_unlock_wrapper, Hr in Hcall. specialize (Htail w).
      destruct (tail w); cbn [prefix app] in Hcall; [| done | done].
      destruct Htail as [-> Hgone]. by simplify_eq.
Qed.

Lemma receiverIsConnected_locking ndi receiverPtr w :
  locks_kept (wrapper_mutex (ptr_of_jlong receiverPtr)) (receiverIsConnected ndi receiverPtr w).
Proof.
  unfold receiverIsConnected.
  rewrite bind_when. destruct (receiverPtr =? 0); [done |].
  cbv zeta.
  rewrite bind_when. destruct (ptr_of_jlong receiverPtr =? 0); [done |].
  rewrite bind_load_receiver.
  destruct (heap w !! ptr_of_jlong receiverPtr) as [[| wrapper | | |]|] eqn:Hw; try done.
  rewrite bind_when. destruct (NdiReceiverWrapper.recv wrapper =? 0); [done |].
  rewrite bind_lock_wrapper, Hw.
  rewrite bind_emit.
  rewrite bind_unlock_wrapper, Hw.
  simpl. by rewrite !bool_decide_eq_true_2.
Qed.

Lemma locks_kept_call {R} owner (f : M R R) w r w' evs :
  locks_kept owner (f w) -> call f w = Some (r, w', evs) ->
  well_locked owner None evs = true.
Proof.
  unfold call. intros H Hc. destruct (f w); simpl in H; by simplify_eq.
Qed.

Lemma to_uint32_int timeoutMs :
  int_range timeoutMs ->
  to_uint32 timeoutMs = if timeoutMs <? 0 then timeoutMs + 2 ^ 32 else timeoutMs.
Proof.
  unfold int_range, to_uint32, to_unsigned. intros H.
  destruct (timeoutMs <? 0) eqn:Hn.
  - apply Z.ltb_lt in Hn. rewrite <- (Z_mod_plus_full timeoutMs 1).
    apply Z.mod_small. lia.
  - apply Z.ltb_ge in Hn. apply Z.mod_small. lia.
Qed.

(** ** The cache is resolved once *)

(** X1. On a cache that is not resolved yet, [ensure_jni_cache] takes the
    cache mutex once and releases it.  When it answers 1 the six
    references are resolved and every later call answers 1 at once,
    without the mutex and whatever the environment would answer; when it
    answers 0 the cache is still marked unresolved, so that a later call
    tries again. *)
Theorem ensure_jni_cache_resolves_once env w :
  g_jni_cache_initialized (cache w) = 0 ->
  exists ok w1,
    ensure_jni_cache env w
      = Returned ok w1
          [pthread_mutex_lock g_jni_cache_mutex; pthread_mutex_unlock g_jni_cache_mutex]
    /\ heap w1 = heap w
    /\ ((ok = 1 /\ cache_complete (cache w1)
         /\ forall env', ensure_jni_cache env' w1 = Returned 1 w1 [])
        \/ (ok = 0 /\ g_jni_cache_initialized (cache w1) = 0)).
Proof.
  intros H.
  destruct (ensure_jni_cache_resolve env w H)
    as (ok & w1 & Hrun & Hh & _ & [(-> & Hflag & Hc) | (-> & Hflag)]).
  - exists 1, w1. split; [done |]. split; [done |]. left.
    split; [done |]. split; [done |].
    intros env'. apply ensure_jni_cache_ready. by rewrite Hflag.
  - exists 0, w1. split; [done |]. split; [done |]. by right.
Qed.

Lemma ensure_jni_cache_resolves_once_witness :
  exists ok w1,
    ensure_jni_cache env_ok world_ready
      = Returned ok w1
          [pthread_mutex_lock g_jni_cache_mutex; pthread_mutex_unlock g_jni_cache_mutex]
    /\ heap w1 = heap world_ready
    /\ ((ok = 1 /\ cache_complete (cache w1)
         /\ forall env', ensure_jni_cache env' w1 = Returned 1 w1 [])
        \/ (ok = 0 /\ g_jni_cache_initialized (cache w1) = 0)).
Proof. apply (ensure_jni_cache_resolves_once env_ok world_ready). reflexivity. Defined.

(** ** Lock discipline *)

(** X2. In every call of [receiverCaptureVideo] and of
    [receiverCaptureAudio], the capture and the release of a frame happen
    while the mutex of the receiver is held; no mutex is taken while
    another is held, each is released by the unlock that follows, and
    none is held when the call returns, on the failure paths too. *)
Theorem captures_keep_lock_discipline ndi env libc receiverPtr timeoutMs w :
  (forall r w' evs,
     call (receiverCaptureVideo ndi env libc receiverPtr timeoutMs) w = Some (r, w', evs) ->
     well_locked (wrapper_mutex (ptr_of_jlong receiverPtr)) None evs = true)
  /\ (forall r w' evs,
        call (receiverCaptureAudio ndi env libc receiverPtr timeoutMs) w = Some (r, w', evs) ->
        well_locked (wrapper_mutex (ptr_of_jlong receiverPtr)) None evs = true).
Proof.
  split; intros r w' evs; apply locks_kept_call.
  - apply receiverCaptureVideo_locking.
  - apply receiverCaptureAudio_locking.
Qed.

Lemma captures_keep_lock_discipline_witness :
  (exists r w' evs,
     call (receiverCaptureVideo (engine_video frame_no_data) env_ok libc_ok 1000 50)
       world_ready = Some (r, w', evs)
     /\ well_locked (wrapper_mutex 1000) None evs = true)
  /\ (exists r w' evs,
        call (receiverCaptureAudio (engine_audio frame_stereo memory_stereo) env_ok libc_ok
                1000 50) world_ready = Some (r, w', evs)
        /\ well_locked (wrapper_mutex 1000) None evs = true).
Proof.
  split.
  - eexists _, _, _. split; [vm_compute; reflexivity |].
    eapply (proj1 (captures_keep_lock_discipline (engine_video frame_no_data) env_ok libc_ok
                     1000 50 world_ready)).
    vm_compute. reflexivity.
  - eexists _, _, _. split; [vm_compute; reflexivity |].
    eapply (proj2 (captures_keep_lock_discipline
                     (engine_audio frame_stereo memory_stereo) env_ok libc_ok
                     1000 50 world_ready)).
    vm_compute. reflexivity.
Defined.

(** X3. The queries [receiverGetPerformance], [receiverIsConnected] and
    [finderGetSources] call the engine only while the mutex of their
    wrapper is held, and hold no mutex when they return. *)
Theorem queries_keep_lock_discipline fp_contract ndi env handle w :
  (forall r w' evs,
     call (receiverGetPerformance fp_contract ndi env handle) w = Some (r, w', evs) ->
     well_locked (wrapper_mutex (ptr_of_jlong handle)) None evs = true)
  /\ (forall r w' evs,
        call (receiverIsConnected ndi handle) w = Some (r, w', evs) ->
        well_locked (wrapper_mutex (ptr_of_jlong handle)) None evs = true)
  /\ (forall r w' evs,
        call (finderGetSources ndi env handle) w = Some (r, w', evs) ->
        well_locked (wrapper_mutex (ptr_of_jlong handle)) None evs = true).
Proof.
  repeat split; intros r w' evs; apply locks_kept_call.
  - apply receiverGetPerformance_locking.
  - apply receiverIsConnected_locking.
  - apply finderGetSources_locking.
Qed.

Lemma queries_keep_lock_discipline_witness :
  (exists r w' evs,
     call (receiverGetPerformance true (engine_performance 1 100 55) env_ok 1000) world_ready
       = Some (r, w', evs)
     /\ well_locked (wrapper_mutex 1000) None evs = true)
  /\ (exists r w' evs,
        call (receiverIsConnected (engine_performance 1 100 55) 1000) world_ready
          = Some (r, w', evs)
        /\ well_locked (wrapper_mutex 1000) None evs = true)
  /\ (exists r w' evs,
        call (finderGetSources (engine_performance 1 100 55) env_ok 1100) world_ready
          = Some (r, w', evs)
        /\ well_locked (wrapper_mutex 1100) None evs = true).
Proof.
  split; [| split].
  - eexists _, _, _. split; [vm_compute; reflexivity |].
    eapply (proj1 (queries_keep_lock_discipline true (engine_performance 1 100 55) env_ok
                     1000 world_ready)).
    vm_compute. reflexivity.
  - eexists _, _, _. split; [vm_compute; reflexivity |].
    eapply (proj1 (proj2 (queries_keep_lock_discipline true (engine_performance 1 100 55) env_ok
                            1000 world_ready))).
    vm_compute. reflexivity.
  - eexists _, _, _. split; [vm_compute; reflexivity |].
    eapply (proj2 (proj2 (queries_keep_lock_discipline true (engine_performance 1 100 55) env_ok
                            1100 world_ready))).
    vm_compute. reflexivity.
Defined.

(** X4. [receiverFreeVideo] and [receiverFreeAudio], given a frame handle
    that is not empty, give the frame recorded in the handle back to the
    engine exactly once and free the handle: between the lock and the
    unlock of the receiver's mutex when they are given the receiver, and
    without any mutex when the receiver handle is empty. *)
Theorem free_releases_frame_once receiverPtr framePtr w :
  framePtr <> 0 -> ptr_of_jlong framePtr <> 0 ->
  let section (release : event) :=
    if ptr_of_jlong receiverPtr =? 0 then [release]
    else [pthread_mutex_lock (wrapper_mutex (ptr_of_jlong receiverPtr));
          release;
          pthread_mutex_unlock (wrapper_mutex (ptr_of_jlong receiverPtr))] in
  (forall w' evs,
     call (receiverFreeVideo receiverPtr framePtr) w = Some (tt, w', evs) ->
     exists h,
       heap w !! ptr_of_jlong framePtr = Some (BVideoHandle h)
       /\ heap w' !! ptr_of_jlong framePtr = None
       /\ evs = section (call_NDIlib_recv_free_video_v2 (NdiVideoFrameHandle.recv h)
                           (NdiVideoFrameHandle.frame h)))
  /\ (forall w' evs,
        call (receiverFreeAudio receiverPtr framePtr) w = Some (tt, w', evs) ->
        exists h,
          heap w !! ptr_of_jlong framePtr = Some (BAudioHandle h)
          /\ heap w' !! ptr_of_jlong framePtr = None
          /\ evs = section (call_NDIlib_recv_free_audio_v2 (NdiAudioFrameHandle.recv h)
                              (NdiAudioFrameHandle.frame h))).
Proof.
  intros Hf Hfp section. split; intros w' evs Hcall.
  - by apply receiverFreeVideo_events.
  - by apply receiverFreeAudio_events.
Qed.

Lemma free_releases_frame_once_witness :
  (exists w' evs,
     call (receiverFreeVideo 0 2000) world_with_frames = Some (tt, w', evs)
     /\ heap w' !! 2000 = None
     /\ evs = [call_NDIlib_recv_free_video_v2 77 frame_bottom_up])
  /\ (exists w' evs,
        call (receiverFreeAudio 1000 2100) world_with_frames = Some (tt, w', evs)
        /\ heap w' !! 2100 = None
        /\ evs = [pthread_mutex_lock (wrapper_mutex 1000);
                  call_NDIlib_recv_free_audio_v2 77 frame_stereo;
                  pthread_mutex_unlock (wrapper_mutex 1000)]).
Proof.
  split.
  - eexists _, _. split; [vm_compute; reflexivity |].
    edestruct (proj1 (free_releases_frame_once 0 2000 world_with_frames
                        ltac:(discriminate) ltac:(vm_compute; discriminate)))
      as (h & Hh & Hgone & Hevs).
    { vm_compute. reflexivity. }
    vm_compute in Hh. injection Hh as <-. split; [exact Hgone | exact Hevs].
  - eexists _, _. split; [vm_compute; reflexivity |].
    edestruct (proj2 (free_releases_frame_once 1000 2100 world_with_frames
                        ltac:(discriminate) ltac:(vm_compute; discriminate)))
      as (h & Hh & Hgone & Hevs).
    { vm_compute. reflexivity. }
    vm_compute in Hh. injection Hh as <-. split; [exact Hgone | exact Hevs].
Defined.

(** ** Frame handles *)

(** X5. A frame handle is dead once it was freed: after a
    [receiverFreeVideo] (or [receiverFreeAudio]) of a handle that is not
    empty, a second free of the same handle, with whatever receiver
    handle, reads the freed handle struct and has no defined behaviour. *)
Theorem second_free_is_undefined receiverPtr framePtr w w' evs :
  framePtr <> 0 -> ptr_of_jlong framePtr <> 0 ->
  (call (receiverFreeVideo receiverPtr framePtr) w = Some (tt, w', evs) ->
   forall receiverPtr', call (receiverFreeVideo receiverPtr' framePtr) w' = None)
  /\ (call (receiverFreeAudio receiverPtr framePtr) w = Some (tt, w', evs) ->
      forall receiverPtr', call (receiverFreeAudio receiverPtr' framePtr) w' = None).
Proof.
  intros Hf Hfp. split; intros Hcall receiverPtr'.
  - destruct (receiverFreeVideo_events _ _ _ _ _ Hf Hfp Hcall) as (h & _ & Hgone & _).
    apply Z.eqb_neq in Hf, Hfp. unfold call, receiverFreeVideo.
    rewrite bind_when, Hf. cbv zeta. rewrite bind_when, Hfp.
    by rewrite bind_load_video_handle, Hgone.
  - destruct (receiverFreeAudio_events _ _ _ _ _ Hf Hfp Hcall) as (h & _ & Hgone & _).
    apply Z.eqb_neq in Hf, Hfp. unfold call, receiverFreeAudio.
    rewrite bind_when, Hf. cbv zeta. rewrite bind_when, Hfp.
    by rewrite bind_load_audio_handle, Hgone.
Qed.

Lemma second_free_is_undefined_witness :
  (exists w' evs,
     call (receiverFreeVideo 1000 2000) world_with_frames = Some (tt, w', evs)
     /\ call (receiverFreeVideo 1000 2000) w' = None)
  /\ (exists w' evs,
        call (receiverFreeAudio 1000 2100) world_with_frames = Some (tt, w', evs)
        /\ call (receiverFreeAudio 0 2100) w' = None).
Proof.
  split.
  - eexists _, _. split; [vm_compute; reflexivity |].
    eapply (proj1 (second_free_is_undefined 1000 2000 world_with_frames _ _
                     ltac:(discriminate) ltac:(vm_compute; discriminate))).
    vm_compute. reflexivity.
  - eexists _, _. split; [vm_compute; reflexivity |].
    eapply (proj2 (second_free_is_undefined 1000 2100 world_with_frames _ _
                     ltac:(discriminate) ltac:(vm_compute; discriminate))).
    vm_compute. reflexivity.
Defined.

(** X6. After a successful [receiverCaptureVideo], [receiverFreeVideo]
    on the handle of the frame, given the receiver or an empty receiver
    handle, gives the captured frame back to the engine, once, and leaves
    the heap as it was before the capture. *)
Theorem freeVideo_undoes_captureVideo ndi env libc receiverPtr timeoutMs w obj w' evs :
  call (receiverCaptureVideo ndi env libc receiverPtr timeoutMs) w = Some (Some obj, w', evs) ->
  exists wrapper frame,
    heap w !! ptr_of_jlong receiverPtr = Some (BReceiver wrapper)
    /\ fst (NDIlib_recv_capture_v2 ndi (NdiReceiverWrapper.recv wrapper) true false
              (to_uint32 timeoutMs)) = (NDIlib_frame_type_video, frame)
    /\ forall receiverPtr',
         ptr_of_jlong receiverPtr' = 0 \/ ptr_of_jlong receiverPtr' = ptr_of_jlong receiverPtr ->
         exists w'' evs',
           call (receiverFreeVideo receiverPtr' (VideoFrame.frameHandle obj)) w'
             = Some (tt, w'', evs')
           /\ engine_calls evs' =
                [call_NDIlib_recv_free_video_v2 (NdiReceiverWrapper.recv wrapper) frame]
           /\ heap w'' = heap w.
Proof.
  intros Hcall.
  pose proof (receiverCaptureVideo_call _ _ _ _ _ _ _ _ _ Hcall) as Hres.
  inversion Hres as [| | | wrapper w0 evs0 Hl Hv Hd Hs Hf Hh He]; subst.
  destruct Hl as (_ & _ & Hw & _). destruct Hf as (Hc0 & Hca & Hcn).
  set (frame := snd (video_captured ndi timeoutMs wrapper)) in *.
  set (h := NdiVideoFrameHandle.mk (NdiReceiverWrapper.recv wrapper) frame) in *.
  exists wrapper, frame. split; [done |]. split.
  { unfold video_captured in *. subst frame. rewrite <- Hv. by destruct (fst _). }
  intros receiverPtr' Hr.
  cbn [new_VideoFrame VideoFrame.frameHandle].
  edestruct (receiverFreeVideo_run receiverPtr' (jlong_of_ptr (calloc libc)) w' h)
    as (evs' & Hfree & He').
  - by apply jlong_of_ptr_nonzero.
  - by rewrite ptr_of_jlong_of_ptr.
  - rewrite ptr_of_jlong_of_ptr by done. rewrite Hh. apply lookup_insert_eq.
  - destruct Hr as [Hr | Hr]; [by left |]. right. exists wrapper.
    rewrite Hr, Hh. rewrite lookup_insert_ne by congruence. done.
  - eexists _, evs'. split; [exact Hfree |]. split; [exact He' |].
    rewrite ptr_of_jlong_of_ptr by done. cbn [heap set_heap]. rewrite Hh.
    by apply delete_insert_id.
Qed.

Lemma freeVideo_undoes_captureVideo_witness :
  exists obj w' evs,
    call (receiverCaptureVideo (engine_video frame_bottom_up) env_ok libc_ok 1000 50)
      world_ready = Some (Some obj, w', evs)
    /\ exists w'' evs',
         call (receiverFreeVideo 0 (VideoFrame.frameHandle obj)) w' = Some (tt, w'', evs')
         /\ engine_calls evs' = [call_NDIlib_recv_free_video_v2 77 frame_bottom_up]
         /\ heap w'' = heap world_ready.
Proof.
  eexists _, _, _. split; [vm_compute; reflexivity |].
  edestruct (freeVideo_undoes_captureVideo (engine_video frame_bottom_up) env_ok libc_ok
               1000 50 world_ready) as (wrapper & frame & Hw & Hans & Hfree).
  { vm_compute. reflexivity. }
  vm_compute in Hw. injection Hw as <-.
  vm_compute in Hans. injection Hans as <-.
  apply (Hfree 0). left. reflexivity.
Defined.

(** ** Captures that return empty *)

(** X7. A [receiverCaptureVideo] that returns empty leaves the heap as
    it was (no handle struct is left behind), and it has given back to
    the engine the video frame it obtained, if it obtained one: its calls
    into the engine are none, or the capture alone when the answer is not
    a video frame, or the capture and the release of the frame answered. *)
Theorem captureVideo_empty_leaves_nothing ndi env libc receiverPtr timeoutMs w w' evs :
  call (receiverCaptureVideo ndi env libc receiverPtr timeoutMs) w = Some (None, w', evs) ->
  heap w' = heap w
  /\ (engine_calls evs = []
      \/ exists wrapper,
           heap w !! ptr_of_jlong receiverPtr = Some (BReceiver wrapper)
           /\ let recv := NdiReceiverWrapper.recv wrapper in
              let answer := fst (NDIlib_recv_capture_v2 ndi recv true false
                                   (to_uint32 timeoutMs)) in
              engine_calls evs =
                call_NDIlib_recv_capture_v2 recv true false (to_uint32 timeoutMs)
                :: (if decide (fst answer = NDIlib_frame_type_video)
                    then [call_NDIlib_recv_free_video_v2 recv (snd answer)]
                    else [])).
Proof.
  intros Hcall. apply receiverCaptureVideo_call in Hcall.
  inversion Hcall as [w0 evs0 Hh He | wrapper w0 evs0 Hl Hv Hh He
                     | wrapper w0 evs0 Hl Hv Hh He |]; subst.
  - split; [done | by left].
  - split; [done |]. right. exists wrapper. destruct Hl as (_ & _ & Hw & _).
    split; [done |]. cbv zeta. unfold video_captured in Hv.
    rewrite decide_False by done. exact He.
  - split; [done |]. right. exists wrapper. destruct Hl as (_ & _ & Hw & _).
    split; [done |]. cbv zeta. unfold video_captured in Hv.
    rewrite decide_True by done. exact He.
Qed.

Lemma captureVideo_empty_leaves_nothing_witness :
  exists w' evs,
    call (receiverCaptureVideo (engine_video frame_no_data) env_ok libc_ok 1000 50)
      world_ready = Some (None, w', evs)
    /\ heap w' = heap world_ready
    /\ engine_calls evs =
         [call_NDIlib_recv_capture_v2 77 true false 50;
          call_NDIlib_recv_free_video_v2 77 frame_no_data].
Proof.
  eexists _, _. split; [vm_compute; reflexivity |].
  edestruct (captureVideo_empty_leaves_nothing (engine_video frame_no_data) env_ok libc_ok
               1000 50 world_ready) as (Hh & [He | (wrapper & Hw & He)]).
  { vm_compute. reflexivity. }
  - vm_compute in He. discriminate.
  - split; [exact Hh |]. vm_compute in Hw. injection Hw as <-. exact He.
Defined.

(** X8. A [receiverCaptureAudio] that returns empty leaves the heap as
    it was (neither the handle struct nor the interleaved buffer is left
    behind), and it has given back to the engine the audio frame it
    obtained, if it obtained one. *)
Theorem captureAudio_empty_leaves_nothing ndi env libc receiverPtr timeoutMs w w' evs :
  call (receiverCaptureAudio ndi env libc receiverPtr timeoutMs) w = Some (None, w', evs) ->
  heap w' = heap w
  /\ (engine_calls evs = []
      \/ exists wrapper,
           heap w !! ptr_of_jlong receiverPtr = Some (BReceiver wrapper)
           /\ let recv := NdiReceiverWrapper.recv wrapper in
              let answer := NDIlib_recv_capture_v2 ndi recv false true
                              (to_uint32 timeoutMs) in
              engine_calls evs =
                call_NDIlib_recv_capture_v2 recv false true (to_uint32 timeoutMs)
                :: (if decide (fst (fst answer) = NDIlib_frame_type_audio)
                    then [call_NDIlib_recv_free_audio_v2 recv (snd answer)]
                    else [])).
Proof.
  intros Hcall. apply receiverCaptureAudio_call in Hcall.
  inversion Hcall as [w0 evs0 Hh He | wrapper w0 evs0 Hl Hv Hh He
                     | wrapper w0 evs0 Hl Hv Hh He |]; subst.
  - split; [done | by left].
  - split; [done |]. right. exists wrapper. destruct Hl as (_ & _ & Hw & _).
    split; [done |]. cbv zeta. unfold audio_captured in Hv. cbn [fst] in Hv.
    rewrite decide_False by done. exact He.
  - split; [done |]. right. exists wrapper. destruct Hl as (_ & _ & Hw & _).
    split; [done |]. cbv zeta. unfold audio_captured in Hv. cbn [fst] in Hv.
    rewrite decide_True by done. exact He.
Qed.

Lemma captureAudio_empty_leaves_nothing_witness :
  exists w' evs,
    call (receiverCaptureAudio (engine_audio frame_no_channels memory_stereo) env_ok libc_ok
            1000 50) world_ready = Some (None, w', evs)
    /\ heap w' = heap world_ready
    /\ engine_calls evs =
         [call_NDIlib_recv_capture_v2 77 false true 50;
          call_NDIlib_recv_free_audio_v2 77 frame_no_channels].
Proof.
  eexists _, _. split; [vm_compute; reflexivity |].
  edestruct (captureAudio_empty_leaves_nothing (engine_audio frame_no_channels memory_stereo)
               env_ok libc_ok 1000 50 world_ready) as (Hh & [He | (wrapper & Hw & He)]).
  { vm_compute. reflexivity. }
  - vm_compute in He. discriminate.
  - split; [exact Hh |]. vm_compute in Hw. injection Hw as <-. exact He.
Defined.

(** ** Timeouts *)

(** X9. The timeout of a capture reaches the engine as an unsigned
    32-bit number: a timeout that is not negative is passed as it is, a
    negative one as [2^32 + timeoutMs] milliseconds (more than 24 days),
    not as no wait. *)
Theorem capture_timeout_is_unsigned ndi env libc receiverPtr timeoutMs w :
  int_range timeoutMs ->
  let waited := if timeoutMs <? 0 then timeoutMs + 2 ^ 32 else timeoutMs in
  (forall r w' evs recv video audio timeout,
     call (receiverCaptureVideo ndi env libc receiverPtr timeoutMs) w = Some (r, w', evs) ->
     In (call_NDIlib_recv_capture_v2 recv video audio timeout) evs ->
     timeout = waited)
  /\ (forall r w' evs recv video audio timeout,
        call (receiverCaptureAudio ndi env libc receiverPtr timeoutMs) w = Some (r, w', evs) ->
        In (call_NDIlib_recv_capture_v2 recv video audio timeout) evs ->
        timeout = waited).
Proof.
  intros Hrange waited. subst waited. rewrite <- (to_uint32_int _ Hrange).
  split; intros r w' evs recv video audio timeout Hcall Hin;
    apply capture_call_in_engine_calls in Hin.
  - apply receiverCaptureVideo_call in Hcall.
    inversion Hcall; subst;
      match goal with He : engine_calls _ = _ |- _ => rewrite He in Hin end;
      unfold video_capture_call in Hin; simpl in Hin; intuition congruence.
  - apply receiverCaptureAudio_call in Hcall.
    inversion Hcall; subst;
      match goal with He : engine_calls _ = _ |- _ => rewrite He in Hin end;
      unfold audio_capture_call in Hin; simpl in Hin; intuition congruence.
Qed.

Lemma capture_timeout_is_unsigned_witness :
  exists r w' evs,
    call (receiverCaptureVideo (engine_video frame_bottom_up) env_ok libc_ok 1000 (-1))
      world_ready = Some (r, w', evs)
    /\ In (call_NDIlib_recv_capture_v2 77 true false 4294967295) evs
    /\ forall recv video audio timeout,
         In (call_NDIlib_recv_capture_v2 recv video audio timeout) evs ->
         timeout = 4294967295.
Proof.
  eexists _, _, _. split; [vm_compute; reflexivity |].
  split; [vm_compute; tauto |].
  intros recv video audio timeout.
  refine (proj1 (capture_timeout_is_unsigned (engine_video frame_bottom_up) env_ok libc_ok
                   1000 (-1) world_ready _) _ _ _ recv video audio timeout _).
  - vm_compute. split; [discriminate | reflexivity].
  - vm_compute. reflexivity.
Defined.

(** ** Connection state *)

(** X10. [receiverIsConnected] answers whether the engine counts at least
    one connection of the receiver, asked under the receiver's mutex, and
    changes nothing; its answer agrees with [receiverGetPerformance]: for
    a receiver that is reported as not connected the quality score is 0. *)
Theorem isConnected_agrees_with_quality
    fp_contract ndi env receiverPtr w connected w1 evs1 perf w2 evs2 :
  call (receiverIsConnected ndi receiverPtr) w = Some (connected, w1, evs1) ->
  call (receiverGetPerformance fp_contract ndi env receiverPtr) w
    = Some (Some perf, w2, evs2) ->
  exists wrapper,
    heap w !! ptr_of_jlong receiverPtr = Some (BReceiver wrapper)
    /\ connected = (0 <? NDIlib_recv_get_no_connections ndi (NdiReceiverWrapper.recv wrapper))
    /\ evs1 = [pthread_mutex_lock (wrapper_mutex (ptr_of_jlong receiverPtr));
               call_NDIlib_recv_get_no_connections (NdiReceiverWrapper.recv wrapper);
               pthread_mutex_unlock (wrapper_mutex (ptr_of_jlong receiverPtr))]
    /\ w1 = w
    /\ (connected = false -> ReceiverPerformance.qualityScore perf = 0).
Proof.
  intros Hc Hp.
  destruct (receiverGetPerformance_success _ _ _ _ _ _ _ _ Hp) as (wrapper & Hw & Hq).
  exists wrapper. split; [done |].
  assert (Hne : receiverPtr <> 0 /\ ptr_of_jlong receiverPtr <> 0
                /\ NdiReceiverWrapper.recv wrapper <> 0).
  { unfold call, receiverGetPerformance in Hp.
    rewrite bind_when in Hp. destruct (receiverPtr =? 0) eqn:H1; [done |].
    cbv zeta in Hp.
    rewrite bind_when in Hp. destruct (ptr_of_jlong receiverPtr =? 0) eqn:H2; [done |].
    rewrite bind_load_receiver, Hw in Hp.
    rewrite bind_when in Hp. destruct (NdiReceiverWrapper.recv wrapper =? 0) eqn:H3; [done |].
    by apply Z.eqb_neq in H1, H2, H3. }
  destruct Hne as (H1 & H2 & H3).
  rewrite (receiverIsConnected_run ndi receiverPtr w wrapper H1 H2 Hw) in Hc.
  apply Z.eqb_neq in H3. rewrite H3 in Hc. simplify_eq.
  repeat split; try done.
  intros Hn. apply Z.ltb_ge in Hn.
  rewrite quality_score_disconnected in Hq by done. congruence.
Qed.

Lemma isConnected_agrees_with_quality_witness :
  exists connected w1 evs1 perf w2 evs2,
    call (receiverIsConnected (engine_performance 0 100 55) 1000) world_ready
      = Some (connected, w1, evs1)
    /\ call (receiverGetPerformance false (engine_performance 0 100 55) env_ok 1000)
         world_ready
       = Some (Some perf, w2, evs2)
    /\ connected = false
    /\ ReceiverPerformance.qualityScore perf = 0.
Proof.
  eexists _, _, _, _, _, _.
  split; [vm_compute; reflexivity |]. split; [vm_compute; reflexivity |].
  split; [reflexivity |].
  edestruct (isConnected_agrees_with_quality false (engine_performance 0 100 55) env_ok 1000
               world_ready) as (wrapper & _ & _ & _ & _ & Hq).
  { vm_compute. reflexivity. }
  { vm_compute. reflexivity. }
  apply Hq. reflexivity.
Defined.

(** ** Library lifecycle, continued *)

(** X11. An [initialize] that fails (the engine does not start) leaves
    the library not initialized.  After an [initialize] that succeeded,
    [destroy] stops the engine once and leaves the library not
    initialized, and the next [initialize] starts the engine again. *)
Theorem initialize_destroy_round_trip ndi w r w1 evs :
  call (initialize ndi) w = Some (r, w1, evs) ->
  (r = false ->
   w1 = w /\ call isInitialized w1 = Some (false, w1, []))
  /\ (r = true ->
      exists w2,
        call destroy w1
        = Some (tt, w2,
                [pthread_mutex_lock g_init_mutex; call_NDIlib_destroy;
                 pthread_mutex_unlock g_init_mutex])
        /\ call isInitialized w2 = Some (false, w2, [])
        /\ heap w2 = heap w1
        /\ forall ndi',
             NDIlib_initialize ndi' = true ->
             exists w3,
               call (initialize ndi') w2
               = Some (true, w3,
                       [pthread_mutex_lock g_init_mutex; call_NDIlib_initialize;
                        pthread_mutex_unlock g_init_mutex])
               /\ call isInitialized w3 = Some (true, w3, [])).
Proof.
  intros Hcall. rewrite initialize_run in Hcall.
  assert (Hq : forall w0, call isInitialized w0 = Some (negb (g_initialized w0 =? 0), w0, [])).
  { intros w0. unfold call, isInitialized. by rewrite bind_get. }
  split; intros ->.
  - destruct (g_initialized w =? 0) eqn:Hg; cbn [negb] in Hcall; [| done].
    destruct (NDIlib_initialize ndi); [done |]. simplify_eq.
    split; [done |]. by rewrite Hq, Hg.
  - assert (Hinit : (g_initialized w1 =? 0) = false).
    { destruct (g_initialized w =? 0) eqn:Hg; cbn [negb] in Hcall.
      - destruct (NDIlib_initialize ndi); [| done]. by simplify_eq.
      - by simplify_eq. }
    exists (set_g_initialized 0 w1).
    rewrite destroy_run, Hinit. split; [done |].
    split; [by rewrite Hq |]. split; [done |].
    intros ndi' Hok. exists (set_g_initialized 1 (set_g_initialized 0 w1)).
    rewrite initialize_run. cbn [g_initialized set_g_initialized Z.eqb negb].
    rewrite Hok. split; [done |]. by rewrite Hq.
Qed.

Lemma initialize_destroy_round_trip_witness :
  call isInitialized world_fresh = Some (false, world_fresh, [])
  /\ exists w2,
       call destroy (set_g_initialized 1 world_fresh)
       = Some (tt, w2,
               [pthread_mutex_lock g_init_mutex; call_NDIlib_destroy;
                pthread_mutex_unlock g_init_mutex])
       /\ call isInitialized w2 = Some (false, w2, []).
Proof.
  split.
  - refine (proj2 (proj1 (initialize_destroy_round_trip engine_down world_fresh false
                            world_fresh
                            [pthread_mutex_lock g_init_mutex; call_NDIlib_initialize;
                             pthread_mutex_unlock g_init_mutex] _) eq_refl)).
    vm_compute. reflexivity.
  - assert (Hrun : call (initialize (engine_video frame_bottom_up)) world_fresh
                   = Some (true, set_g_initialized 1 world_fresh,
                           [pthread_mutex_lock g_init_mutex; call_NDIlib_initialize;
                            pthread_mutex_unlock g_init_mutex]))
      by (vm_compute; reflexivity).
    destruct (proj2 (initialize_destroy_round_trip _ _ _ _ _ Hrun) eq_refl)
      as (w2 & Hd & Hq & _).
    exists w2. split; [exact Hd | exact Hq].
Defined.

(** ** The names of the sources *)

(** X12. For a live finder whose engine reports [no_sources] sources
    (fewer than 2^31, in an array that long, or no array at all),
    [finderGetSources] returns, when the string class is found and the
    array is made, an array of [no_sources] entries in the order of the
    engine: entry [i] is the name of source [i], the empty string when
    the name or the array is NULL, and a null reference when the string
    could not be made.  The call changes nothing and asks the engine
    once, under the mutex of the finder. *)
Theorem finderGetSources_copies_names ndi env finderPtr w wrapper :
  finderPtr <> 0 -> ptr_of_jlong finderPtr <> 0 ->
  heap w !! ptr_of_jlong finderPtr = Some (BFinder wrapper) ->
  NdiFinderWrapper.finder wrapper <> 0 ->
  let sources := fst (NDIlib_find_get_current_sources ndi (NdiFinderWrapper.finder wrapper)) in
  let no_sources :=
    to_uint32 (snd (NDIlib_find_get_current_sources ndi (NdiFinderWrapper.finder wrapper))) in
  no_sources < 2 ^ 31 ->
  FindClass env "java/lang/String" <> 0 ->
  NewObjectArray env no_sources (FindClass env "java/lang/String") = true ->
  (forall i, 0 <= i < no_sources -> is_Some (source_name_at sources i)) ->
  exists result,
    call (finderGetSources ndi env finderPtr) w
    = Some (Some result, w,
            [pthread_mutex_lock (wrapper_mutex (ptr_of_jlong finderPtr));
             call_NDIlib_find_get_current_sources (NdiFinderWrapper.finder wrapper);
             pthread_mutex_unlock (wrapper_mutex (ptr_of_jlong finderPtr))])
    /\ length result = Z.to_nat no_sources
    /\ forall i name_c,
         0 <= i < no_sources ->
         source_name_at sources i = Some name_c ->
         let utf := default EmptyString name_c in
         result !! Z.to_nat i = Some (if NewStringUTF env utf then Some utf else None).
Proof.
  intros Hne Hp Hlive Hf sources no_sources Hn Hclass Harr Hlong.
  pose proof (finderGetSources_array ndi env finderPtr w wrapper Hne Hp Hlive Hf) as Hrun.
  cbv zeta in Hrun. fold sources no_sources in Hrun.
  assert (H0 : 0 <= no_sources).
  { subst no_sources. unfold to_uint32, to_unsigned. apply Z.mod_pos_bound. lia. }
  apply Z.eqb_neq in Hclass. rewrite Hclass in Hrun.
  unfold new_object_array in Hrun.
  rewrite (to_jint_id no_sources) in Hrun by (unfold int_range; lia).
  assert (Hnn : (no_sources <? 0) = false) by (apply Z.ltb_ge; lia).
  rewrite Hnn, Harr in Hrun.
  set (n := Z.to_nat no_sources) in *.
  set (entry := fun name_c : option string =>
                  let utf := match name_c with Some s => s | None => EmptyString end in
                  if NewStringUTF env utf then Some utf else None).
  assert (Hloop :
    exists arr,
      for_range 0 no_sources (copy_source_name env sources) (Some (replicate n None))
      = Some arr
      /\ length arr = n
      /\ (forall j name_c,
            0 <= j < no_sources -> source_name_at sources j = Some name_c ->
            arr !! Z.to_nat j = Some (entry name_c))
      /\ (forall j, no_sources <= j < no_sources -> arr !! Z.to_nat j = Some None)).
  { apply (for_range_invariant
             (fun i r => exists arr,
                r = Some arr /\ length arr = n
                /\ (forall j name_c,
                      0 <= j < i -> source_name_at sources j = Some name_c ->
                      arr !! Z.to_nat j = Some (entry name_c))
                /\ (forall j, i <= j < no_sources -> arr !! Z.to_nat j = Some None))).
    - done.
    - exists (replicate n None). split; [done |]. split; [apply length_replicate |].
      split; [intros; lia |].
      intros j Hj. apply lookup_replicate. split; [done |]. subst n. lia.
    - intros i r Hi (arr & -> & Hlen & Hdone & Hrest).
      destruct (Hlong i Hi) as [name_c Hname].
      unfold copy_source_name. rewrite Hname.
      rewrite (to_jint_id i) by (unfold int_range; lia).
      destruct (NewStringUTF env _) eqn:Hutf.
      + unfold SetObjectArrayElement.
        assert (Hin : (0 <=? i) && (i <? Z.of_nat (length arr)) = true).
        { apply andb_true_iff. split; [apply Z.leb_le; lia |].
          apply Z.ltb_lt. rewrite Hlen. subst n. lia. }
        rewrite Hin. eexists. split; [reflexivity |].
        split; [by rewrite length_insert |]. split.
        * intros j name_j Hj Hnj. destruct (decide (j = i)) as [-> | Hji].
          -- rewrite list_lookup_insert_eq by (rewrite Hlen; subst n; lia).
             rewrite Hname in Hnj. injection Hnj as <-.
             unfold entry. cbv zeta. by rewrite Hutf.
          -- rewrite list_lookup_insert_ne by lia. apply Hdone; [lia | done].
        * intros j Hj. rewrite list_lookup_insert_ne by lia. apply Hrest. lia.
      + exists arr. split; [done |]. split; [done |]. split.
        * intros j name_j Hj Hnj. destruct (decide (j = i)) as [-> | Hji].
          -- rewrite Hname in Hnj. injection Hnj as <-.
             unfold entry. cbv zeta. rewrite Hutf. apply Hrest. lia.
          -- apply Hdone; [lia | done].
        * intros j Hj. apply Hrest. lia. }
  destruct Hloop as (arr & Hfor & Hlen & Hnames & _).
  rewrite Hfor in Hrun. exists arr. split; [exact Hrun |]. split; [exact Hlen |].
  intros i name_c Hi Hname. exact (Hnames i name_c Hi Hname).
Qed.

Lemma finderGetSources_copies_names_witness :
  exists result,
    call (finderGetSources engine_sources env_ok 1100) world_ready
    = Some (Some result, world_ready,
            [pthread_mutex_lock (wrapper_mutex 1100);
             call_NDIlib_find_get_current_sources 88;
             pthread_mutex_unlock (wrapper_mutex 1100)])
    /\ length result = 3%nat
    /\ result !! 0%nat = Some (Some "STUDIO (Camera 1)"%string)
    /\ result !! 1%nat = Some (Some EmptyString)
    /\ result !! 2%nat = Some (Some "STUDIO (Camera 3)"%string).
Proof.
  edestruct (finderGetSources_copies_names engine_sources env_ok 1100 world_ready
               (NdiFinderWrapper.mk 88)) as (result & Hcall & Hlen & Hnames).
  - discriminate.
  - vm_compute. discriminate.
  - vm_compute. reflexivity.
  - vm_compute. discriminate.
  - vm_compute. reflexivity.
  - vm_compute. discriminate.
  - reflexivity.
  - intros i Hi. assert (Hi' : 0 <= i < 3) by exact Hi.
    assert (Hcases : i = 0 \/ i = 1 \/ i = 2) by lia.
    destruct Hcases as [-> | [-> | ->]]; vm_compute; eauto.
  - exists result. split; [exact Hcall |]. split; [exact Hlen |].
    split; [| split].
    + apply (Hnames 0 (Some "STUDIO (Camera 1)"%string)); [vm_compute; split; [discriminate | reflexivity] | reflexivity].
    + apply (Hnames 1 None); [vm_compute; split; [discriminate | reflexivity] | reflexivity].
    + apply (Hnames 2 (Some "STUDIO (Camera 3)"%string)); [vm_compute; split; [discriminate | reflexivity] | reflexivity].
Defined.

(** * Properties of the second part *)

(** ** Laws of the programs on the system state *)

Lemma sys_prefix_nil {R A} (o : Sys.outcome R A) : Sys.prefix [] o = o.
Proof. by destruct o. Qed.

Lemma set_process_same s : set_process (process s) s = s.
Proof. by destruct s. Qed.

Section SystemLaws.
Context {R B : Type}.
Implicit Types (s : system).

Lemma sys_bind_ret {A} (a : A) (k : A -> Sys.M R B) s : Sys.bind (Sys.ret a) k s = k a s.
Proof. unfold Sys.bind, Sys.ret. apply sys_prefix_nil. Qed.

Lemma sys_bind_Return {A} (r : R) (k : A -> Sys.M R B) s :
  Sys.bind (Sys.Return r) k s = Sys.Returned r s [].
Proof. reflexivity. Qed.

Lemma sys_bind_emit op (k : unit -> Sys.M R B) s :
  Sys.bind (Sys.emit op) k s = Sys.prefix [op] (k tt s).
Proof. reflexivity. Qed.

Lemma sys_bind_get (k : system -> Sys.M R B) s : Sys.bind Sys.get k s = k s s.
Proof. unfold Sys.bind, Sys.get. apply sys_prefix_nil. Qed.

Lemma sys_bind_when (c : bool) (m : Sys.M R unit) (k : unit -> Sys.M R B) s :
  Sys.bind (Sys.when c m) k s = if c then Sys.bind m k s else k tt s.
Proof. destruct c; [reflexivity | apply sys_bind_ret]. Qed.

Lemma sys_bind_assoc {A C} (m : Sys.M R A) (f : A -> Sys.M R C) (g : C -> Sys.M R B) s :
  Sys.bind (Sys.bind m f) g s = Sys.bind m (fun x => Sys.bind (f x) g) s.
Proof.
  unfold Sys.bind. destruct (m s) as [a s1 e1| |]; try reflexivity.
  destruct (f a s1) as [c s2 e2| |]; simpl; try reflexivity.
  destruct (g c s2); simpl; by rewrite ?app_assoc.
Qed.

Ltac sys_lifted :=
  unfold Sys.bind, lift, load_finder, load_receiver, lock_wrapper, unlock_wrapper,
    store, free, bind, load, emit, ret, undefined, prefix;
  repeat match goal with
         | |- context [heap (process ?s) !! ?p] =>
             destruct (heap (process s) !! p) as [[]|]
         end;
  simpl; rewrite ?sys_prefix_nil, ?set_process_same; reflexivity.

Lemma sys_bind_load_finder (p : Z) (k : NdiFinderWrapper.t -> Sys.M R B) s :
  Sys.bind (lift (load_finder p)) k s =
  match heap (process s) !! p with Some (BFinder f) => k f s | _ => Sys.Undefined end.
Proof. sys_lifted. Qed.

Lemma sys_bind_load_receiver (p : Z) (k : NdiReceiverWrapper.t -> Sys.M R B) s :
  Sys.bind (lift (load_receiver p)) k s =
  match heap (process s) !! p with Some (BReceiver r) => k r s | _ => Sys.Undefined end.
Proof. sys_lifted. Qed.

Lemma sys_bind_lock_wrapper (p : Z) (k : unit -> Sys.M R B) s :
  Sys.bind (lift (lock_wrapper p)) k s =
  match heap (process s) !! p with
  | Some (BFinder _) | Some (BReceiver _) =>
      Sys.prefix [known (pthread_mutex_lock (wrapper_mutex p))] (k tt s)
  | _ => Sys.Undefined
  end.
Proof. sys_lifted. Qed.

Lemma sys_bind_unlock_wrapper (p : Z) (k : unit -> Sys.M R B) s :
  Sys.bind (lift (unlock_wrapper p)) k s =
  match heap (process s) !! p with
  | Some (BFinder _) | Some (BReceiver _) =>
      Sys.prefix [known (pthread_mutex_unlock (wrapper_mutex p))] (k tt s)
  | _ => Sys.Undefined
  end.
Proof. sys_lifted. Qed.

Lemma sys_bind_store (p : Z) (b : block) (k : unit -> Sys.M R B) s :
  Sys.bind (lift (store p b)) k s =
  match heap (process s) !! p with
  | Some _ => k tt (set_process (set_heap (<[p := b]> (heap (process s))) (process s)) s)
  | None => Sys.Undefined
  end.
Proof.
  unfold Sys.bind, lift, store.
  destruct (heap (process s) !! p); [apply sys_prefix_nil | reflexivity].
Qed.

Lemma sys_bind_free_memory (p : Z) (k : unit -> Sys.M R B) s :
  Sys.bind (free_memory p) k s =
  if p =? 0 then k tt s
  else match c_strings s !! p with
       | Some _ => k tt (set_c_strings (delete p (c_strings s)) s)
       | None =>
           match heap (process s) !! p with
           | Some _ =>
               k tt (set_process (set_heap (delete p (heap (process s))) (process s)) s)
           | None => Sys.Undefined
           end
       end.
Proof.
  unfold Sys.bind, free_memory, lift, free.
  destruct (p =? 0); [apply sys_prefix_nil |].
  destruct (c_strings s !! p); [apply sys_prefix_nil |].
  destruct (heap (process s) !! p); [apply sys_prefix_nil | reflexivity].
Qed.

Lemma sys_bind_chars_at (p : Z) (k : option string -> Sys.M R B) s :
  Sys.bind (chars_at p) k s =
  if p =? 0 then k None s
  else match c_strings s !! p with
       | Some chars => k (Some chars) s
       | None => Sys.Undefined
       end.
Proof.
  unfold Sys.bind, chars_at.
  destruct (p =? 0); [apply sys_prefix_nil |].
  destruct (c_strings s !! p); [apply sys_prefix_nil | reflexivity].
Qed.

Lemma sys_bind_next_allocation (k : Z -> Sys.M R B) s :
  Sys.bind next_allocation k s =
  match allocator s with
  | [] => k 0 s
  | p :: answers =>
      if p =? 0 then k 0 (set_allocator answers s)
      else if (0 <? p) && (p <? 2 ^ 64) && unused p s
      then k p (set_allocator answers s)
      else Sys.Undefined
  end.
Proof.
  unfold Sys.bind, next_allocation.
  destruct (allocator s) as [| p answers]; [apply sys_prefix_nil |].
  destruct (p =? 0); [apply sys_prefix_nil |].
  destruct ((0 <? p) && (p <? 2 ^ 64) && unused p s); [apply sys_prefix_nil | reflexivity].
Qed.

End SystemLaws.

(** The allocator answers NULL, or an address that is in use neither for
    a block nor for a C string, or the behaviour is not defined. *)
Lemma next_allocation_cases {R B} (k : Z -> Sys.M R B) s :
  (exists s',
     Sys.bind next_allocation k s = k 0 s'
     /\ process s' = process s /\ c_strings s' = c_strings s)
  \/ (exists p s',
        Sys.bind next_allocation k s = k p s'
        /\ p <> 0 /\ is_address p
        /\ heap (process s) !! p = None /\ c_strings s !! p = None
        /\ process s' = process s /\ c_strings s' = c_strings s)
  \/ Sys.bind next_allocation k s = Sys.Undefined.
Proof.
  rewrite sys_bind_next_allocation.
  destruct (allocator s) as [| p answers]; [left; by exists s |].
  destruct (p =? 0) eqn:Hp; [left; by eexists |].
  destruct ((0 <? p) && (p <? 2 ^ 64) && unused p s) eqn:Hok; [| by right; right].
  right; left. apply Z.eqb_neq in Hp.
  apply andb_true_iff in Hok as [Hok Hun]. apply andb_true_iff in Hok as [H1%Z.ltb_lt H2%Z.ltb_lt].
  unfold unused in Hun.
  destruct (heap (process s) !! p) eqn:Hh; [done |].
  destruct (c_strings s !! p) eqn:Hc; [done |].
  exists p. eexists. split; [reflexivity |]. unfold is_address.
  repeat split; try done; lia.
Qed.

(** [jstring_to_cstring] answers NULL and changes nothing, or answers a
    fresh address at which the copy of the string is. *)
Lemma jstring_to_cstring_cases {R B} plat jstr (k : Z -> Sys.M R B) s :
  (exists s',
     Sys.bind (jstring_to_cstring plat jstr) k s = k 0 s'
     /\ process s' = process s /\ c_strings s' = c_strings s)
  \/ (exists chars p s',
        Sys.bind (jstring_to_cstring plat jstr) k s = k p s'
        /\ jstr = Some chars
        /\ p <> 0 /\ is_address p
        /\ heap (process s) !! p = None /\ c_strings s !! p = None
        /\ process s' = process s /\ c_strings s' = <[p := chars]> (c_strings s))
  \/ Sys.bind (jstring_to_cstring plat jstr) k s = Sys.Undefined.
Proof.
  unfold jstring_to_cstring.
  destruct jstr as [chars |]; [| left; exists s; by rewrite sys_bind_ret].
  destruct (GetStringUTFChars plat chars); [| left; exists s; by rewrite sys_bind_ret].
  unfold c_strdup. rewrite sys_bind_assoc.
  destruct (next_allocation_cases
              (fun out => Sys.bind
                 (if out =? 0 then Sys.ret 0
                  else fun s0 => Sys.Proceed out
                                   (set_c_strings (<[out := chars]> (c_strings s0)) s0) [])
                 k) s)
    as [(s' & -> & Hp & Hc) | [(p & s' & -> & Hne & Ha & Hh & Hs & Hp & Hc) | ->]].
  - left. exists s'. cbn [Z.eqb]. by rewrite sys_bind_ret.
  - right; left. apply Z.eqb_neq in Hne as Hne'. rewrite Hne'.
    exists chars, p. eexists. split.
    { unfold Sys.bind at 1. apply sys_prefix_nil. }
    cbn [process c_strings set_c_strings]. rewrite Hc. done.
  - by right; right.
Qed.

Lemma set_heap_known h w : h = heap w -> set_heap h w = w.
Proof. intros ->. apply set_heap_same. Qed.

Lemma unchanged_trans s1 s2 s3 : unchanged s1 s2 -> unchanged s2 s3 -> unchanged s1 s3.
Proof. intros [H1 H2] [H3 H4]. split; congruence. Qed.

Lemma unused_address_unchanged s s' p :
  unchanged s s' -> unused_address s' p -> unused_address s p.
Proof. intros [H1 H2] (? & ? & Hh & Hc). rewrite H1 in Hh. rewrite H2 in Hc. done. Qed.

(** [calloc] answers NULL and changes nothing, or answers an unused
    address at which the block is. *)
Lemma calloc_block_cases {R B} b (k : Z -> Sys.M R B) s :
  (exists s', Sys.bind (calloc_block b) k s = k 0 s' /\ unchanged s s')
  \/ (exists p s',
        Sys.bind (calloc_block b) k s = k p s'
        /\ unused_address s p /\ with_block p b s s')
  \/ Sys.bind (calloc_block b) k s = Sys.Undefined.
Proof.
  unfold calloc_block. rewrite sys_bind_assoc.
  match goal with
  | |- context [Sys.bind next_allocation ?k0 s] =>
      destruct (next_allocation_cases k0 s)
        as [(s' & -> & Hp & Hc) | [(p & s' & -> & Hne & Ha & Hh & Hs & Hp & Hc) | ->]]
  end.
  - left. exists s'. cbn [Z.eqb]. by rewrite sys_bind_ret.
  - right; left. apply Z.eqb_neq in Hne as Hne'. rewrite Hne'.
    exists p. eexists. split.
    { unfold Sys.bind at 1. apply sys_prefix_nil. }
    split; [done |]. split; cbn [process c_strings set_process]; by rewrite ?Hp, ?Hc.
  - by right; right.
Qed.

(** [jstring_to_cstring] with the copy it made: the characters at the
    address it answers. *)
Lemma jstring_to_cstring_copy {R B} plat jstr (k : Z -> Sys.M R B) s :
  (exists s', Sys.bind (jstring_to_cstring plat jstr) k s = k 0 s' /\ unchanged s s')
  \/ (exists chars p s',
        Sys.bind (jstring_to_cstring plat jstr) k s = k p s'
        /\ jstr = Some chars
        /\ unused_address s p
        /\ process s' = process s /\ c_strings s' = <[p := chars]> (c_strings s))
  \/ Sys.bind (jstring_to_cstring plat jstr) k s = Sys.Undefined.
Proof.
  destruct (jstring_to_cstring_cases plat jstr k s)
    as [(s' & Hk & Hp & Hc) | [(chars & p & s' & Hk & Hj & Hne & Ha & Hh & Hs & Hp & Hc) | Hk]].
  - left. by exists s'.
  - right; left. by exists chars, p, s'.
  - by right; right.
Qed.

(** ** Creating a finder *)

Lemma finderCreate_wrap plat showLocalSources groups extraIps s g e s2 :
  g_initialized (process s) <> 0 ->
  copy_of groups g -> copy_of extraIps e ->
  unchanged s s2 ->
  let settings := finder_settings showLocalSources g e in
  let finder := NDIlib_find_create_v2 plat settings in
  finderCreate_post plat showLocalSources groups extraIps s
    (Sys.prefix [call_NDIlib_find_create_v2 settings]
       ((Sys.when (finder =? 0) (Sys.Return 0) ;;
         wrapper <- calloc_block (BFinder (NdiFinderWrapper.mk 0)) ;;
         Sys.when (wrapper =? 0)
           (Sys.emit (call_NDIlib_find_destroy finder) ;; Sys.Return 0) ;;
         lift (store wrapper (BFinder (NdiFinderWrapper.mk finder))) ;;
         Sys.emit (call_pthread_mutex_init (wrapper_mutex wrapper)) ;;
         Sys.when (negb (pthread_mutex_init plat wrapper =? 0))
           (Sys.emit (call_NDIlib_find_destroy finder) ;;
            free_memory wrapper ;;
            Sys.Return 0) ;;
         Sys.Return (jlong_of_ptr wrapper))%sys s2)).
Proof.
  intros Hinit Hg He Hs2 settings finder.
  rewrite sys_bind_when. destruct (finder =? 0) eqn:Hf.
  { rewrite sys_bind_Return. apply Z.eqb_eq in Hf. by apply finder_not_created. }
  apply Z.eqb_neq in Hf.
  match goal with
  | |- context [Sys.bind (calloc_block ?b) ?k s2] =>
      destruct (calloc_block_cases b k s2)
        as [(s3 & -> & Hs3) | [(p & s3 & -> & Hun & Hp3 & Hc3) | ->]]
  end; cbv beta; [| | done].
  - rewrite sys_bind_when. cbn [Z.eqb].
    rewrite sys_bind_assoc, sys_bind_emit, sys_bind_Return. cbn [Sys.prefix app].
    apply finder_out_of_memory; try done. by eapply unchanged_trans.
  - destruct Hun as (Hne & Ha & Hh & Hs). apply Z.eqb_neq in Hne as Hne'.
    assert (Hun : unused_address s p).
    { apply (unused_address_unchanged s s2); done. }
    destruct Hs2 as [Hp2 Hc2].
    rewrite sys_bind_when, Hne'.
    rewrite sys_bind_store, Hp3. cbn [heap set_heap]. rewrite lookup_insert_eq.
    rewrite insert_insert_eq. rewrite set_heap_set_heap.
    rewrite sys_bind_emit, sys_bind_when.
    destruct (pthread_mutex_init plat p =? 0) eqn:Hm; cbn [negb].
    + apply Z.eqb_eq in Hm. cbn [Sys.Return Sys.prefix app].
      apply finder_created; try done.
      split; cbn [process c_strings set_process]; [by rewrite Hp2 | congruence].
    + apply Z.eqb_neq in Hm.
      rewrite sys_bind_assoc, sys_bind_emit, sys_bind_assoc, sys_bind_free_memory, Hne'.
      cbn [process c_strings set_process heap set_heap].
      rewrite Hc3, Hs. rewrite lookup_insert_eq. rewrite sys_bind_Return.
      cbn [Sys.prefix app].
      apply finder_without_mutex with (wrapper := p); try done.
      split; cbn [process c_strings set_process]; [| congruence].
      rewrite set_heap_set_heap, <- Hp2. apply set_heap_known.
      by rewrite delete_insert_id.
Qed.

Lemma not_empty_unfold chars :
  (if is_empty_string chars then None else chars) = not_empty chars.
Proof. reflexivity. Qed.

Lemma finderCreate_sound plat showLocalSources groups extraIps s :
  finderCreate_post plat showLocalSources groups extraIps s
    (finderCreate plat showLocalSources groups extraIps s).
Proof.
  unfold finderCreate.
  rewrite sys_bind_get, sys_bind_when.
  destruct (g_initialized (process s) =? 0) eqn:Hinit.
  { rewrite sys_bind_Return. apply finder_refused. by apply Z.eqb_eq. }
  apply Z.eqb_neq in Hinit.
  match goal with
  | |- context [Sys.bind (jstring_to_cstring plat groups) ?k s] =>
      destruct (jstring_to_cstring_copy plat groups k s)
        as [(s1 & -> & Hs1)
           | [(gc & gp & s1 & -> & Hgj & Hgu & Hp1 & Hc1) | ->]]
  end; cbv beta; [| | done].
  - (* no copy of the groups *)
    match goal with
    | |- context [Sys.bind (jstring_to_cstring plat extraIps) ?k s1] =>
        destruct (jstring_to_cstring_copy plat extraIps k s1)
          as [(s2 & -> & Hs2)
             | [(ec & ep & s2 & -> & Hej & Heu & Hp2 & Hc2) | ->]]
    end; cbv beta; [| | done].
    + rewrite !sys_bind_chars_at. cbn [Z.eqb]. cbv zeta.
      rewrite sys_bind_emit, !sys_bind_free_memory. cbn [Z.eqb].
      rewrite !not_empty_unfold.
      apply (finderCreate_wrap plat showLocalSources groups extraIps s None None s2);
        [done | by left | by left |].
      by eapply unchanged_trans.
    + destruct Heu as (Hne & Ha & Hh & Hs). apply Z.eqb_neq in Hne as Hne'.
      rewrite !sys_bind_chars_at. cbn [Z.eqb]. rewrite Hne', Hc2, lookup_insert_eq.
      cbv zeta.
      rewrite sys_bind_emit, !sys_bind_free_memory. cbn [Z.eqb].
      rewrite Hne', Hc2, lookup_insert_eq.
      rewrite !not_empty_unfold.
      apply (finderCreate_wrap plat showLocalSources groups extraIps s None (Some ec) _);
        [done | by left | right; congruence |].
      destruct Hs1 as [Hp1 Hc1].
      split; cbn [process c_strings set_c_strings]; [congruence |].
      rewrite delete_insert_id by done. done.
  - (* a copy of the groups at [gp] *)
    destruct Hgu as (Hgne & Hga & Hgh & Hgs). apply Z.eqb_neq in Hgne as Hgne'.
    match goal with
    | |- context [Sys.bind (jstring_to_cstring plat extraIps) ?k s1] =>
        destruct (jstring_to_cstring_copy plat extraIps k s1)
          as [(s2 & -> & Hs2)
             | [(ec & ep & s2 & -> & Hej & Heu & Hp2 & Hc2) | ->]]
    end; cbv beta; [| | done].
    + destruct Hs2 as [Hp2 Hc2].
      rewrite sys_bind_chars_at. rewrite Hgne', Hc2, Hc1, lookup_insert_eq.
      rewrite sys_bind_chars_at. cbn [Z.eqb].
      cbv zeta.
      rewrite sys_bind_emit, !sys_bind_free_memory. cbn [Z.eqb].
      rewrite Hgne', Hc2, Hc1, lookup_insert_eq.
      rewrite !not_empty_unfold.
      apply (finderCreate_wrap plat showLocalSources groups extraIps s (Some gc) None _);
        [done | right; congruence | by left |].
      split; cbn [process c_strings set_c_strings]; [congruence |].
      rewrite ?Hc2, ?Hc1. by rewrite delete_insert_id.
    + destruct Heu as (Hene & Hea & Heh & Hes). apply Z.eqb_neq in Hene as Hene'.
      assert (Hpq : gp <> ep).
      { intros ->. rewrite Hc1, lookup_insert_eq in Hes. done. }
      rewrite sys_bind_chars_at. rewrite Hgne', Hc2, Hc1.
      rewrite lookup_insert_ne by done. rewrite lookup_insert_eq.
      rewrite sys_bind_chars_at. rewrite Hene', Hc2, lookup_insert_eq.
      cbv zeta.
      rewrite sys_bind_emit, sys_bind_free_memory. rewrite Hgne', ?Hc2, ?Hc1.
      rewrite lookup_insert_ne by done. rewrite lookup_insert_eq.
      rewrite sys_bind_free_memory. rewrite Hene'.
      cbn [process c_strings set_c_strings]. rewrite ?Hc2, ?Hc1.
      rewrite lookup_delete_ne by done. rewrite lookup_insert_eq.
      rewrite !not_empty_unfold.
      apply (finderCreate_wrap plat showLocalSources groups extraIps s (Some gc) (Some ec) _);
        [done | right; congruence | right; congruence |].
      split; cbn [process c_strings set_c_strings]; [congruence |].
      rewrite ?Hc2, ?Hc1. rewrite Hc1, lookup_insert_ne in Hes by done.
      apply map_eq. intros i.
      destruct (decide (i = ep)) as [-> | Hie]; [by rewrite lookup_delete_eq |].
      rewrite lookup_delete_ne by done.
      destruct (decide (i = gp)) as [-> | Hig]; [by rewrite lookup_delete_eq |].
      rewrite lookup_delete_ne by done.
      by rewrite !lookup_insert_ne.
Qed.

Lemma finderCreate_call plat showLocalSources groups extraIps s r s' ops :
  Sys.call (finderCreate plat showLocalSources groups extraIps) s = Some (r, s', ops) ->
  finderCreate_result plat showLocalSources groups extraIps s r s' ops.
Proof.
  intros Hcall. unfold Sys.call in Hcall.
  pose proof (finderCreate_sound plat showLocalSources groups extraIps s) as H.
  destruct (finderCreate _ _ _ _ _) as [| r0 s0 e0 |]; simpl in H; [done | | done].
  by simplify_eq.
Qed.

(** ** Creating a receiver *)

Lemma receiverCreate_sound plat receiverName bandwidth colorFormat allowVideoFields s :
  receiverCreate_post plat receiverName bandwidth colorFormat allowVideoFields s
    (receiverCreate plat receiverName bandwidth colorFormat allowVideoFields s).
Proof.
  unfold receiverCreate.
  rewrite sys_bind_get, sys_bind_when.
  destruct (g_initialized (process s) =? 0) eqn:Hinit.
  { rewrite sys_bind_Return. apply receiver_refused. by apply Z.eqb_eq. }
  apply Z.eqb_neq in Hinit.
  (* the state after the copy of the name: the copy [name] at [np] *)
  assert (Hrest : forall name np s1,
    copy_of receiverName name ->
    process s1 = process s ->
    (np = 0 /\ name = None /\ c_strings s1 = c_strings s
     \/ exists chars, name = Some chars /\ unused_address s np
                      /\ c_strings s1 = <[np := chars]> (c_strings s)) ->
    receiverCreate_post plat receiverName bandwidth colorFormat allowVideoFields s
      ((wrapper <- calloc_block (BReceiver (NdiReceiverWrapper.mk 0 0)) ;;
        Sys.when (wrapper =? 0) (free_memory np ;; Sys.Return 0) ;;
        Sys.emit (call_pthread_mutex_init (wrapper_mutex wrapper)) ;;
        Sys.when (negb (pthread_mutex_init plat wrapper =? 0))
          (free_memory np ;; free_memory wrapper ;; Sys.Return 0) ;;
        name_chars <- chars_at np ;;
        let settings :=
          NDIlib_recv_create_v3_t.mk
            (NDIlib_source_t.mk None None)
            (map_color_format colorFormat)
            (map_bandwidth bandwidth)
            (allowVideoFields =? 1)
            (if is_empty_string name_chars then None else name_chars) in
        Sys.emit (call_NDIlib_recv_create_v3 settings) ;;
        let recv := NDIlib_recv_create_v3 plat settings in
        lift (store wrapper (BReceiver (NdiReceiverWrapper.mk recv 0))) ;;
        free_memory np ;;
        Sys.when (recv =? 0)
          (Sys.emit (call_pthread_mutex_destroy (wrapper_mutex wrapper)) ;;
           free_memory wrapper ;;
           Sys.Return 0) ;;
        Sys.Return (jlong_of_ptr wrapper))%sys s1)).
  { intros name np s1 Hcopy Hp1 Hname.
    (* freeing the copy gives the strings of [s] back *)
    assert (Hfree : forall (k : unit -> Sys.M Z Z) s2,
      c_strings s2 = c_strings s1 ->
      exists s3, Sys.bind (free_memory np) k s2 = k tt s3
                 /\ process s3 = process s2 /\ c_strings s3 = c_strings s).
    { intros k s2 Hc2. rewrite sys_bind_free_memory.
      destruct Hname as [(-> & _ & Hc1) | (chars & _ & (Hne & _ & _ & Hs) & Hc1)].
      - exists s2. split; [done |]. split; [done | congruence].
      - apply Z.eqb_neq in Hne. rewrite Hne, Hc2, Hc1, lookup_insert_eq.
        eexists. split; [reflexivity |]. split; [done |].
        cbn [c_strings set_c_strings]. rewrite ?Hc2, ?Hc1. by apply delete_insert_id. }
    assert (Hchars : forall (k : option string -> Sys.M Z Z) s2,
      c_strings s2 = c_strings s1 -> Sys.bind (chars_at np) k s2 = k name s2).
    { intros k s2 Hc2. rewrite sys_bind_chars_at.
      destruct Hname as [(-> & -> & Hc1) | (chars & -> & (Hne & _ & _ & Hs) & Hc1)].
      - done.
      - apply Z.eqb_neq in Hne. by rewrite Hne, Hc2, Hc1, lookup_insert_eq. }
    match goal with
    | |- context [Sys.bind (calloc_block ?b) ?k s1] =>
        destruct (calloc_block_cases b k s1)
          as [(s2 & -> & Hp2 & Hc2) | [(p & s2 & -> & Hun & Hp2 & Hc2) | ->]]
    end; cbv beta; [| | done].
    - rewrite sys_bind_when. cbn [Z.eqb]. rewrite sys_bind_assoc.
      match goal with
      | |- context [Sys.bind (free_memory np) ?k s2] =>
          destruct (Hfree k s2 Hc2) as (s3 & -> & Hp3 & Hc3)
      end.
      rewrite sys_bind_Return.
      apply receiver_out_of_memory; [done |]. split; congruence.
    - destruct Hun as (Hne & Ha & Hh & Hs). apply Z.eqb_neq in Hne as Hne'.
      assert (Hun : unused_address s p).
      { split; [done |]. split; [done |]. rewrite <- Hp1. split; [done |].
        destruct Hname as [(_ & _ & Hc1) | (chars & _ & _ & Hc1)].
        - by rewrite <- Hc1.
        - rewrite Hc1 in Hs. apply lookup_insert_None in Hs. tauto. }
      assert (Hpn : p <> np).
      { destruct Hname as [(-> & _) | (chars & _ & _ & Hc1)]; [done |].
        rewrite Hc1 in Hs. apply lookup_insert_None in Hs. intros ->. tauto. }
      rewrite sys_bind_when, Hne'.
      rewrite sys_bind_emit, sys_bind_when.
      destruct (pthread_mutex_init plat p =? 0) eqn:Hm; cbn [negb].
      + apply Z.eqb_eq in Hm.
        rewrite (Hchars _ s2 Hc2). cbv zeta. rewrite not_empty_unfold.
        rewrite sys_bind_emit.
        rewrite sys_bind_store, Hp2. cbn [heap set_heap]. rewrite lookup_insert_eq.
        rewrite insert_insert_eq, set_heap_set_heap.
        match goal with
        | |- context [Sys.bind (free_memory np) ?k ?s0] =>
            destruct (Hfree k s0 Hc2) as (s3 & -> & Hp3 & Hc3)
        end.
        cbn [process set_process] in Hp3.
        rewrite sys_bind_when.
        fold (receiver_settings bandwidth colorFormat allowVideoFields name).
        destruct (NDIlib_recv_create_v3 plat _ =? 0) eqn:Hr.
        * apply Z.eqb_eq in Hr.
          rewrite sys_bind_assoc, sys_bind_emit, sys_bind_assoc, sys_bind_free_memory, Hne'.
          destruct Hun as (_ & _ & Hh0 & Hs0).
          rewrite Hc3, Hs0, Hp3. cbn [heap set_heap]. rewrite lookup_insert_eq.
          rewrite sys_bind_Return. cbn [Sys.prefix app].
          apply receiver_not_created; try done.
          split; cbn [process c_strings set_process]; [| done].
          rewrite set_heap_set_heap, <- Hp1. apply set_heap_known.
          rewrite Hp1. by rewrite delete_insert_id.
        * apply Z.eqb_neq in Hr. cbn [Sys.Return Sys.prefix app].
          apply receiver_created; try done.
          split; [by rewrite Hp3, Hp1 | done].
      + apply Z.eqb_neq in Hm.
        rewrite sys_bind_assoc.
        match goal with
        | |- context [Sys.bind (free_memory np) ?k s2] =>
            destruct (Hfree k s2 Hc2) as (s3 & -> & Hp3 & Hc3)
        end.
        rewrite sys_bind_assoc, sys_bind_free_memory, Hne'.
        destruct Hun as (_ & _ & Hh0 & Hs0).
        rewrite Hc3, Hs0, Hp3, Hp2. cbn [heap set_heap]. rewrite lookup_insert_eq.
        rewrite sys_bind_Return. cbn [Sys.prefix app].
        apply receiver_without_mutex; try done.
        split; cbn [process c_strings set_process]; [| done].
        rewrite set_heap_set_heap, <- Hp1. apply set_heap_known.
        rewrite Hp1. by rewrite delete_insert_id. }
  match goal with
  | |- context [Sys.bind (jstring_to_cstring plat receiverName) ?k s] =>
      destruct (jstring_to_cstring_copy plat receiverName k s)
        as [(s1 & -> & Hp1 & Hc1)
           | [(chars & np & s1 & -> & Hj & Hu & Hp1 & Hc1) | ->]]
  end; cbv beta; [| | done].
  - apply (Hrest None 0 s1); [by left | done |]. left. done.
  - apply (Hrest (Some chars) np s1); [right; congruence | done |].
    right. by exists chars.
Qed.

Lemma receiverCreate_call plat receiverName bandwidth colorFormat allowVideoFields s r s' ops :
  Sys.call (receiverCreate plat receiverName bandwidth colorFormat allowVideoFields) s
    = Some (r, s', ops) ->
  receiverCreate_result plat receiverName bandwidth colorFormat allowVideoFields s r s' ops.
Proof.
  intros Hcall. unfold Sys.call in Hcall.
  pose proof (receiverCreate_sound plat receiverName bandwidth colorFormat allowVideoFields s)
    as H.
  destruct (receiverCreate _ _ _ _ _ _) as [| r0 s0 e0 |]; simpl in H; [done | | done].
  by simplify_eq.
Qed.

(** ** Destroying, waiting, connecting *)

Lemma finderDestroy_run finderPtr s wrapper :
  finderPtr <> 0 -> ptr_of_jlong finderPtr <> 0 ->
  heap (process s) !! ptr_of_jlong finderPtr = Some (BFinder wrapper) ->
  c_strings s !! ptr_of_jlong finderPtr = None ->
  Sys.call (finderDestroy finderPtr) s =
  Some (tt,
        set_process (set_heap (delete (ptr_of_jlong finderPtr) (heap (process s)))
                       (process s)) s,
        known (pthread_mutex_lock (wrapper_mutex (ptr_of_jlong finderPtr)))
        :: (if NdiFinderWrapper.finder wrapper =? 0 then []
            else [call_NDIlib_find_destroy (NdiFinderWrapper.finder wrapper)])
        ++ [known (pthread_mutex_unlock (wrapper_mutex (ptr_of_jlong finderPtr)));
            call_pthread_mutex_destroy (wrapper_mutex (ptr_of_jlong finderPtr))]).
Proof.
  intros Hne Hp Hw Hs. apply Z.eqb_neq in Hne, Hp.
  unfold Sys.call, finderDestroy.
  rewrite sys_bind_when, Hne. cbv zeta.
  rewrite sys_bind_when, Hp.
  rewrite sys_bind_lock_wrapper, Hw.
  rewrite sys_bind_load_finder, Hw.
  rewrite sys_bind_when.
  destruct (NdiFinderWrapper.finder wrapper =? 0); cbn [negb].
  - rewrite sys_bind_unlock_wrapper, Hw.
    rewrite sys_bind_emit.
    unfold free_memory. rewrite Hp, Hs. unfold lift, free. rewrite Hp, Hw.
    reflexivity.
  - rewrite sys_bind_assoc, sys_bind_emit.
    rewrite sys_bind_store, Hw.
    rewrite sys_bind_unlock_wrapper. cbn [process set_process heap set_heap].
    rewrite lookup_insert_eq.
    rewrite sys_bind_emit.
    unfold free_memory. rewrite Hp. cbn [c_strings set_process]. rewrite Hs.
    unfold lift, free. rewrite Hp. cbn [process set_process heap set_heap].
    rewrite lookup_insert_eq. cbn [Sys.prefix app fmap list_fmap].
    rewrite delete_insert_eq. reflexivity.
Qed.

Lemma finderWaitForSources_run plat finderPtr timeoutMs s wrapper :
  finderPtr <> 0 -> ptr_of_jlong finderPtr <> 0 ->
  heap (process s) !! ptr_of_jlong finderPtr = Some (BFinder wrapper) ->
  Sys.call (finderWaitForSources plat finderPtr timeoutMs) s =
  if NdiFinderWrapper.finder wrapper =? 0 then Some (false, s, [])
  else Some (NDIlib_find_wait_for_sources plat (NdiFinderWrapper.finder wrapper)
               (to_uint32 timeoutMs), s,
             [known (pthread_mutex_lock (wrapper_mutex (ptr_of_jlong finderPtr)));
              call_NDIlib_find_wait_for_sources (NdiFinderWrapper.finder wrapper)
                (to_uint32 timeoutMs);
              known (pthread_mutex_unlock (wrapper_mutex (ptr_of_jlong finderPtr)))]).
Proof.
  intros Hne Hp Hw. apply Z.eqb_neq in Hne, Hp.
  unfold Sys.call, finderWaitForSources.
  rewrite sys_bind_when, Hne. cbv zeta.
  rewrite sys_bind_when, Hp.
  rewrite sys_bind_load_finder, Hw.
  rewrite sys_bind_when.
  destruct (NdiFinderWrapper.finder wrapper =? 0); [reflexivity |].
  rewrite sys_bind_lock_wrapper, Hw.
  rewrite sys_bind_emit.
  rewrite sys_bind_unlock_wrapper, Hw. reflexivity.
Qed.

Lemma receiverDestroy_run receiverPtr s wrapper :
  receiverPtr <> 0 -> ptr_of_jlong receiverPtr <> 0 ->
  heap (process s) !! ptr_of_jlong receiverPtr = Some (BReceiver wrapper) ->
  c_strings s !! ptr_of_jlong receiverPtr = None ->
  Sys.call (receiverDestroy receiverPtr) s =
  Some (tt,
        set_process (set_heap (delete (ptr_of_jlong receiverPtr) (heap (process s)))
                       (process s)) s,
        known (pthread_mutex_lock (wrapper_mutex (ptr_of_jlong receiverPtr)))
        :: (if NdiReceiverWrapper.surface_window wrapper =? 0 then []
            else [call_ANativeWindow_release (NdiReceiverWrapper.surface_window wrapper)])
        ++ (if NdiReceiverWrapper.recv wrapper =? 0 then []
            else [call_NDIlib_recv_destroy (NdiReceiverWrapper.recv wrapper)])
        ++ [known (pthread_mutex_unlock (wrapper_mutex (ptr_of_jlong receiverPtr)));
            call_pthread_mutex_destroy (wrapper_mutex (ptr_of_jlong receiverPtr))]).
Proof.
  intros Hne Hp Hw Hs. apply Z.eqb_neq in Hne, Hp.
  unfold Sys.call, receiverDestroy.
  rewrite sys_bind_when, Hne. cbv zeta.
  rewrite sys_bind_when, Hp.
  rewrite sys_bind_lock_wrapper, Hw.
  rewrite sys_bind_load_receiver, Hw.
  destruct wrapper as [recv window].
  cbn [NdiReceiverWrapper.recv NdiReceiverWrapper.surface_window].
  rewrite sys_bind_when.
  destruct (window =? 0) eqn:Hwin; cbn [negb].
  - rewrite sys_bind_load_receiver, Hw.
    cbn [NdiReceiverWrapper.recv NdiReceiverWrapper.surface_window].
    rewrite sys_bind_when.
    destruct (recv =? 0) eqn:Hrecv; cbn [negb].
    + rewrite sys_bind_unlock_wrapper, Hw.
      rewrite sys_bind_emit.
      unfold free_memory. rewrite Hp, Hs. unfold lift, free. rewrite Hp, Hw.
      reflexivity.
    + rewrite sys_bind_assoc, sys_bind_emit.
      rewrite sys_bind_store, Hw.
      rewrite sys_bind_unlock_wrapper. cbn [process set_process heap set_heap].
      rewrite lookup_insert_eq.
      rewrite sys_bind_emit.
      unfold free_memory. rewrite Hp. cbn [c_strings set_process]. rewrite Hs.
      unfold lift, free. rewrite Hp. cbn [process set_process heap set_heap].
      rewrite lookup_insert_eq. cbn [Sys.prefix app fmap list_fmap].
      rewrite delete_insert_eq. reflexivity.
  - rewrite sys_bind_assoc, sys_bind_emit.
    rewrite sys_bind_store, Hw.
    rewrite sys_bind_load_receiver. cbn [process set_process heap set_heap].
    rewrite lookup_insert_eq.
    cbn [NdiReceiverWrapper.recv NdiReceiverWrapper.surface_window].
    rewrite sys_bind_when.
    destruct (recv =? 0) eqn:Hrecv; cbn [negb].
    + rewrite sys_bind_unlock_wrapper. cbn [process set_process heap set_heap].
      rewrite lookup_insert_eq.
      rewrite sys_bind_emit.
      unfold free_memory. rewrite Hp. cbn [c_strings set_process]. rewrite Hs.
      unfold lift, free. rewrite Hp. cbn [process set_process heap set_heap].
      rewrite lookup_insert_eq. cbn [Sys.prefix app fmap list_fmap].
      rewrite delete_insert_eq. reflexivity.
    + rewrite sys_bind_assoc, sys_bind_emit.
      rewrite sys_bind_store. cbn [process set_process heap set_heap].
      rewrite lookup_insert_eq.
      rewrite sys_bind_unlock_wrapper. cbn [process set_process heap set_heap].
      rewrite lookup_insert_eq.
      rewrite sys_bind_emit.
      unfold free_memory. rewrite Hp. cbn [c_strings set_process]. rewrite Hs.
      unfold lift, free. rewrite Hp. cbn [process set_process heap set_heap].
      rewrite lookup_insert_eq. cbn [Sys.prefix app fmap list_fmap].
      rewrite !delete_insert_eq. reflexivity.
Qed.




(** ** Finder: creation *)

Lemma not_empty_copy jstr copy :
  copy_of jstr copy ->
  (not_empty copy = None \/ not_empty copy = jstr) /\ not_empty copy <> Some EmptyString.
Proof.
  intros [-> | ->]; [split; [by left | done] |].
  destruct jstr as [[| c chars] |]; cbn; split; try done; first [by left | by right].
Qed.

(** X13. A [finderCreate] that returns the empty handle leaves no trace:
    the process state and the C strings are as before (the copies of the
    strings and a wrapper that was allocated have been freed), the finder
    the engine may have created has been destroyed, and no mutex stays
    initialized. *)
Theorem finderCreate_failure_leaves_nothing
    plat showLocalSources groups extraIps s s' ops :
  Sys.call (finderCreate plat showLocalSources groups extraIps) s = Some (0, s', ops) ->
  process s' = process s /\ c_strings s' = c_strings s
  /\ created_instances plat ops = destroyed_instances ops
  /\ initialized_mutexes plat ops = destroyed_mutexes ops.
Proof.
  intros Hcall. apply finderCreate_call in Hcall.
  inversion Hcall as [Hi | g e s0 Hi Hg He Hf [Hp Hc] | g e s0 Hi Hg He Hf [Hp Hc]
                     | g e wrapper s0 Hi Hg He Hf Hu Hm [Hp Hc]
                     | g e wrapper s0 Hi Hg He Hf Hu Hm Hb Hr]; subst.
  - done.
  - repeat split; try done. cbn. by rewrite Hf.
  - repeat split; try done. cbn. apply Z.eqb_neq in Hf. by rewrite Hf.
  - repeat split; try done.
    + cbn. apply Z.eqb_neq in Hf. by rewrite Hf.
    + cbn. apply Z.eqb_neq in Hm. by rewrite Hm.
  - destruct Hu as (Hne & Ha & _). by destruct (jlong_of_ptr_nonzero wrapper Hne Ha).
Qed.

Lemma finderCreate_failure_leaves_nothing_witness :
  exists s' ops,
    Sys.call (finderCreate platform_no_mutex 1 (Some "studio"%string) None) system_ready
      = Some (0, s', ops)
    /\ process s' = process system_ready /\ c_strings s' = c_strings system_ready
    /\ created_instances platform_no_mutex ops = [501]
    /\ destroyed_instances ops = [501].
Proof.
  eexists _, _. split; [vm_compute; reflexivity |].
  edestruct (finderCreate_failure_leaves_nothing platform_no_mutex 1 (Some "studio"%string)
               None system_ready) as (Hp & Hc & Hi & _).
  { vm_compute. reflexivity. }
  split; [exact Hp |]. split; [exact Hc |]. split; [| rewrite <- Hi]; reflexivity.
Defined.

(** X14. A [finderCreate] that returns a handle has found the library
    initialized; the handle is the address, unused before, of a wrapper
    that holds the finder the engine created, which is not NULL; the
    mutex of the wrapper is initialized, nothing was destroyed, and the
    C strings are as before: the copies of the strings have been
    freed. *)
Theorem finderCreate_makes_wrapper plat showLocalSources groups extraIps s r s' ops :
  Sys.call (finderCreate plat showLocalSources groups extraIps) s = Some (r, s', ops) ->
  r <> 0 ->
  g_initialized (process s) <> 0
  /\ exists finder,
       finder <> 0
       /\ created_instances plat ops = [finder]
       /\ destroyed_instances ops = []
       /\ initialized_mutexes plat ops = [wrapper_mutex (ptr_of_jlong r)]
       /\ destroyed_mutexes ops = []
       /\ heap (process s) !! ptr_of_jlong r = None
       /\ process s'
          = set_heap (<[ptr_of_jlong r := BFinder (NdiFinderWrapper.mk finder)]>
                        (heap (process s))) (process s)
       /\ c_strings s' = c_strings s.
Proof.
  intros Hcall Hr. apply finderCreate_call in Hcall.
  inversion Hcall as [| | | | g e wrapper s0 Hi Hg He Hf Hu Hm [Hp Hc] Hrw]; subst; try done.
  destruct Hu as (Hne & Ha & Hh & Hs).
  rewrite ptr_of_jlong_of_ptr by done.
  split; [done |]. eexists. split; [exact Hf |].
  apply Z.eqb_neq in Hf as Hf'. apply Z.eqb_eq in Hm as Hm'.
  repeat split; try done; cbn; by rewrite ?Hf', ?Hm'.
Qed.

Lemma finderCreate_makes_wrapper_witness :
  exists r s' ops,
    Sys.call (finderCreate platform_ok 1 (Some "studio"%string) (Some EmptyString))
      system_ready = Some (r, s', ops)
    /\ r = 4200
    /\ heap (process s') !! 4200 = Some (BFinder (NdiFinderWrapper.mk 501))
    /\ c_strings s' = c_strings system_ready.
Proof.
  eexists _, _, _. split; [vm_compute; reflexivity |]. split; [reflexivity |].
  edestruct (finderCreate_makes_wrapper platform_ok 1 (Some "studio"%string)
               (Some EmptyString) system_ready 4200)
    as (_ & finder & _ & Hcr & _ & _ & _ & _ & Hp & Hc).
  { vm_compute. reflexivity. }
  { discriminate. }
  injection Hcr as <-.
  split; [| exact Hc]. rewrite Hp. reflexivity.
Defined.

(** X15. What [finderCreate] asks of the engine: the flag is set exactly
    when [showLocalSources] is [JNI_TRUE], and each of the two strings is
    passed as it was given or as NULL, never as an empty string: an empty
    string, like a string that could not be copied, is passed as NULL. *)
Theorem finderCreate_normalizes_strings
    plat showLocalSources groups extraIps s r s' ops settings :
  Sys.call (finderCreate plat showLocalSources groups extraIps) s = Some (r, s', ops) ->
  In (call_NDIlib_find_create_v2 settings) ops ->
  NDIlib_find_create_t.show_local_sources settings = (showLocalSources =? 1)
  /\ (NDIlib_find_create_t.p_groups settings = None
      \/ NDIlib_find_create_t.p_groups settings = groups)
  /\ NDIlib_find_create_t.p_groups settings <> Some EmptyString
  /\ (NDIlib_find_create_t.p_extra_ips settings = None
      \/ NDIlib_find_create_t.p_extra_ips settings = extraIps)
  /\ NDIlib_find_create_t.p_extra_ips settings <> Some EmptyString.
Proof.
  intros Hcall Hin. apply finderCreate_call in Hcall.
  assert (Hset : exists g e,
            copy_of groups g /\ copy_of extraIps e
            /\ settings = finder_settings showLocalSources g e).
  { inversion Hcall; subst; simpl in Hin;
      intuition (try discriminate); simplify_eq; eauto. }
  destruct Hset as (g & e & Hg & He & ->).
  destruct (not_empty_copy _ _ Hg) as [Hg1 Hg2].
  destruct (not_empty_copy _ _ He) as [He1 He2].
  done.
Qed.

Lemma finderCreate_normalizes_strings_witness :
  exists r s' ops,
    Sys.call (finderCreate platform_ok 1 (Some "studio"%string) (Some EmptyString))
      system_ready = Some (r, s', ops)
    /\ In (call_NDIlib_find_create_v2
             (NDIlib_find_create_t.mk true (Some "studio"%string) None)) ops
    /\ forall settings,
         In (call_NDIlib_find_create_v2 settings) ops ->
         NDIlib_find_create_t.p_extra_ips settings <> Some EmptyString.
Proof.
  eexists _, _, _. split; [vm_compute; reflexivity |].
  split; [left; reflexivity |].
  intros settings Hin.
  refine (proj2 (proj2 (proj2 (proj2
    (finderCreate_normalizes_strings platform_ok 1 (Some "studio"%string)
       (Some EmptyString) system_ready _ _ _ settings _ Hin))))).
  vm_compute. reflexivity.
Defined.

(** ** Receiver: creation *)

(** X16. A [receiverCreate] that returns the empty handle leaves no
    trace: the process state and the C strings are as before (the copy of
    the name and the wrapper have been freed), the engine created no
    receiver, and a mutex that was initialized has been destroyed. *)
Theorem receiverCreate_failure_leaves_nothing
    plat receiverName bandwidth colorFormat allowVideoFields s s' ops :
  Sys.call (receiverCreate plat receiverName bandwidth colorFormat allowVideoFields) s
    = Some (0, s', ops) ->
  process s' = process s /\ c_strings s' = c_strings s
  /\ created_instances plat ops = [] /\ destroyed_instances ops = []
  /\ initialized_mutexes plat ops = destroyed_mutexes ops.
Proof.
  intros Hcall. apply receiverCreate_call in Hcall.
  inversion Hcall as [Hi | s0 Hi [Hp Hc] | wrapper s0 Hi Hu Hm [Hp Hc]
                     | name wrapper s0 Hi Hn Hu Hm Hr [Hp Hc]
                     | name wrapper s0 Hi Hn Hu Hm Hr Hb Hrw]; subst.
  - done.
  - done.
  - repeat split; try done. cbn. apply Z.eqb_neq in Hm. by rewrite Hm.
  - repeat split; try done.
    + cbn. by rewrite Hr.
    + cbn. by rewrite Hm.
  - destruct Hu as (Hne & Ha & _). by destruct (jlong_of_ptr_nonzero wrapper Hne Ha).
Qed.

Lemma receiverCreate_failure_leaves_nothing_witness :
  exists s' ops,
    Sys.call (receiverCreate platform_no_engine (Some "monitor"%string) 3 1 1) system_ready
      = Some (0, s', ops)
    /\ process s' = process system_ready /\ c_strings s' = c_strings system_ready
    /\ initialized_mutexes platform_no_engine ops = [wrapper_mutex 4100]
    /\ destroyed_mutexes ops = [wrapper_mutex 4100].
Proof.
  eexists _, _. split; [vm_compute; reflexivity |].
  edestruct (receiverCreate_failure_leaves_nothing platform_no_engine
               (Some "monitor"%string) 3 1 1 system_ready) as (Hp & Hc & _ & _ & Hm).
  { vm_compute. reflexivity. }
  split; [exact Hp |]. split; [exact Hc |]. split; [| rewrite <- Hm]; reflexivity.
Defined.

(** X17. A [receiverCreate] that returns a handle has found the library
    initialized and has asked the engine for a receiver that is bound to
    no source, with the color format and the bandwidth the two mappers
    give (the defaults for a number that is not documented), fielded
    video allowed exactly when the flag is [JNI_TRUE], and the name given
    or NULL, never the empty string.  The handle is the address, unused
    before, of a wrapper that holds the receiver the engine created and
    no window; its mutex is initialized and the C strings are as
    before. *)
Theorem receiverCreate_makes_wrapper
    plat receiverName bandwidth colorFormat allowVideoFields s r s' ops :
  Sys.call (receiverCreate plat receiverName bandwidth colorFormat allowVideoFields) s
    = Some (r, s', ops) ->
  r <> 0 ->
  g_initialized (process s) <> 0
  /\ exists settings,
       ops = [call_pthread_mutex_init (wrapper_mutex (ptr_of_jlong r));
              call_NDIlib_recv_create_v3 settings]
       /\ pthread_mutex_init plat (ptr_of_jlong r) = 0
       /\ NDIlib_recv_create_v3_t.source_to_connect_to settings = NDIlib_source_t.mk None None
       /\ NDIlib_recv_create_v3_t.color_format settings = map_color_format colorFormat
       /\ NDIlib_recv_create_v3_t.bandwidth settings = map_bandwidth bandwidth
       /\ NDIlib_recv_create_v3_t.allow_video_fields settings = (allowVideoFields =? 1)
       /\ (NDIlib_recv_create_v3_t.p_ndi_recv_name settings = None
           \/ NDIlib_recv_create_v3_t.p_ndi_recv_name settings = receiverName)
       /\ NDIlib_recv_create_v3_t.p_ndi_recv_name settings <> Some EmptyString
       /\ NDIlib_recv_create_v3 plat settings <> 0
       /\ heap (process s) !! ptr_of_jlong r = None
       /\ process s'
          = set_heap (<[ptr_of_jlong r :=
                          BReceiver (NdiReceiverWrapper.mk
                                       (NDIlib_recv_create_v3 plat settings) 0)]>
                        (heap (process s))) (process s)
       /\ c_strings s' = c_strings s.
Proof.
  intros Hcall Hr. apply receiverCreate_call in Hcall.
  inversion Hcall as [| | | | name wrapper s0 Hi Hn Hu Hm Hrecv [Hp Hc] Hrw]; subst; try done.
  destruct Hu as (Hne & Ha & Hh & Hs).
  rewrite ptr_of_jlong_of_ptr by done.
  split; [done |]. eexists. split; [reflexivity |].
  destruct (not_empty_copy _ _ Hn) as [Hn1 Hn2].
  done.
Qed.

Lemma receiverCreate_makes_wrapper_witness :
  exists r s' ops,
    Sys.call (receiverCreate platform_ok (Some EmptyString) 7 (-1) 1) system_ready
      = Some (r, s', ops)
    /\ r = 4100
    /\ ops = [call_pthread_mutex_init (wrapper_mutex 4100);
              call_NDIlib_recv_create_v3
                (NDIlib_recv_create_v3_t.mk (NDIlib_source_t.mk None None)
                   NDIlib_recv_color_format_UYVY_BGRA NDIlib_recv_bandwidth_highest
                   true None)]
    /\ heap (process s') !! 4100 = Some (BReceiver (NdiReceiverWrapper.mk 502 0)).
Proof.
  eexists _, _, _. split; [vm_compute; reflexivity |]. split; [reflexivity |].
  edestruct (receiverCreate_makes_wrapper platform_ok (Some EmptyString) 7 (-1) 1
               system_ready 4100)
    as (_ & settings & Hops & _ & _ & _ & _ & _ & _ & _ & _ & _ & Hp & _).
  { vm_compute. reflexivity. }
  { discriminate. }
  split; [reflexivity |]. rewrite Hp. reflexivity.
Defined.

(** ** Creation needs the library *)

(** X18. While the library is not initialized, and so after [destroy],
    [finderCreate] and [receiverCreate] return the empty handle at once:
    they copy no string, allocate nothing and call nothing. *)
Theorem create_refused_without_library w w' evs :
  call destroy w = Some (tt, w', evs) ->
  forall plat s,
    process s = w' ->
    (forall showLocalSources groups extraIps,
       Sys.call (finderCreate plat showLocalSources groups extraIps) s = Some (0, s, []))
    /\ (forall receiverName bandwidth colorFormat allowVideoFields,
          Sys.call (receiverCreate plat receiverName bandwidth colorFormat allowVideoFields) s
          = Some (0, s, [])).
Proof.
  intros Hd plat s Hs. rewrite destroy_run in Hd.
  assert (Hg : (g_initialized (process s) =? 0) = true).
  { rewrite Hs. destruct (g_initialized w =? 0) eqn:Hg0; injection Hd as <- _;
      [exact Hg0 | reflexivity]. }
  split; intros.
  - unfold Sys.call, finderCreate. by rewrite sys_bind_get, sys_bind_when, Hg.
  - unfold Sys.call, receiverCreate. by rewrite sys_bind_get, sys_bind_when, Hg.
Qed.

Lemma create_refused_without_library_witness :
  let s := set_process (set_g_initialized 0 world_ready) system_ready in
  Sys.call (finderCreate platform_ok 1 None None) s = Some (0, s, [])
  /\ Sys.call (receiverCreate platform_ok (Some "monitor"%string) 3 1 1) s = Some (0, s, []).
Proof.
  cbv zeta.
  assert (Hd : call destroy world_ready
               = Some (tt, set_g_initialized 0 world_ready,
                       [pthread_mutex_lock g_init_mutex; call_NDIlib_destroy;
                        pthread_mutex_unlock g_init_mutex]))
    by (vm_compute; reflexivity).
  destruct (create_refused_without_library _ _ _ Hd platform_ok
              (set_process (set_g_initialized 0 world_ready) system_ready) eq_refl)
    as [Hf Hr].
  split; [apply Hf | apply Hr].
Defined.

(** ** Creation and destruction *)

(** X19. [finderDestroy] undoes [finderCreate]: on the handle a
    [finderCreate] returned it destroys, under the mutex of the wrapper,
    the finder that was created, then destroys the mutex and frees the
    wrapper, and the process state and the C strings are those from
    before the creation. *)
Theorem finderDestroy_undoes_finderCreate
    plat showLocalSources groups extraIps s r s1 ops1 :
  Sys.call (finderCreate plat showLocalSources groups extraIps) s = Some (r, s1, ops1) ->
  r <> 0 ->
  exists finder s2,
    created_instances plat ops1 = [finder]
    /\ Sys.call (finderDestroy r) s1
       = Some (tt, s2,
               [known (pthread_mutex_lock (wrapper_mutex (ptr_of_jlong r)));
                call_NDIlib_find_destroy finder;
                known (pthread_mutex_unlock (wrapper_mutex (ptr_of_jlong r)));
                call_pthread_mutex_destroy (wrapper_mutex (ptr_of_jlong r))])
    /\ process s2 = process s /\ c_strings s2 = c_strings s.
Proof.
  intros Hcall Hr. apply finderCreate_call in Hcall.
  inversion Hcall as [| | | | g e wrapper s0 Hi Hg He Hf Hu Hm [Hp Hc] Hrw]; subst; try done.
  destruct Hu as (Hne & Ha & Hh & Hs).
  set (finder := NDIlib_find_create_v2 plat _) in *.
  rewrite ptr_of_jlong_of_ptr by done.
  exists finder. eexists. split.
  { cbn. fold finder. apply Z.eqb_neq in Hf. by rewrite Hf. }
  split.
  { rewrite (finderDestroy_run (jlong_of_ptr wrapper) s1 (NdiFinderWrapper.mk finder)).
    - rewrite ptr_of_jlong_of_ptr by done. cbn [NdiFinderWrapper.finder].
      apply Z.eqb_neq in Hf. rewrite Hf. reflexivity.
    - done.
    - by rewrite ptr_of_jlong_of_ptr.
    - rewrite ptr_of_jlong_of_ptr by done. rewrite Hp. cbn [heap set_heap].
      apply lookup_insert_eq.
    - rewrite ptr_of_jlong_of_ptr by done. by rewrite Hc. }
  cbn [process c_strings set_process]. split; [| done].
  rewrite Hp. cbn [heap set_heap]. rewrite set_heap_set_heap.
  apply set_heap_known. by rewrite delete_insert_id.
Qed.

Lemma finderDestroy_undoes_finderCreate_witness :
  exists r s1 ops1 s2,
    Sys.call (finderCreate platform_ok 1 (Some "studio"%string) None) system_ready
      = Some (r, s1, ops1)
    /\ Sys.call (finderDestroy r) s1
       = Some (tt, s2,
               [known (pthread_mutex_lock (wrapper_mutex (ptr_of_jlong r)));
                call_NDIlib_find_destroy 501;
                known (pthread_mutex_unlock (wrapper_mutex (ptr_of_jlong r)));
                call_pthread_mutex_destroy (wrapper_mutex (ptr_of_jlong r))])
    /\ process s2 = process system_ready /\ c_strings s2 = c_strings system_ready.
Proof.
  eexists _, _, _.
  edestruct (finderDestroy_undoes_finderCreate platform_ok 1 (Some "studio"%string) None
               system_ready 4100)
    as (finder & s2 & Hcr & Hd & Hp & Hc).
  { vm_compute. reflexivity. }
  { discriminate. }
  exists s2. split; [vm_compute; reflexivity |].
  injection Hcr as <-. split; [exact Hd |]. split; [exact Hp | exact Hc].
Defined.

(** X20. [receiverDestroy] undoes [receiverCreate]: on the handle a
    [receiverCreate] returned it destroys, under the mutex of the
    wrapper, the receiver that was created (no window is held, none is
    released), then destroys the mutex and frees the wrapper, and the
    process state and the C strings are those from before the
    creation. *)
Theorem receiverDestroy_undoes_receiverCreate
    plat receiverName bandwidth colorFormat allowVideoFields s r s1 ops1 :
  Sys.call (receiverCreate plat receiverName bandwidth colorFormat allowVideoFields) s
    = Some (r, s1, ops1) ->
  r <> 0 ->
  exists recv s2,
    created_instances plat ops1 = [recv]
    /\ Sys.call (receiverDestroy r) s1
       = Some (tt, s2,
               [known (pthread_mutex_lock (wrapper_mutex (ptr_of_jlong r)));
                call_NDIlib_recv_destroy recv;
                known (pthread_mutex_unlock (wrapper_mutex (ptr_of_jlong r)));
                call_pthread_mutex_destroy (wrapper_mutex (ptr_of_jlong r))])
    /\ process s2 = process s /\ c_strings s2 = c_strings s.
Proof.
  intros Hcall Hr. apply receiverCreate_call in Hcall.
  inversion Hcall as [| | | | name wrapper s0 Hi Hn Hu Hm Hrecv [Hp Hc] Hrw]; subst; try done.
  destruct Hu as (Hne & Ha & Hh & Hs).
  set (recv := NDIlib_recv_create_v3 plat _) in *.
  rewrite ptr_of_jlong_of_ptr by done.
  exists recv. eexists. split.
  { cbn. fold recv. apply Z.eqb_neq in Hrecv. by rewrite Hrecv. }
  split.
  { rewrite (receiverDestroy_run (jlong_of_ptr wrapper) s1 (NdiReceiverWrapper.mk recv 0)).
    - rewrite ptr_of_jlong_of_ptr by done.
      cbn [NdiReceiverWrapper.recv NdiReceiverWrapper.surface_window Z.eqb].
      apply Z.eqb_neq in Hrecv. rewrite Hrecv. reflexivity.
    - done.
    - by rewrite ptr_of_jlong_of_ptr.
    - rewrite ptr_of_jlong_of_ptr by done. rewrite Hp. cbn [heap set_heap].
      apply lookup_insert_eq.
    - rewrite ptr_of_jlong_of_ptr by done. by rewrite Hc. }
  cbn [process c_strings set_process]. split; [| done].
  rewrite Hp. cbn [heap set_heap]. rewrite set_heap_set_heap.
  apply set_heap_known. by rewrite delete_insert_id.
Qed.

Lemma receiverDestroy_undoes_receiverCreate_witness :
  exists r s1 ops1 s2,
    Sys.call (receiverCreate platform_ok (Some "monitor"%string) 3 1 1) system_ready
      = Some (r, s1, ops1)
    /\ Sys.call (receiverDestroy r) s1
       = Some (tt, s2,
               [known (pthread_mutex_lock (wrapper_mutex (ptr_of_jlong r)));
                call_NDIlib_recv_destroy 502;
                known (pthread_mutex_unlock (wrapper_mutex (ptr_of_jlong r)));
                call_pthread_mutex_destroy (wrapper_mutex (ptr_of_jlong r))])
    /\ process s2 = process system_ready /\ c_strings s2 = c_strings system_ready.
Proof.
  eexists _, _, _.
  edestruct (receiverDestroy_undoes_receiverCreate platform_ok (Some "monitor"%string) 3 1 1
               system_ready 4100)
    as (recv & s2 & Hcr & Hd & Hp & Hc).
  { vm_compute. reflexivity. }
  { discriminate. }
  exists s2. split; [vm_compute; reflexivity |].
  injection Hcr as <-. split; [exact Hd |]. split; [exact Hp | exact Hc].
Defined.

(** X21. A wrapper handle is dead once it was destroyed: after a
    [finderDestroy] (or [receiverDestroy]) of a live wrapper, the wrapper
    is no longer on the heap, and every later call on the same handle
    (destroy again, wait, get sources; destroy again, connect,
    disconnect, set surface, capture, query) dereferences the freed
    wrapper and has no defined behaviour. *)
Theorem destroyed_handle_is_dead handle s s' ops :
  handle <> 0 -> ptr_of_jlong handle <> 0 ->
  c_strings s !! ptr_of_jlong handle = None ->
  (Sys.call (finderDestroy handle) s = Some (tt, s', ops) ->
   heap (process s') !! ptr_of_jlong handle = None
   /\ Sys.call (finderDestroy handle) s' = None
   /\ (forall plat timeoutMs,
         Sys.call (finderWaitForSources plat handle timeoutMs) s' = None)
   /\ (forall ndi env, call (finderGetSources ndi env handle) (process s') = None))
  /\ (Sys.call (receiverDestroy handle) s = Some (tt, s', ops) ->
      heap (process s') !! ptr_of_jlong handle = None
      /\ Sys.call (receiverDestroy handle) s' = None
      /\ (forall plat sourceName,
            Sys.call (receiverConnect plat handle sourceName) s' = None)
      /\ Sys.call (receiverDisconnect handle) s' = None
      /\ (forall plat surface,
            Sys.call (receiverSetSurface plat handle surface) s' = None)
      /\ (forall ndi env libc timeoutMs,
            call (receiverCaptureVideo ndi env libc handle timeoutMs) (process s') = None
            /\ call (receiverCaptureAudio ndi env libc handle timeoutMs) (process s') = None)
      /\ (forall fp_contract ndi env,
            call (receiverGetPerformance fp_contract ndi env handle) (process s') = None
            /\ call (receiverIsConnected ndi handle) (process s') = None)).
Proof.
  intros Hne Hp Hs. apply Z.eqb_neq in Hne as Hne', Hp as Hp'.
  split; intros Hcall.
  - assert (Hgone : heap (process s') !! ptr_of_jlong handle = None).
    { destruct (heap (process s) !! ptr_of_jlong handle) as [[wrapper | | | |]|] eqn:Hw.
      1: { rewrite (finderDestroy_run handle s wrapper Hne Hp Hw Hs) in Hcall.
           injection Hcall as <- _. cbn [process set_process heap set_heap].
           apply lookup_delete_eq. }
      all: exfalso; unfold Sys.call, finderDestroy in Hcall;
        rewrite sys_bind_when, Hne' in Hcall; cbv zeta in Hcall;
        rewrite sys_bind_when, Hp' in Hcall;
        rewrite sys_bind_lock_wrapper, Hw in Hcall; try done.
      rewrite sys_bind_load_finder, Hw in Hcall. by cbn [Sys.prefix] in Hcall. }
    split; [done |]. repeat split.
    + unfold Sys.call, finderDestroy.
      rewrite sys_bind_when, Hne'. cbv zeta. rewrite sys_bind_when, Hp'.
      by rewrite sys_bind_lock_wrapper, Hgone.
    + intros plat timeoutMs. unfold Sys.call, finderWaitForSources.
      rewrite sys_bind_when, Hne'. cbv zeta. rewrite sys_bind_when, Hp'.
      by rewrite sys_bind_load_finder, Hgone.
    + intros ndi env. unfold call, finderGetSources.
      rewrite bind_when, Hne'. cbv zeta. rewrite bind_when, Hp'.
      by rewrite bind_load_finder, Hgone.
  - assert (Hgone : heap (process s') !! ptr_of_jlong handle = None).
    { destruct (heap (process s) !! ptr_of_jlong handle) as [[| wrapper | | |]|] eqn:Hw.
      2: { rewrite (receiverDestroy_run handle s wrapper Hne Hp Hw Hs) in Hcall.
           injection Hcall as <- _. cbn [process set_process heap set_heap].
           apply lookup_delete_eq. }
      all: exfalso; unfold Sys.call, receiverDestroy in Hcall;
        rewrite sys_bind_when, Hne' in Hcall; cbv zeta in Hcall;
        rewrite sys_bind_when, Hp' in Hcall;
        rewrite sys_bind_lock_wrapper, Hw in Hcall; try done.
      rewrite sys_bind_load_receiver, Hw in Hcall. by cbn [Sys.prefix] in Hcall. }
    split; [done |]. repeat split.
    + unfold Sys.call, receiverDestroy.
      rewrite sys_bind_when, Hne'. cbv zeta. rewrite sys_bind_when, Hp'.
      by rewrite sys_bind_lock_wrapper, Hgone.
    + intros plat sourceName. unfold Sys.call, receiverConnect.
      rewrite sys_bind_when, Hne'. cbv zeta. rewrite sys_bind_when, Hp'.
      by rewrite sys_bind_load_receiver, Hgone.
    + unfold Sys.call, receiverDisconnect.
      rewrite sys_bind_when, Hne'. cbv zeta. rewrite sys_bind_when, Hp'.
      by rewrite sys_bind_load_receiver, Hgone.
    + intros plat surface. unfold Sys.call, receiverSetSurface.
      rewrite sys_bind_when, Hne'. cbv zeta. rewrite sys_bind_when, Hp'.
      by rewrite sys_bind_lock_wrapper, Hgone.
    + unfold call, receiverCaptureVideo.
      rewrite bind_when, Hne'. cbv zeta. rewrite bind_when, Hp'.
      by rewrite bind_load_receiver, Hgone.
    + unfold call, receiverCaptureAudio.
      rewrite bind_when, Hne'. cbv zeta. rewrite bind_when, Hp'.
      by rewrite bind_load_receiver, Hgone.
    + unfold call, receiverGetPerformance.
      rewrite bind_when, Hne'. cbv zeta. rewrite bind_when, Hp'.
      by rewrite bind_load_receiver, Hgone.
    + unfold call, receiverIsConnected.
      rewrite bind_when, Hne'. cbv zeta. rewrite bind_when, Hp'.
      by rewrite bind_load_receiver, Hgone.
Qed.

Lemma destroyed_handle_is_dead_witness :
  (exists s' ops,
     Sys.call (finderDestroy 1100) system_ready = Some (tt, s', ops)
     /\ Sys.call (finderDestroy 1100) s' = None
     /\ call (finderGetSources engine_sources env_ok 1100) (process s') = None)
  /\ (exists s' ops,
        Sys.call (receiverDestroy 1000) system_ready = Some (tt, s', ops)
        /\ Sys.call (receiverDestroy 1000) s' = None
        /\ call (receiverCaptureVideo (engine_video frame_bottom_up) env_ok libc_ok 1000 50)
             (process s') = None).
Proof.
  split.
  - assert (Hrun : Sys.call (finderDestroy 1100) system_ready
                   = Some (tt,
                           set_process (set_heap (delete 1100 (heap world_ready)) world_ready)
                             system_ready,
                           [known (pthread_mutex_lock (wrapper_mutex 1100));
                            call_NDIlib_find_destroy 88;
                            known (pthread_mutex_unlock (wrapper_mutex 1100));
                            call_pthread_mutex_destroy (wrapper_mutex 1100)]))
      by (vm_compute; reflexivity).
    destruct (proj1 (destroyed_handle_is_dead 1100 system_ready _ _
                       ltac:(discriminate) ltac:(vm_compute; discriminate) eq_refl) Hrun)
      as (_ & Hd & _ & Hg).
    eexists _, _. split; [exact Hrun |]. split; [exact Hd | apply Hg].
  - assert (Hrun : Sys.call (receiverDestroy 1000) system_ready
                   = Some (tt,
                           set_process (set_heap (delete 1000 (heap world_ready)) world_ready)
                             system_ready,
                           [known (pthread_mutex_lock (wrapper_mutex 1000));
                            call_NDIlib_recv_destroy 77;
                            known (pthread_mutex_unlock (wrapper_mutex 1000));
                            call_pthread_mutex_destroy (wrapper_mutex 1000)]))
      by (vm_compute; reflexivity).
    destruct (proj2 (destroyed_handle_is_dead 1000 system_ready _ _
                       ltac:(discriminate) ltac:(vm_compute; discriminate) eq_refl) Hrun)
      as (_ & Hd & _ & _ & _ & Hc & _).
    eexists _, _. split; [exact Hrun |]. split; [exact Hd | apply Hc].
Defined.

(** ** Surfaces *)



(** X23. [receiverDestroy] on a live receiver gives back everything the
    wrapper holds, each thing once and in this order: under the mutex of
    the wrapper it releases the window, if one is held, and destroys the
    engine receiver, if there is one; then it destroys the mutex and
    frees the wrapper.  Nothing else of the state changes. *)
Theorem receiverDestroy_gives_everything_back receiverPtr s wrapper :
  receiverPtr <> 0 -> ptr_of_jlong receiverPtr <> 0 ->
  heap (process s) !! ptr_of_jlong receiverPtr = Some (BReceiver wrapper) ->
  c_strings s !! ptr_of_jlong receiverPtr = None ->
  exists s' ops,
    Sys.call (receiverDestroy receiverPtr) s = Some (tt, s', ops)
    /\ released_windows ops = held_windows wrapper
    /\ destroyed_instances ops
       = (if NdiReceiverWrapper.recv wrapper =? 0 then []
          else [NdiReceiverWrapper.recv wrapper])
    /\ destroyed_mutexes ops = [wrapper_mutex (ptr_of_jlong receiverPtr)]
    /\ ops = known (pthread_mutex_lock (wrapper_mutex (ptr_of_jlong receiverPtr)))
             :: (call_ANativeWindow_release <$> released_windows ops)
             ++ (call_NDIlib_recv_destroy <$> destroyed_instances ops)
             ++ [known (pthread_mutex_unlock (wrapper_mutex (ptr_of_jlong receiverPtr)));
                 call_pthread_mutex_destroy (wrapper_mutex (ptr_of_jlong receiverPtr))]
    /\ heap (process s') = delete (ptr_of_jlong receiverPtr) (heap (process s))
    /\ g_initialized (process s') = g_initialized (process s)
    /\ c_strings s' = c_strings s.
Proof.
  intros Hne Hp Hw Hs.
  eexists _, _. split; [by apply (receiverDestroy_run receiverPtr s wrapper) |].
  unfold held_windows.
  destruct (NdiReceiverWrapper.surface_window wrapper =? 0),
           (NdiReceiverWrapper.recv wrapper =? 0); cbn; done.
Qed.

Lemma receiverDestroy_gives_everything_back_witness :
  exists s' ops,
    Sys.call (receiverDestroy 1000) system_with_surface = Some (tt, s', ops)
    /\ released_windows ops = [9]
    /\ destroyed_instances ops = [77]
    /\ heap (process s') = delete 1000 (heap (process system_with_surface)).
Proof.
  edestruct (receiverDestroy_gives_everything_back 1000 system_with_surface
               (NdiReceiverWrapper.mk 77 9))
    as (s' & ops & Hcall & Hw & Hi & _ & _ & Hh & _).
  - discriminate.
  - vm_compute. discriminate.
  - vm_compute. reflexivity.
  - reflexivity.
  - exists s', ops. split; [exact Hcall |]. split; [exact Hw |]. split; [exact Hi | exact Hh].
Defined.

(** ** Connection *)



(** ** Waiting for sources *)

(** X25. [finderWaitForSources] on a live finder asks the engine once,
    under the mutex of the wrapper, and returns its answer; the state is
    as before.  The timeout reaches the engine as an unsigned 32-bit
    number: a negative timeout is a wait of [2^32 + timeoutMs]
    milliseconds.  A wrapper whose finder is gone answers false without
    asking. *)
Theorem finderWaitForSources_asks_engine plat finderPtr timeoutMs s wrapper :
  finderPtr <> 0 -> ptr_of_jlong finderPtr <> 0 ->
  heap (process s) !! ptr_of_jlong finderPtr = Some (BFinder wrapper) ->
  int_range timeoutMs ->
  let finder := NdiFinderWrapper.finder wrapper in
  let waited := if timeoutMs <? 0 then timeoutMs + 2 ^ 32 else timeoutMs in
  Sys.call (finderWaitForSources plat finderPtr timeoutMs) s =
  if finder =? 0 then Some (false, s, [])
  else Some (NDIlib_find_wait_for_sources plat finder waited, s,
             [known (pthread_mutex_lock (wrapper_mutex (ptr_of_jlong finderPtr)));
              call_NDIlib_find_wait_for_sources finder waited;
              known (pthread_mutex_unlock (wrapper_mutex (ptr_of_jlong finderPtr)))]).
Proof.
  intros Hne Hp Hw Hrange finder waited. subst waited.
  rewrite <- (to_uint32_int _ Hrange).
  by apply finderWaitForSources_run.
Qed.

Lemma finderWaitForSources_asks_engine_witness :
  Sys.call (finderWaitForSources platform_ok 1100 (-1)) system_ready
  = Some (true, system_ready,
          [known (pthread_mutex_lock (wrapper_mutex 1100));
           call_NDIlib_find_wait_for_sources 88 4294967295;
           known (pthread_mutex_unlock (wrapper_mutex 1100))]).
Proof.
  apply (finderWaitForSources_asks_engine platform_ok 1100 (-1) system_ready
           (NdiFinderWrapper.mk 88)).
  - discriminate.
  - vm_compute. discriminate.
  - vm_compute. reflexivity.
  - vm_compute. split; [discriminate | reflexivity].
Defined.

(** ** Creating, then capturing *)

(** A capture on a live receiver, with the callback classes resolved and
    an address for the handle: the engine is asked once, and the frame it
    answers is delivered or given back. *)
Lemma receiverCaptureVideo_run ndi env libc receiverPtr timeoutMs w wrapper w1 cevs :
  receiver_of receiverPtr w wrapper ->
  ensure_jni_cache env w = Returned 1 w1 cevs ->
  fresh w (calloc libc) ->
  let recv := NdiReceiverWrapper.recv wrapper in
  let answer := fst (NDIlib_recv_capture_v2 ndi recv true false (to_uint32 timeoutMs)) in
  let frame := snd answer in
  let is_video := bool_decide (fst answer = NDIlib_frame_type_video) in
  let built :=
    negb (NDIlib_video_frame_v2_t.p_data frame =? 0)
    && negb (video_buffer_size frame <=? 0)
    && NewDirectByteBuffer env (NDIlib_video_frame_v2_t.p_data frame) (video_buffer_size frame)
    && NewObject env (g_class_VideoFrame (cache w1)) (g_ctor_VideoFrame (cache w1)) in
  exists w' evs,
    call (receiverCaptureVideo ndi env libc receiverPtr timeoutMs) w
    = Some (if is_video && built then Some (new_VideoFrame (calloc libc) frame) else None,
            w', evs)
    /\ engine_calls evs
       = call_NDIlib_recv_capture_v2 recv true false (to_uint32 timeoutMs)
         :: (if is_video && negb built then [call_NDIlib_recv_free_video_v2 recv frame] else [])
    /\ heap w'
       = if is_video && built
         then <[calloc libc := BVideoHandle (NdiVideoFrameHandle.mk recv frame)]> (heap w)
         else heap w.
Proof.
  intros (Hrp & Hp & Hw & Hrecv) Hc (Hc0 & Ha & Hfresh).
  intros recv answer frame is_video built.
  destruct (ensure_jni_cache_returns env w) as (ok & w1' & cevs' & Hc' & Hh1 & _ & Hcevs & _).
  rewrite Hc in Hc'. injection Hc' as <- <- <-.
  assert (Hw1 : heap w1 !! ptr_of_jlong receiverPtr = Some (BReceiver wrapper))
    by (by rewrite Hh1).
  assert (Hne : ptr_of_jlong receiverPtr <> calloc libc) by congruence.
  rewrite <- Hh1 in Hfresh. rewrite <- Hh1.
  unfold call, receiverCaptureVideo.
  apply Z.eqb_neq in Hrp, Hp, Hrecv.
  rewrite bind_when, Hrp. cbv zeta.
  rewrite bind_when, Hp.
  rewrite bind_load_receiver, Hw.
  rewrite bind_when, Hrecv.
  rewrite bind_invoke, Hc.
  rewrite bind_when. cbn [Z.eqb].
  rewrite bind_allocate.
  apply Z.eqb_neq in Hc0 as Hc0'. rewrite Hc0'.
  unfold is_address in Ha.
  assert (Hrange : (0 <? calloc libc) && (calloc libc <? 2 ^ 64) = true).
  { apply andb_true_iff. split; apply Z.ltb_lt; lia. }
  rewrite Hrange, Hfresh.
  rewrite bind_when. rewrite ?Hc0'. cbv iota beta.
  rewrite bind_store. cbn [heap set_heap]. rewrite lookup_insert_eq.
  rewrite insert_insert_eq.
  rewrite bind_lock_wrapper. cbn [heap set_heap].
  rewrite lookup_insert_ne by done. rewrite Hw1.
  rewrite bind_emit.
  rewrite bind_store. cbn [heap set_heap]. rewrite lookup_insert_eq.
  rewrite insert_insert_eq.
  rewrite bind_unlock_wrapper. cbn [heap set_heap].
  rewrite lookup_insert_ne by done. rewrite Hw1.
  rewrite !prefix_prefix.
  rewrite !set_heap_set_heap.
  fold recv. fold answer. fold frame.
  set (hd := NdiVideoFrameHandle.mk recv frame).
  set (w2 := set_heap (<[calloc libc := BVideoHandle hd]> (heap w1)) w1).
  assert (Hw2 : heap w2 !! ptr_of_jlong receiverPtr = Some (BReceiver wrapper)).
  { subst w2. cbn [heap set_heap]. by rewrite lookup_insert_ne. }
  assert (Hh2 : heap w2 !! calloc libc = Some (BVideoHandle hd)).
  { subst w2. cbn [heap set_heap]. by rewrite lookup_insert_eq. }
  assert (Hback : heap (set_heap (delete (calloc libc) (heap w2)) w2) = heap w1).
  { subst w2. cbn [heap set_heap]. by rewrite delete_insert_id. }
  set (capture_evs := (_ ++ [pthread_mutex_unlock _])).
  assert (Hcap : engine_calls capture_evs
                 = [call_NDIlib_recv_capture_v2 recv true false (to_uint32 timeoutMs)]).
  { subst capture_evs. rewrite !engine_calls_app, Hcevs. reflexivity. }
  assert (Hrel : forall (k : unit -> M (option VideoFrame.t) (option VideoFrame.t)),
    exists w' evs,
      match prefix capture_evs
              (bind (release_video_and_fail (ptr_of_jlong receiverPtr) (calloc libc)) k w2) with
      | Proceed r w' evs | Returned r w' evs => Some (r, w', evs)
      | Undefined => None
      end = Some (None, w', evs)
      /\ engine_calls evs
         = [call_NDIlib_recv_capture_v2 recv true false (to_uint32 timeoutMs);
            call_NDIlib_recv_free_video_v2 recv frame]
      /\ heap w' = heap w1).
  { intros k.
    rewrite (release_video_and_fail_run _ _ wrapper _ k w2 Hw2 Hh2 Hc0).
    eexists _, _. split; [reflexivity |]. split.
    - rewrite engine_calls_app, Hcap. reflexivity.
    - exact Hback. }
  rewrite bind_when. subst is_video.
  destruct (bool_decide (fst answer = NDIlib_frame_type_video)) eqn:Hv; cbn [negb andb].
  2: { rewrite bind_assoc, bind_free, Hc0', Hh2. rewrite bind_Return.
       eexists _, _. split; [reflexivity |]. split.
       - cbn [prefix]. by rewrite app_nil_r.
       - exact Hback. }
  rewrite bind_load_video_handle, Hh2.
  change (NdiVideoFrameHandle.frame hd) with frame.
  subst built.
  rewrite bind_when. destruct (NDIlib_video_frame_v2_t.p_data frame =? 0) eqn:Hdata.
  { apply Hrel. }
  rewrite bind_when. destruct (video_buffer_size frame <=? 0) eqn:Hsize.
  { apply Hrel. }
  rewrite bind_when.
  destruct (NewDirectByteBuffer env _ _); cbn [negb andb]; cycle 1.
  { apply Hrel. }
  rewrite bind_get.
  change (cache w2) with (cache w1).
  rewrite bind_when. destruct (NewObject env _ _); cbn [negb andb]; cycle 1.
  { apply Hrel. }
  unfold Return. cbn [prefix].
  eexists _, _. split; [reflexivity |]. split.
  - by rewrite app_nil_r.
  - reflexivity.
Qed.

(** X26. A receiver that was just created captures.  On the handle a
    [receiverCreate] returned, with the callback classes resolved and an
    unused address for the frame handle, [receiverCaptureVideo] asks the
    engine exactly once, for a video frame of the very receiver the
    creation made, with its timeout as an unsigned number.  It returns
    the frame object exactly when the engine answered a video frame with
    data and a positive size and both managed objects could be built,
    and then keeps the frame in the new handle; otherwise it returns
    empty with the heap as it was, a video frame having been given back
    to the engine. *)
Theorem created_receiver_captures
    plat receiverName bandwidth colorFormat allowVideoFields s r s' ops
    ndi env libc timeoutMs w1 cevs :
  Sys.call (receiverCreate plat receiverName bandwidth colorFormat allowVideoFields) s
    = Some (r, s', ops) ->
  r <> 0 ->
  ensure_jni_cache env (process s') = Returned 1 w1 cevs ->
  fresh (process s') (calloc libc) ->
  exists recv w' evs,
    created_instances plat ops = [recv]
    /\ (let answer := fst (NDIlib_recv_capture_v2 ndi recv true false (to_uint32 timeoutMs)) in
        let frame := snd answer in
        let is_video := bool_decide (fst answer = NDIlib_frame_type_video) in
        let built :=
          negb (NDIlib_video_frame_v2_t.p_data frame =? 0)
          && negb (video_buffer_size frame <=? 0)
          && NewDirectByteBuffer env (NDIlib_video_frame_v2_t.p_data frame)
               (video_buffer_size frame)
          && NewObject env (g_class_VideoFrame (cache w1)) (g_ctor_VideoFrame (cache w1)) in
        call (receiverCaptureVideo ndi env libc r timeoutMs) (process s')
        = Some (if is_video && built then Some (new_VideoFrame (calloc libc) frame) else None,
                w', evs)
        /\ engine_calls evs
           = call_NDIlib_recv_capture_v2 recv true false (to_uint32 timeoutMs)
             :: (if is_video && negb built
                 then [call_NDIlib_recv_free_video_v2 recv frame] else [])
        /\ heap w'
           = if is_video && built
             then <[calloc libc := BVideoHandle (NdiVideoFrameHandle.mk recv frame)]>
                    (heap (process s'))
             else heap (process s')).
Proof.
  intros Hcreate Hr Hcache Hlibc. apply receiverCreate_call in Hcreate.
  inversion Hcreate as [| | | | name wrapper s0 Hi Hn Hu Hm Hrecv [Hp Hc] Hrw]; subst;
    try done.
  destruct Hu as (Hne & Ha & Hh & Hs).
  set (recv0 := NDIlib_recv_create_v3 plat _) in *.
  assert (Hlive : heap (process s') !! ptr_of_jlong (jlong_of_ptr wrapper)
                  = Some (BReceiver (NdiReceiverWrapper.mk recv0 0))).
  { rewrite ptr_of_jlong_of_ptr by done. rewrite Hp. apply lookup_insert_eq. }
  exists recv0.
  destruct (receiverCaptureVideo_run ndi env libc (jlong_of_ptr wrapper) timeoutMs
              (process s') (NdiReceiverWrapper.mk recv0 0) w1 cevs)
    as (w' & evs & Hrun); [| done | done |].
  { split; [done |]. split; [by rewrite ptr_of_jlong_of_ptr |]. split; done. }
  exists w', evs. split; [| exact Hrun].
  cbn. fold recv0. apply Z.eqb_neq in Hrecv. by rewrite Hrecv.
Qed.

Lemma created_receiver_captures_witness :
  exists r s' ops w' evs,
    Sys.call (receiverCreate platform_ok (Some "monitor"%string) 3 1 1) system_ready
      = Some (r, s', ops)
    /\ created_instances platform_ok ops = [502]
    /\ call (receiverCaptureVideo (engine_video frame_bottom_up) env_ok libc_ok r 50)
         (process s')
       = Some (Some (new_VideoFrame 2000 frame_bottom_up), w', evs)
    /\ engine_calls evs = [call_NDIlib_recv_capture_v2 502 true false 50]
    /\ heap w'
       = <[2000 := BVideoHandle (NdiVideoFrameHandle.mk 502 frame_bottom_up)]>
           (heap (process s')).
Proof.
  assert (Hcreate :
    Sys.call (receiverCreate platform_ok (Some "monitor"%string) 3 1 1) system_ready
    = Some (4100,
            {| process := set_heap (<[4100 := BReceiver (NdiReceiverWrapper.mk 502 0)]>
                                      (heap world_ready)) world_ready;
               c_strings := ∅;
               allocator := [4200] |},
            [call_pthread_mutex_init (wrapper_mutex 4100);
             call_NDIlib_recv_create_v3
               (NDIlib_recv_create_v3_t.mk (NDIlib_source_t.mk None None)
                  NDIlib_recv_color_format_UYVY_BGRA NDIlib_recv_bandwidth_highest
                  true (Some "monitor"%string))]))
    by (vm_compute; reflexivity).
  eassert (Hcache :
    ensure_jni_cache env_ok
      (set_heap (<[4100 := BReceiver (NdiReceiverWrapper.mk 502 0)]> (heap world_ready))
         world_ready)
    = Returned 1 _ _) by (vm_compute; reflexivity).
  destruct (created_receiver_captures _ _ _ _ _ _ _ _ _
              (engine_video frame_bottom_up) env_ok libc_ok 50 _ _ Hcreate
              ltac:(discriminate) Hcache)
    as (recv & w' & evs & Hrecv & Hcall & Hevs & Hheap).
  { vm_compute. split; [discriminate |]. split; [| reflexivity].
    split; [discriminate | reflexivity]. }
  vm_compute in Hrecv. injection Hrecv as <-.
  eexists _, _, _, w', evs.
  split; [exact Hcreate |]. split; [reflexivity |].
  split; [exact Hcall |]. split; [exact Hevs | exact Hheap].
Defined.
